(** * Verification of the acnh design client: codec, error taxonomy,
      garment geometry and image encoding.

    The development is a shallow embedding of [acnh/errors.py],
    [acnh/designs/api.py] and [acnh/designs/encode.py].  Python values are
    modelled by an inductive [value], exceptions by an [outcome] monad,
    insertion-ordered dictionaries by association lists, the palette by a
    [gmap], and the raster library by a type class. *)

From Stdlib Require Import ZArith List Ascii String Lia Bool DecimalString DecimalZ.
From Stdlib.Strings Require Import Byte.
From stdpp Require Import gmap strings list fin_maps.
Import ListNotations.
Open Scope string_scope.
Open Scope list_scope.
Open Scope Z_scope.

(** ** Python values *)

(** The double quote character, used inside message templates. *)
Definition dq : string := String (ascii_of_nat 34) EmptyString.

(** [str(n)] for an integer. *)
Definition str_of_int (n : Z) : string := NilZero.string_of_int (Z.to_int n).

#[local] Unset Elimination Schemes.
Inductive value : Type :=
| VNone
| VBool (b : bool)
| VInt (n : Z)
| VStr (s : string)
| VBytes (b : list byte)
| VList (l : list value)
| VTuple (l : list value)
| VDict (d : list (string * value))
| VLayer (name : string) (size : Z * Z).
#[local] Set Elimination Schemes.

(** *** Insertion-ordered dictionaries ([dict]) as association lists. *)
Module PyDict.
Section Dict.
Context {K V : Type} `{EqDecision K}.

Definition t := list (K * V).

Fixpoint get (d : t) (k : K) : option V :=
  match d with
  | [] => None
  | (k', v) :: d' => if decide (k' = k) then Some v else get d' k
  end.

(** [d[k] = v]: an existing key keeps its position. *)
Fixpoint set (d : t) (k : K) (v : V) : t :=
  match d with
  | [] => [(k, v)]
  | (k', v') :: d' =>
      if decide (k' = k) then (k', v) :: d' else (k', v') :: set d' k v
  end.

Definition keys (d : t) : list K := map fst d.
Definition values (d : t) : list V := map snd d.
Definition items (d : t) : list (K * V) := d.
Definition len (d : t) : Z := Z.of_nat (List.length d).

(** [{k: v for ...}] and [dict(pairs)]: later bindings overwrite. *)
Definition of_list (l : list (K * V)) : t :=
  fold_left (fun d kv => set d (fst kv) (snd kv)) l [].
End Dict.
Arguments t : clear implicits.
End PyDict.

(** ** Error taxonomy ([acnh/errors.py]) and the error classes that
       [acnh/designs/encode.py] declares for itself. *)

(** [InvalidLayerSizeError] and [InvalidImageError] are each declared twice
    in [errors.py]; the suffix [_1] names the first declaration, which the
    second one shadows at module level but which stays a base class of the
    classes declared in between.  Classes of [encode.py] carry the prefix
    [Enc_]. *)
Inductive ErrClass : Set :=
| ACNHError
| InvalidFormatError
| DodoCodeError
| UnknownDodoCodeError
| InvalidDodoCodeError
| ImageError
| DesignError
| UnknownDesignCodeError
| InvalidDesignCodeError
| UnknownAuthorIdError
| InvalidScaleFactorError
| InvalidAuthorIdError
| InvalidProArgument
| InvalidDesignError
| InvalidPaletteError
| InvalidLayerSizeError_1
| CannotScaleThumbnailError
| UnknownImageIdError
| InvalidLayerIndexError
| DeletionDeniedError
| InvalidImageError_1
| SingleLayerRequired
| InvalidLayerSizeError
| TiledImageTooBigError
| InvalidImageArgument
| InvalidLayerNameError
| InvalidLayerError
| MissingLayerError
| InvalidImageError
| InvalidImageIdError
| InvalidImageDeletionToken
| AuthorizationError
| MissingUserAgentStringError
| IncorrectAuthorizationError
| Enc_InvalidLayerNameError
| Enc_InvalidLayerError
| Enc_InvalidPaletteError
| Enc_InvalidLayerSizeError
| Enc_MissingLayerError.

Scheme Equality for ErrClass.

#[global] Instance ErrClass_eq_dec' : EqDecision ErrClass := ErrClass_eq_dec.

(** Base classes, in declaration order.  [Exception] and [object] are the
    roots and are left out. *)
Definition bases (c : ErrClass) : list ErrClass :=
  match c with
  | ACNHError => []
  | InvalidFormatError => [ACNHError]
  | DodoCodeError => [ACNHError]
  | UnknownDodoCodeError => [DodoCodeError]
  | InvalidDodoCodeError => [DodoCodeError; InvalidFormatError]
  | ImageError => [ACNHError]
  | DesignError => [ACNHError]
  | UnknownDesignCodeError => [DesignError]
  | InvalidDesignCodeError => [DesignError; InvalidFormatError]
  | UnknownAuthorIdError => [DesignError]
  | InvalidScaleFactorError => [InvalidFormatError]
  | InvalidAuthorIdError => [DesignError; InvalidFormatError]
  | InvalidProArgument => [DesignError; InvalidFormatError]
  | InvalidDesignError => [DesignError]
  | InvalidPaletteError => [DesignError]
  | InvalidLayerSizeError_1 => [DesignError]
  | CannotScaleThumbnailError => []
  | UnknownImageIdError => [ImageError]
  | InvalidLayerIndexError => [ACNHError]
  | DeletionDeniedError => [ImageError]
  | InvalidImageError_1 => [ImageError]
  | SingleLayerRequired => [InvalidImageError_1]
  | InvalidLayerSizeError => [InvalidImageError_1]
  | TiledImageTooBigError => [InvalidImageError_1]
  | InvalidImageArgument => [ImageError]
  | InvalidLayerNameError => [DesignError]
  | InvalidLayerError => [DesignError]
  | MissingLayerError => [InvalidLayerError]
  | InvalidImageError => [ImageError]
  | InvalidImageIdError => [ImageError; InvalidFormatError]
  | InvalidImageDeletionToken => [ImageError; InvalidFormatError]
  | AuthorizationError => [ACNHError]
  | MissingUserAgentStringError => [AuthorizationError]
  | IncorrectAuthorizationError => [AuthorizationError]
  | Enc_InvalidLayerNameError => [DesignError]
  | Enc_InvalidLayerError => [DesignError]
  | Enc_InvalidPaletteError => [DesignError]
  | Enc_InvalidLayerSizeError => [DesignError]
  | Enc_MissingLayerError => [Enc_InvalidLayerError]
  end.

(** *** Method resolution order (C3 linearisation). *)

Definition in_tail (c : ErrClass) (s : list ErrClass) : bool :=
  match s with
  | [] => false
  | _ :: tl => existsb (ErrClass_beq c) tl
  end.

(** The first head that occurs in no tail. *)
Fixpoint c3_candidate (heads : list ErrClass) (seqs : list (list ErrClass))
  : option ErrClass :=
  match heads with
  | [] => None
  | h :: rest =>
      if existsb (in_tail h) seqs then c3_candidate rest seqs else Some h
  end.

Definition drop_head (c : ErrClass) (s : list ErrClass) : list ErrClass :=
  match s with
  | h :: tl => if ErrClass_beq h c then tl else s
  | [] => []
  end.

Definition nonempty {A} (l : list A) : bool :=
  match l with [] => false | _ => true end.

Fixpoint c3_merge (fuel : nat) (seqs : list (list ErrClass))
  : option (list ErrClass) :=
  match fuel with
  | O => None
  | S fuel' =>
      let seqs := List.filter nonempty seqs in
      match seqs with
      | [] => Some []
      | _ =>
          match c3_candidate (flat_map (firstn 1) seqs) seqs with
          | None => None
          | Some h =>
              option_map (cons h) (c3_merge fuel' (map (drop_head h) seqs))
          end
      end
  end.

Fixpoint sequence_opt {A} (l : list (option A)) : option (list A) :=
  match l with
  | [] => Some []
  | None :: _ => None
  | Some a :: l' => option_map (cons a) (sequence_opt l')
  end.

Fixpoint c3_mro (fuel : nat) (c : ErrClass) : option (list ErrClass) :=
  match fuel with
  | O => None
  | S fuel' =>
      match sequence_opt (map (c3_mro fuel') (bases c)) with
      | None => None
      | Some ls => option_map (cons c) (c3_merge 64 (ls ++ [bases c]))
      end
  end.

(** [cls.__mro__] without the roots; the hierarchy is at most four deep. *)
Definition mro (c : ErrClass) : list ErrClass :=
  match c3_mro 8 c with
  | Some l => l
  | None => [c]
  end.
(** *** Error instances, exceptions and outcomes. *)

Record instance := mkInstance {
  inst_class : ErrClass;
  inst_dict : list (string * value)   (* the instance's [__dict__] *)
}.

Inductive exn : Type :=
| KeyError
| IndexError
| TypeError
| StructError          (* [struct.error] *)
| OverflowError
| AttributeError (name : string)
| RuntimeError (msg : string)
| HTTPError (status : Z)   (* what [raise_for_status] raises *)
| Error (e : instance).

(** The result of running a piece of the program: a value, a raised
    exception, or a loop that did not finish within the fuel given. *)
Inductive outcome (A : Type) : Type :=
| Ret (a : A)
| Raise (e : exn)
| OutOfFuel.
Arguments Ret {A} a.
Arguments Raise {A} e.
Arguments OutOfFuel {A}.

Definition bind {A B} (m : outcome A) (k : A -> outcome B) : outcome B :=
  match m with
  | Ret a => k a
  | Raise e => Raise e
  | OutOfFuel => OutOfFuel
  end.

Declare Scope outcome_scope.
Delimit Scope outcome_scope with outcome.
Notation "'do' x <- m ; k" := (bind m (fun x => k))
  (at level 10, x name, m at level 100, k at level 200) : outcome_scope.
Notation "'do' ' p <- m ; k" := (bind m (fun x => let 'p := x in k))
  (at level 10, p strict pattern, m at level 100, k at level 200) : outcome_scope.
Notation "'run' m ; k" := (bind m (fun _ => k))
  (at level 10, m at level 100, k at level 200) : outcome_scope.
Open Scope outcome_scope.

Definition of_option {A} (e : exn) (o : option A) : outcome A :=
  match o with
  | Some a => Ret a
  | None => Raise e
  end.

(** [raise cls]: the class is instantiated without arguments. *)
Definition raise_class {A} (c : ErrClass) : outcome A :=
  Raise (Error (mkInstance c [])).


(** *** Constants of [acnh/designs/format.py] and [http.HTTPStatus]. *)

(** Modelled from the spec: [acnh/designs/format.py] is not part of the
    sources; section 4.2 fixes the palette capacity at 15, the standard
    layer at 32 by 32 pixels and a pixel at 4 bytes. *)
Definition PALETTE_SIZE : Z := 15.
Definition STANDARD_WIDTH : Z := 32.
Definition STANDARD_HEIGHT : Z := 32.
Definition STANDARD : Z * Z := (STANDARD_WIDTH, STANDARD_HEIGHT).
Definition BYTES_PER_PIXEL : Z := 4.

(** What the sources use and neither they nor the specification define:
    the tile bound of [format.py], and Python's [template.format(self)]. *)
Class Environment := {
  MAX_DESIGN_TILES : Z;
  str_format : string -> instance -> outcome string
}.

Module HTTPStatus.
Definition OK : Z := 200.
Definition BAD_REQUEST : Z := 400.
Definition UNAUTHORIZED : Z := 401.
Definition NOT_FOUND : Z := 404.
Definition REQUEST_ENTITY_TOO_LARGE : Z := 413.
Definition INTERNAL_SERVER_ERROR : Z := 500.
End HTTPStatus.

(** *** The design code alphabet, a class attribute of
        [InvalidDesignCodeError]. *)

Definition enumerate {A} (l : list A) : list (Z * A) :=
  combine (map Z.of_nat (seq 0 (List.length l))) l.

Definition DESIGN_CODE_ALPHABET : string := "0123456789BCDFGHJKLMNPQRSTVWXY".

Definition DESIGN_CODE_ALPHABET_VALUES : gmap ascii Z :=
  fold_left (fun m vc => <[snd vc := fst vc]> m)
            (enumerate (list_ascii_of_string DESIGN_CODE_ALPHABET)) ∅.

(** *** Patterns.  The design code pattern consumes one character per atom,
        so a pattern is a list of atoms and [fullmatch] compares lengths. *)
Inductive re_atom : Type :=
| ReChar (c : ascii)
| ReSet (cs : string).

Definition re_atom_pattern (a : re_atom) : string :=
  match a with
  | ReChar c => String c EmptyString
  | ReSet cs => "[" +:+ cs +:+ "]"
  end.

Definition re_atom_match (a : re_atom) (c : ascii) : bool :=
  match a with
  | ReChar c' => Ascii.eqb c' c
  | ReSet cs => existsb (Ascii.eqb c) (list_ascii_of_string cs)
  end.

Fixpoint re_fullmatch (r : list re_atom) (s : list ascii) : bool :=
  match r, s with
  | [], [] => true
  | a :: r', c :: s' => re_atom_match a c && re_fullmatch r' s'
  | _, _ => false
  end.

(** [_design_code_segment = f'[{DESIGN_CODE_ALPHABET}]{{4}}'] *)
Definition _design_code_segment : list re_atom :=
  repeat (ReSet DESIGN_CODE_ALPHABET) 4.

Fixpoint re_join (sep : list re_atom) (l : list (list re_atom)) : list re_atom :=
  match l with
  | [] => []
  | [x] => x
  | x :: l' => x ++ sep ++ re_join sep l'
  end.

(** [regex = re.compile('-'.join([_design_code_segment] * 3))] *)
Definition design_code_regex : list re_atom :=
  re_join [ReChar "-"] (repeat _design_code_segment 3).

Definition design_code_pattern : string :=
  let seg := "[" +:+ DESIGN_CODE_ALPHABET +:+ "]{4}" in
  String.concat "-" (repeat seg 3).

(** *** Class attributes. *)

Section ClassDicts.
Context `{Environment}.

Definition class_dict (c : ErrClass) : list (string * value) :=
  match c with
  | ACNHError => []
  | InvalidFormatError => [("http_status", VInt HTTPStatus.BAD_REQUEST)]
  | DodoCodeError => []
  | UnknownDodoCodeError =>
      [("code", VInt 101); ("http_status", VInt HTTPStatus.NOT_FOUND);
       ("message", VStr "unknown dodo code")]
  | InvalidDodoCodeError =>
      [("code", VInt 102); ("message", VStr "invalid dodo code");
       ("regex", VStr "[A-HJ-NP-Y0-9]{5}")]
  | ImageError => []
  | DesignError => []
  | UnknownDesignCodeError =>
      [("code", VInt 201); ("message", VStr "unknown design code");
       ("http_status", VInt HTTPStatus.NOT_FOUND)]
  | InvalidDesignCodeError =>
      [("code", VInt 202); ("message", VStr "invalid design code");
       ("DESIGN_CODE_ALPHABET", VStr DESIGN_CODE_ALPHABET);
       ("regex", VStr design_code_pattern)]
  | UnknownAuthorIdError =>
      [("code", VInt 203); ("message", VStr "unknown author ID");
       ("http_status", VInt HTTPStatus.NOT_FOUND)]
  | InvalidScaleFactorError =>
      [("message", VStr "invalid scale factor"); ("code", VInt 204);
       ("regex", VStr "[123456]")]
  | InvalidAuthorIdError =>
      [("code", VInt 205); ("message", VStr "invalid author ID");
       ("regex", VStr "\d{4}-?\d{4}-?\d{4}")]
  | InvalidProArgument =>
      [("message", VStr "invalid value for pro argument"); ("code", VInt 206);
       ("regex", VStr "[01]|(?:false|true)|[ft]")]
  | InvalidDesignError =>
      [("code", VInt 207); ("message", VStr "invalid design");
       ("http_status", VInt HTTPStatus.BAD_REQUEST)]
  | InvalidPaletteError =>
      [("code", VInt 208);
       ("message", VStr ("the combined palette of all layers exceeds "
                         +:+ str_of_int PALETTE_SIZE +:+ " colors"));
       ("http_status", VInt HTTPStatus.BAD_REQUEST)]
  | InvalidLayerSizeError_1 =>
      [("code", VInt 209);
       ("message", VStr ("layer " +:+ dq +:+ "{0.layer.name}" +:+ dq
          +:+ " did not meet the expected size ({0.layer.size[0]}×{0.layer.size[1]})"))]
  | CannotScaleThumbnailError =>
      [("message", VStr "cannot scale thumbnails"); ("code", VInt 230);
       ("http_status", VInt HTTPStatus.BAD_REQUEST)]
  | UnknownImageIdError =>
      [("code", VInt 301); ("message", VStr "unknown image ID");
       ("http_status", VInt HTTPStatus.NOT_FOUND)]
  | InvalidLayerIndexError =>
      [("code", VInt 302); ("message", VStr "invalid image layer")]
  | DeletionDeniedError =>
      [("code", VInt 303); ("message", VStr "you do not own this image");
       ("http_status", VInt HTTPStatus.UNAUTHORIZED)]
  | InvalidImageError_1 => [("http_status", VInt HTTPStatus.BAD_REQUEST)]
  | SingleLayerRequired =>
      [("code", VInt 304);
       ("message", VStr ("A single layer was required, but more than one was passed. "
          +:+ "If tiling was requested, do not pass multiple layers."))]
  | InvalidLayerSizeError =>
      [("code", VInt 305);
       ("message", VStr "One or more layers was not {0.width}×{0.height}.")]
  | TiledImageTooBigError =>
      [("code", VInt 306);
       ("message", VStr ("The uploaded image would exceed "
                         +:+ str_of_int MAX_DESIGN_TILES +:+ " tiles."));
       ("status", VInt HTTPStatus.REQUEST_ENTITY_TOO_LARGE)]
  | InvalidImageArgument =>
      [("code", VInt 307);
       ("message", VStr "missing or invalid required image argument {.argument_name}");
       ("http_status", VInt HTTPStatus.BAD_REQUEST)]
  | InvalidLayerNameError =>
      [("code", VInt 308); ("message", VStr "Invalid image layer name.");
       ("http_status", VInt HTTPStatus.BAD_REQUEST)]
  | InvalidLayerError => [("http_status", VInt HTTPStatus.BAD_REQUEST)]
  | MissingLayerError =>
      [("code", VInt 309);
       ("message", VStr ("Payload was missing one or more layers. First missing layer: "
          +:+ dq +:+ "{0.layer.name}" +:+ dq));
       ("http_status", VInt HTTPStatus.BAD_REQUEST)]
  | InvalidImageError =>
      [("code", VInt 310);
       ("message", VStr "One or more layers submitted represented an invalid image.");
       ("status", VInt HTTPStatus.BAD_REQUEST)]
  | InvalidImageIdError =>
      [("code", VInt 311); ("message", VStr "Invalid image ID.");
       ("regex", VStr "[0-9]+")]
  | InvalidImageDeletionToken =>
      [("code", VInt 312); ("message", VStr "invalid image deletion token");
       ("regex", VStr "[a-zA-Z0-9]+")]
  | AuthorizationError => []
  | MissingUserAgentStringError =>
      [("code", VInt 901); ("message", VStr "User-Agent header required");
       ("http_status", VInt HTTPStatus.BAD_REQUEST)]
  | IncorrectAuthorizationError =>
      [("code", VInt 902);
       ("message", VStr "invalid or incorrect Authorization header");
       ("http_status", VInt HTTPStatus.UNAUTHORIZED)]
  | Enc_InvalidLayerNameError =>
      [("code", VInt 37); ("message", VStr "Invalid image layer name.");
       ("http_status", VInt HTTPStatus.BAD_REQUEST)]
  | Enc_InvalidLayerError => [("http_status", VInt HTTPStatus.BAD_REQUEST)]
  | Enc_InvalidPaletteError =>
      [("code", VInt 27);
       ("message", VStr ("the combined palette of all layers exceed "
                         +:+ str_of_int PALETTE_SIZE +:+ " colors"));
       ("http_status", VInt HTTPStatus.BAD_REQUEST)]
  | Enc_InvalidLayerSizeError =>
      [("code", VInt 28);
       ("message", VStr ("layer " +:+ dq +:+ "{0.layer.name}" +:+ dq
          +:+ " did not meet the expected size ({0.layer.size[0]}×{0.layer.size[1]})"))]
  | Enc_MissingLayerError =>
      [("code", VInt 38);
       ("message", VStr ("Payload was missing one or more layers. First missing layer: "
          +:+ dq +:+ "{0.layer.name}" +:+ dq));
       ("http_status", VInt HTTPStatus.BAD_REQUEST)]
  end.

(** Class attribute lookup along the method resolution order. *)
Fixpoint lookup_mro (l : list ErrClass) (name : string) : option value :=
  match l with
  | [] => None
  | c :: l' =>
      match PyDict.get (class_dict c) name with
      | Some v => Some v
      | None => lookup_mro l' name
      end
  end.

Definition class_getattr (c : ErrClass) (name : string) : option value :=
  lookup_mro (mro c) name.
End ClassDicts.


(** *** Attribute access and the structured report [to_dict]. *)

Section Reports.
Context `{Environment}.

(** [self.name]: the instance dictionary first, then the classes. *)
Definition getattr (self : instance) (name : string) : outcome value :=
  match PyDict.get (inst_dict self) name with
  | Some v => Ret v
  | None => of_option (AttributeError name)
                      (class_getattr (inst_class self) name)
  end.

(** [d[k] = v] on a value that should be a dictionary. *)
Definition setitem (d : value) (k : string) (v : value) : outcome value :=
  match d with
  | VDict l => Ret (VDict (PyDict.set l k v))
  | _ => Raise TypeError
  end.

Definition getitem (d : value) (k : string) : outcome value :=
  match d with
  | VDict l => of_option KeyError (PyDict.get l k)
  | _ => Raise TypeError
  end.

Definition as_str (v : value) : outcome string :=
  match v with
  | VStr s => Ret s
  | _ => Raise (AttributeError "format")
  end.

Definition as_int (v : value) : outcome Z :=
  match v with
  | VInt n => Ret n
  | VBool b => Ret (if b then 1 else 0)
  | _ => Raise TypeError
  end.

(** [ACNHError.to_dict] *)
Definition ACNHError_to_dict (self : instance) : outcome value :=
  do message <- getattr self "message";
  do code <- getattr self "code";
  do http_status <- getattr self "http_status";
  Ret (VDict [("error", message); ("error_code", code);
              ("http_status", http_status)]).

(** The [to_dict] a class declares itself, given the result of
    [super().to_dict()], which every override calls first. *)
Definition own_to_dict (c : ErrClass)
  : option (outcome value -> instance -> outcome value) :=
  match c with
  | ACNHError => Some (fun _ self => ACNHError_to_dict self)
  | InvalidFormatError => Some (fun super self =>
      do d <- super;
      do regex <- getattr self "regex";
      do d <- setitem d "validation_regex" regex;
      Ret d)
  | InvalidLayerIndexError => Some (fun super self =>
      do d <- super;
      do num_layers <- getattr self "num_layers";
      do d <- setitem d "num_layers" num_layers;
      (* the body ends here, without [return d] *)
      Ret VNone)
  | InvalidLayerSizeError => Some (fun super self =>
      do d <- super;
      do width <- getattr self "width";
      do d <- setitem d "expected_width" width;
      do height <- getattr self "height";
      do d <- setitem d "expected_height" height;
      do w <- as_int width;
      do h <- as_int height;
      do d <- setitem d "expected_byte_length" (VInt (w * h * BYTES_PER_PIXEL));
      do message <- getattr self "message";
      do template <- as_str message;
      do text <- str_format template self;
      do d <- setitem d "message" (VStr text);
      Ret d)
  | InvalidImageArgument => Some (fun super self =>
      do d <- super;
      do argument_name <- getattr self "argument_name";
      do d <- setitem d "argument_name" argument_name;
      do error <- getitem d "error";
      do template <- as_str error;
      do text <- str_format template self;
      do d <- setitem d "error" (VStr text);
      Ret d)
  | InvalidLayerNameError | Enc_InvalidLayerNameError => Some (fun super self =>
      do d <- super;
      do valid_layer_names <- getattr self "valid_layer_names";
      do d <- setitem d "valid_layer_names" valid_layer_names;
      Ret d)
  | InvalidLayerError | Enc_InvalidLayerError => Some (fun super self =>
      do d <- super;
      do layer <- getattr self "layer";
      match layer with
      | VLayer name size =>
          do d <- setitem d "layer_name" (VStr name);
          do d <- setitem d "layer_size"
                    (VTuple [VInt (fst size); VInt (snd size)]);
          do message <- getattr self "message";
          do template <- as_str message;
          do text <- str_format template self;
          do d <- setitem d "error" (VStr text);
          Ret d
      | _ => Raise (AttributeError "name")
      end)
  | _ => None
  end.

(** Method lookup along the resolution order; [super()] continues in the
    rest of the order. *)
Fixpoint call_to_dict (l : list ErrClass) (self : instance) : outcome value :=
  match l with
  | [] => Raise (AttributeError "to_dict")
  | c :: l' =>
      match own_to_dict c with
      | Some body => body (call_to_dict l' self) self
      | None => call_to_dict l' self
      end
  end.

(** [self.to_dict()] *)
Definition to_dict (self : instance) : outcome value :=
  call_to_dict (mro (inst_class self)) self.

(** The error kinds of the canonical table of [errors.py]: the classes
    that carry a code. *)
Definition taxonomy : list ErrClass :=
  [UnknownDodoCodeError; InvalidDodoCodeError; UnknownDesignCodeError;
   InvalidDesignCodeError; UnknownAuthorIdError; InvalidScaleFactorError;
   InvalidAuthorIdError; InvalidProArgument; InvalidDesignError;
   InvalidPaletteError; InvalidLayerSizeError_1; CannotScaleThumbnailError;
   UnknownImageIdError; InvalidLayerIndexError; DeletionDeniedError;
   SingleLayerRequired; InvalidLayerSizeError; TiledImageTooBigError;
   InvalidImageArgument; InvalidLayerNameError; MissingLayerError;
   InvalidImageError; InvalidImageIdError; InvalidImageDeletionToken;
   MissingUserAgentStringError; IncorrectAuthorizationError].

(** Whether a report is a dictionary holding the three common keys. *)
Definition has_key (k : string) (v : value) : bool :=
  match v with
  | VDict l => bool_decide (is_Some (PyDict.get l k))
  | _ => false
  end.

Definition report_ok (r : outcome value) : bool :=
  match r with
  | Ret v => has_key "error" v && has_key "error_code" v
             && has_key "http_status" v
  | _ => false
  end.

(** [InvalidFormatError.validate], for the class whose pattern is
    modelled: the design code. *)
Definition InvalidDesignCodeError_validate (s : string) : outcome string :=
  if re_fullmatch design_code_regex (list_ascii_of_string s)
  then Ret s
  else raise_class InvalidDesignCodeError.
End Reports.

(** ** Shared utilities ([acnh/utils.py]) *)

Fixpoint chunked_fuel {A} (fuel : nat) (n : nat) (l : list A) : list (list A) :=
  match fuel with
  | O => []
  | S fuel' =>
      match l with
      | [] => []
      | _ => firstn n l :: chunked_fuel fuel' n (skipn n l)
      end
  end.

(** Modelled from the spec: [utils.chunked] is not part of the sources;
    section 4.1 describes it as the finite sequence of slices of length [n]
    of the input, in order, the last slice being shorter when the input
    runs out (no padding).  The size [n] is positive at every call. *)
Definition chunked {A} (l : list A) (n : nat) : list (list A) :=
  chunked_fuel (List.length l) n l.

(** ** Python string operations used by the codec *)

(** [s.replace(old, new)] for a one-character [old]. *)
Definition str_replace (s : string) (old : ascii) (new : string) : string :=
  String.concat ""
    (map (fun c => if Ascii.eqb c old then new else String c EmptyString)
         (list_ascii_of_string s)).

(** [s.zfill(width)]: zeros go after a leading sign. *)
Definition zfill (s : string) (width : nat) : string :=
  let n := String.length s in
  if (width <=? n)%nat then s
  else
    let zeros := string_of_list_ascii (repeat "0"%char (width - n)) in
    match s with
    | String c rest =>
        if Ascii.eqb c "+" || Ascii.eqb c "-"
        then String c (zeros +:+ rest)
        else zeros +:+ s
    | EmptyString => zeros
    end.

(** [s[i]] with Python's negative indices. *)
Definition str_getitem (s : string) (i : Z) : outcome ascii :=
  let n := Z.of_nat (String.length s) in
  let j := if i <? 0 then i + n else i in
  if (0 <=? j) && (j <? n)
  then of_option IndexError (String.get (Z.to_nat j) s)
  else Raise IndexError.

(** [chunked] on a string yields strings. *)
Definition str_chunked (s : string) (n : nat) : list string :=
  map string_of_list_ascii (chunked (list_ascii_of_string s) n).

(** ** Design identifier codec ([acnh/designs/api.py]) *)

Fixpoint design_id_loop (code : list ascii) (n : Z) : outcome Z :=
  match code with
  | [] => Ret n
  | c :: code' =>
      let n := n * 30 in
      do v <- of_option KeyError (DESIGN_CODE_ALPHABET_VALUES !! c);
      design_id_loop code' (n + v)
  end.

Definition design_id (design_code : string) : outcome Z :=
  let code := str_replace design_code "-" "" in
  design_id_loop (list_ascii_of_string code) 0.

(** The [while design_id:] loop; it does not end on a negative number. *)
Fixpoint design_code_loop (fuel : nat) (design_id : Z) (digits : list ascii)
  : outcome (list ascii) :=
  match fuel with
  | O => OutOfFuel
  | S fuel' =>
      if design_id =? 0 then Ret digits
      else
        let (design_id, digit) := (design_id / 30, design_id mod 30) in
        do c <- str_getitem DESIGN_CODE_ALPHABET digit;
        design_code_loop fuel' design_id (digits ++ [c])
  end.

Definition add_hyphens (author_id : string) : string :=
  String.concat "-" (str_chunked (zfill author_id (4 * 3)) 4).

Definition design_code (fuel : nat) (design_id : Z) : outcome string :=
  do digits <- design_code_loop fuel design_id [];
  Ret (add_hyphens (zfill (string_of_list_ascii (rev digits)) (4 * 3))).

(** ** Remote design service client ([acnh/designs/api.py]) *)

Record Request := mkRequest {
  req_method : string;
  req_path : string;
  req_params : list (string * value);
  req_data : option (list byte)
}.

Record Response := mkResponse {
  status_code : Z;
  content : list byte
}.

(** The collaborators at the boundary: the remote service behind
    [acnh().request], the MessagePack codec and [urllib.parse.urlparse]
    (path and query of a URL). *)
Class Service := {
  request : Request -> Response;
  msgpack_loads : list byte -> value;
  msgpack_dumps : value -> list byte;
  urlparse : string -> string * string
}.

Inductive DesignId : Type :=
| Code (s : string)
| Id (n : Z).

Definition MAX_DESIGNS : Z := 120.

Section Client.
Context `{Environment} `{Service}.

(** [resp.raise_for_status()] *)
Definition raise_for_status (resp : Response) : outcome unit :=
  if (400 <=? status_code resp) && (status_code resp <? 600)
  then Raise (HTTPError (status_code resp))
  else Ret tt.

Definition accepts_design_id {A} (func : Z -> outcome A)
  (design_id_or_code : DesignId) : outcome A :=
  match design_id_or_code with
  | Code s =>
      do code <- InvalidDesignCodeError_validate s;
      do design_id_ <- design_id code;
      func design_id_
  | Id n => func n
  end.

Definition truthy (v : value) : bool :=
  match v with
  | VNone => false
  | VBool b => b
  | VInt n => negb (n =? 0)
  | VStr s => negb (String.eqb s "")
  | VBytes b => nonempty b
  | VList l | VTuple l => nonempty l
  | VDict d => nonempty d
  | VLayer _ _ => true
  end.

Definition list_getitem (v : value) (i : nat) : outcome value :=
  match v with
  | VList l | VTuple l => of_option IndexError (nth_error l i)
  | _ => Raise TypeError
  end.

Definition merge_headers (data headers : value) : outcome value :=
  do v <- getitem headers "design_player_name";
  do data <- setitem data "author_name" v;
  do v <- getitem headers "design_player_id";
  do data <- setitem data "author_id" v;
  do v <- getitem headers "created_at";
  do data <- setitem data "created_at" v;
  do v <- getitem headers "updated_at";
  do data <- setitem data "updated_at" v;
  Ret data.

Definition download_design_body (partial : bool) (design_id : Z)
  : outcome value :=
  let resp := request (mkRequest "GET" "/api/v2/designs"
                [("offset", VInt 0); ("limit", VInt 1);
                 ("q[design_id]", VInt design_id)] None) in
  run raise_for_status resp;
  let resp := msgpack_loads (content resp) in
  do total <- getitem resp "total";
  if negb (truthy total) then raise_class UnknownDesignCodeError
  else
    do n <- as_int total;
    if 1 <? n
    then Raise (RuntimeError "one ID requested, but more than one returned?!")
    else
      do hs <- getitem resp "headers";
      do headers <- list_getitem hs 0;
      if partial then Ret headers
      else
        do body <- getitem headers "body";
        do body <- as_str body;
        let url := urlparse body in
        let resp := request (mkRequest "GET" (fst url +:+ "?" +:+ snd url) [] None) in
        let data := msgpack_loads (content resp) in
        merge_headers data headers.

Definition download_design (design_id_or_code : DesignId) (partial : bool)
  : outcome value :=
  accepts_design_id (download_design_body partial) design_id_or_code.

Definition delete_design_body (design_id : Z) : outcome unit :=
  let resp := request (mkRequest "DELETE"
                ("/api/v1/designs/" +:+ str_of_int design_id) [] None) in
  if status_code resp =? HTTPStatus.NOT_FOUND
  then raise_class UnknownDesignCodeError
  else Ret tt.

Definition delete_design (design_id_or_code : DesignId) : outcome unit :=
  accepts_design_id delete_design_body design_id_or_code.
End Client.

(** ** Design geometry catalog ([acnh/designs/encode.py]) *)

Definition XY : Type := Z * Z.

Record LayerCorrespondence := mkLayerCorrespondence {
  internal_idx : Z;
  external_name : string;
  internal_pos : XY;
  external_pos : XY;
  dimensions : XY
}.

Record Layer := mkLayer {
  name : string;
  size : XY
}.

(** [Layer * x], the metaclass product. *)
Definition Layer_mul (x : nat) : list Layer :=
  map (fun i => mkLayer (str_of_int (Z.of_nat i)) STANDARD) (seq 0 x).

Definition Layer_value (l : Layer) : value := VLayer (name l) (size l).

(** The raster library ([wand.image.Image]) at the boundary: an image has a
    size and exports its pixels as bytes, four per pixel; [blank] is a new
    image with a transparent background, [crop] is [image[xs, ys]] for two
    slices and [composite dst src left top] is the state of [dst] after
    [dst.composite(src, left, top)]. *)
Class Wand (Image : Type) := {
  image_size : Image -> XY;
  export_pixels : Image -> list byte;
  blank : Z -> Z -> Image;
  crop : Image -> Z * Z -> Z * Z -> Image;
  composite : Image -> Image -> Z -> Z -> Image
}.

(** What a design class declares or inherits before [__init_subclass__]
    runs: [None] is an attribute that [hasattr] does not find. *)
Record DesignDecl := mkDesignDecl {
  decl_name : string;                         (* [cls.__name__] *)
  decl_type_code : Z;
  decl_external_layers : list Layer;
  decl_internal_layers : option (list Layer);
  decl_correspondence : option (option (list LayerCorrespondence))
}.

(** A registered design class, as [__init_subclass__] leaves it. *)
Record DesignType := mkDesignType {
  type_name : string;                         (* [cls.__name__] *)
  type_code : Z;
  external_layers : list Layer;
  internal_layers : list Layer;
  correspondence : option (list LayerCorrespondence);
  external_layer_names : PyDict.t string Layer;
  one_to_one : bool
}.

Definition is_None {A} (o : option A) : bool :=
  match o with None => true | Some _ => false end.

Definition init_subclass (cls : DesignDecl) : DesignType :=
  let internal :=
    match decl_internal_layers cls with
    | Some l => l
    | None => map (fun il => mkLayer (str_of_int (fst il)) (size (snd il)))
                  (enumerate (decl_external_layers cls))
    end in
  let corr :=
    match decl_correspondence cls with
    | Some c => c
    | None => None
    end in
  mkDesignType (decl_name cls) (decl_type_code cls) (decl_external_layers cls)
    internal corr
    (PyDict.of_list (map (fun layer => (name layer, layer))
                         (decl_external_layers cls)))
    (is_None corr).

(** [class name(Design)] with the attributes of its body. *)
Definition design_class (name : string) (code : Z) (external : list Layer)
  (internal : option (list Layer))
  (corr : option (list LayerCorrespondence)) : DesignType :=
  init_subclass (mkDesignDecl name code external internal
                   (option_map Some corr)).

(** [class name(parent)] with a body that only sets [type_code]: every
    other attribute is found on the parent. *)
Definition subclass (parent : DesignType) (name : string) (code : Z)
  : DesignType :=
  init_subclass (mkDesignDecl name code (external_layers parent)
                   (Some (internal_layers parent))
                   (Some (correspondence parent))).

(** *** Layer sizes and shared layouts. *)
Definition SHORT_SLEEVE : XY := (22, 13).
Definition LONG_SLEEVE : XY := (22, 22).
Definition WIDE_SLEEVE : XY := (30, 22).
Definition LONG_BODY : XY := (32, 41).

Definition STANDARD_BODY_LAYERS : list Layer :=
  [mkLayer "back" STANDARD; mkLayer "front" STANDARD].
Definition LONG_BODY_LAYERS : list Layer :=
  [mkLayer "back" LONG_BODY; mkLayer "front" LONG_BODY].
Definition SHORT_SLEEVE_LAYERS : list Layer :=
  [mkLayer "right-sleeve" SHORT_SLEEVE; mkLayer "left-sleeve" SHORT_SLEEVE].
Definition LONG_SLEEVE_LAYERS : list Layer :=
  [mkLayer "right-sleeve" LONG_SLEEVE; mkLayer "left-sleeve" LONG_SLEEVE].
Definition WIDE_SLEEVE_LAYERS : list Layer :=
  [mkLayer "right-sleeve" WIDE_SLEEVE; mkLayer "left-sleeve" WIDE_SLEEVE].

Definition SHORT_SLEEVE_CORRESPONDENCE : list LayerCorrespondence :=
  [mkLayerCorrespondence 2 "right-sleeve" (5, 10) (0, 0) SHORT_SLEEVE;
   mkLayerCorrespondence 3 "left-sleeve" (5, 10) (0, 0) SHORT_SLEEVE].
Definition LONG_SLEEVE_CORRESPONDENCE : list LayerCorrespondence :=
  [mkLayerCorrespondence 2 "right-sleeve" (1, 10) (0, 0) LONG_SLEEVE;
   mkLayerCorrespondence 3 "left-sleeve" (1, 10) (0, 0) LONG_SLEEVE].
Definition WIDE_SLEEVE_CORRESPONDENCE : list LayerCorrespondence :=
  [mkLayerCorrespondence 2 "right-sleeve" (1, 10) (0, 0) WIDE_SLEEVE;
   mkLayerCorrespondence 3 "left-sleeve" (1, 10) (0, 0) WIDE_SLEEVE].
Definition STANDARD_BODY_CORRESPONDENCE : list LayerCorrespondence :=
  [mkLayerCorrespondence 0 "back" (0, 0) (0, 0) STANDARD;
   mkLayerCorrespondence 1 "front" (0, 0) (0, 0) STANDARD].
Definition LONG_BODY_CORRESPONDENCE : list LayerCorrespondence :=
  [mkLayerCorrespondence 0 "front" (0, 0) (0, 0) STANDARD;
   mkLayerCorrespondence 2 "front" (0, 0) (0, 32) (32, 9);
   mkLayerCorrespondence 1 "back" (0, 0) (0, 0) STANDARD;
   mkLayerCorrespondence 3 "back" (0, 0) (0, 32) (32, 9)].

(** *** The registered design classes. *)
Definition BasicDesign : DesignType :=
  design_class "BasicDesign" 99 [mkLayer "0" STANDARD] None None.
Definition TankTop : DesignType :=
  design_class "TankTop" 102 STANDARD_BODY_LAYERS None None.
Definition ShortSleeveTee : DesignType :=
  design_class "ShortSleeveTee" 101
    (STANDARD_BODY_LAYERS ++ SHORT_SLEEVE_LAYERS) (Some (Layer_mul 4))
    (Some (STANDARD_BODY_CORRESPONDENCE ++ SHORT_SLEEVE_CORRESPONDENCE)).
Definition LongSleeveDressShirt : DesignType :=
  design_class "LongSleeveDressShirt" 100
    (STANDARD_BODY_LAYERS ++ LONG_SLEEVE_LAYERS) (Some (Layer_mul 4))
    (Some (STANDARD_BODY_CORRESPONDENCE ++ LONG_SLEEVE_CORRESPONDENCE)).
Definition Sweater : DesignType := subclass LongSleeveDressShirt "Sweater" 103.
Definition Hoodie : DesignType := subclass LongSleeveDressShirt "Hoodie" 104.
Definition SleevelessDress : DesignType :=
  design_class "SleevelessDress" 107 LONG_BODY_LAYERS (Some (Layer_mul 4))
    (Some LONG_BODY_CORRESPONDENCE).
Definition Coat : DesignType :=
  design_class "Coat" 105 (LONG_BODY_LAYERS ++ LONG_SLEEVE_LAYERS) None
    (Some (LONG_BODY_CORRESPONDENCE ++ LONG_SLEEVE_CORRESPONDENCE)).
Definition ShortSleeveDress : DesignType :=
  design_class "ShortSleeveDress" 106
    (LONG_BODY_LAYERS ++ SHORT_SLEEVE_LAYERS) (Some (Layer_mul 4))
    (Some (LONG_BODY_CORRESPONDENCE ++ SHORT_SLEEVE_CORRESPONDENCE)).
Definition LongSleeveDress : DesignType := subclass Coat "LongSleeveDress" 108.
Definition RoundDress : DesignType := subclass ShortSleeveDress "RoundDress" 110.
Definition BalloonHemDress : DesignType :=
  subclass ShortSleeveDress "BalloonHemDress" 109.
Definition Robe : DesignType :=
  design_class "Robe" 111 (LONG_BODY_LAYERS ++ WIDE_SLEEVE_LAYERS)
    (Some (Layer_mul 4))
    (Some (LONG_BODY_CORRESPONDENCE ++ WIDE_SLEEVE_CORRESPONDENCE)).
Definition BrimmedCap : DesignType :=
  design_class "BrimmedCap" 112
    [mkLayer "front" (44, 41); mkLayer "back" (20, 44); mkLayer "brim" (44, 21)]
    (Some (Layer_mul 4))
    (Some [mkLayerCorrespondence 0 "front" (0, 0) (0, 0) STANDARD;
           mkLayerCorrespondence 1 "front" (0, 0) (32, 0) (12, 32);
           mkLayerCorrespondence 2 "front" (0, 0) (0, 32) (32, 9);
           mkLayerCorrespondence 3 "front" (0, 0) (32, 32) (12, 9);
           mkLayerCorrespondence 1 "back" (12, 0) (0, 0) (20, 32);
           mkLayerCorrespondence 3 "back" (12, 0) (0, 32) (20, 12);
           mkLayerCorrespondence 2 "brim" (0, 11) (0, 0) (32, 21);
           mkLayerCorrespondence 3 "brim" (0, 11) (32, 0) (12, 21)]).
Definition KnitCap : DesignType :=
  design_class "KnitCap" 113 [mkLayer "cap" (64, 53)]
    (Some [mkLayer "0" STANDARD; mkLayer "1" STANDARD;
           mkLayer "2" (32, 21); mkLayer "3" (32, 21)])
    (Some [mkLayerCorrespondence 0 "cap" (0, 0) (0, 0) STANDARD;
           mkLayerCorrespondence 0 "cap" (0, 0) (32, 0) STANDARD;
           mkLayerCorrespondence 0 "cap" (0, 0) (0, 32) STANDARD;
           mkLayerCorrespondence 0 "cap" (0, 0) (32, 32) STANDARD]).
Definition BrimmedHat : DesignType :=
  design_class "BrimmedHat" 114
    [mkLayer "top" (36, 36); mkLayer "middle" (64, 19); mkLayer "bottom" (64, 9)]
    (Some (Layer_mul 4))
    (Some [mkLayerCorrespondence 0 "top" (14, 0) (0, 0) (18, 32);
           mkLayerCorrespondence 1 "top" (0, 0) (18, 0) (18, 32);
           mkLayerCorrespondence 2 "top" (14, 0) (0, 32) (18, 4);
           mkLayerCorrespondence 3 "top" (0, 0) (18, 32) (18, 4);
           mkLayerCorrespondence 2 "middle" (0, 4) (0, 0) (32, 19);
           mkLayerCorrespondence 3 "middle" (0, 4) (32, 0) (32, 19);
           mkLayerCorrespondence 2 "bottom" (0, 23) (0, 0) (32, 9);
           mkLayerCorrespondence 3 "bottom" (0, 23) (32, 0) (32, 9)]).

(** The registry, in declaration order. *)
Definition design_types : list DesignType :=
  [BasicDesign; TankTop; ShortSleeveTee; LongSleeveDressShirt; Sweater;
   Hoodie; SleevelessDress; Coat; ShortSleeveDress; LongSleeveDress;
   RoundDress; BalloonHemDress; Robe; BrimmedCap; KnitCap; BrimmedHat].

(** *** Design instances. *)

Record Design (Image : Type) := mkDesign {
  design_type : DesignType;
  author_name : option string;
  island_name : option string;
  design_name : option string;
  layer_images : PyDict.t string Image
}.
Arguments mkDesign {Image}.
Arguments design_type {Image}.
Arguments author_name {Image}.
Arguments island_name {Image}.
Arguments design_name {Image}.
Arguments layer_images {Image}.

(** [l[i]] and [l[i] = x] on a list, with Python's negative indices. *)
Definition list_index {A} (l : list A) (i : Z) : outcome nat :=
  let n := Z.of_nat (List.length l) in
  let j := if i <? 0 then i + n else i in
  if (0 <=? j) && (j <? n) then Ret (Z.to_nat j) else Raise IndexError.

Section Designs.
Context {Image : Type} `{Wand Image}.

(** [Layer.as_wand] *)
Definition as_wand (self : Layer) : Image :=
  blank (fst (size self)) (snd (size self)).

(** [Layer.validate]; the exception is built from the layer's name. *)
Definition Layer_validate (self : Layer) (image : Image) : outcome unit :=
  if decide (image_size image = size self) then Ret tt
  else Raise (Error (mkInstance Enc_InvalidLayerSizeError
                       [("args", VTuple [VStr (name self)])])).

(** [Design.copy]: the state of [dst] afterwards. *)
Definition copy (dst src : Image) (dst_position src_position dimensions : XY)
  : Image :=
  let '(width, height) := dimensions in
  let '(x, y) := src_position in
  let x_slice := (x, x + width) in
  let y_slice := (y, y + height) in
  composite dst (crop src x_slice y_slice) (fst dst_position) (snd dst_position).

Fixpoint internalize_loop (self : Design Image)
  (cs : list LayerCorrespondence) (out : list Image) : outcome (list Image) :=
  match cs with
  | [] => Ret out
  | c :: cs' =>
      do i <- list_index out (internal_idx c);
      do dst <- of_option IndexError (out !! i);
      let dst_position := internal_pos c in
      do src <- of_option KeyError
                  (PyDict.get (layer_images self) (external_name c));
      let src_position := external_pos c in
      let dst := copy dst src dst_position src_position (dimensions c) in
      internalize_loop self cs' (<[i := dst]> out)
  end.

(** [Design.internalize] *)
Definition internalize (self : Design Image) : outcome (list Image) :=
  if one_to_one (design_type self)
  then Ret (PyDict.values (layer_images self))
  else
    let out := map as_wand (internal_layers (design_type self)) in
    match correspondence (design_type self) with
    | Some cs => internalize_loop self cs out
    | None => Raise TypeError
    end.

Definition MissingLayerError_new (layer : Layer) : instance :=
  mkInstance Enc_MissingLayerError [("layer", Layer_value layer)].

(** [InvalidLayerNameError(design)] of [encode.py] *)
Definition InvalidLayerNameError_new (design : Design Image) : instance :=
  mkInstance Enc_InvalidLayerNameError
    [("valid_layer_names",
      VList (map VStr (PyDict.keys (external_layer_names (design_type design)))))].

Fixpoint validate_loop (self : Design Image) (items : list (string * Layer))
  : outcome unit :=
  match items with
  | [] => Ret tt
  | (layer_name, layer) :: items' =>
      match PyDict.get (layer_images self) (name layer) with
      | None => Raise (Error (MissingLayerError_new layer))
      | Some image =>
          run Layer_validate layer image;
          validate_loop self items'
      end
  end.

(** [Design.validate] *)
Definition validate (self : Design Image) : outcome unit :=
  run validate_loop self (PyDict.items (external_layer_names (design_type self)));
  if PyDict.len (layer_images self)
     >? Z.of_nat (List.length (external_layers (design_type self)))
  then Raise (Error (InvalidLayerNameError_new self))
  else Ret tt.

(** [Design.pro] *)
Definition pro (self : Design Image) : bool :=
  Z.of_nat (List.length (internal_layers (design_type self))) >? 1.
End Designs.

(** ** Design image codec ([acnh/designs/encode.py]) *)

Definition byte_value (b : byte) : Z := Z.of_N (Byte.to_N b).

(** [struct.Struct('>L').unpack]: one big-endian 32-bit unsigned integer
    from exactly four bytes. *)
Definition LITTLE_ENDIAN_UINT32_unpack (px : list byte) : outcome Z :=
  match px with
  | [b0; b1; b2; b3] =>
      Ret (Z.lor (Z.shiftl (byte_value b0) 24)
          (Z.lor (Z.shiftl (byte_value b1) 16)
          (Z.lor (Z.shiftl (byte_value b2) 8) (byte_value b3))))
  | _ => Raise StructError
  end.

(** [struct.Struct('>LL').unpack_from]: two such integers from the first
    eight bytes of a buffer. *)
Definition TWO_LITTLE_ENDIAN_UINT32S_unpack_from (pixels : list byte)
  : outcome (Z * Z) :=
  if (List.length pixels <? 8)%nat then Raise StructError
  else
    do px1 <- LITTLE_ENDIAN_UINT32_unpack (firstn 4 pixels);
    do px2 <- LITTLE_ENDIAN_UINT32_unpack (firstn 4 (skipn 4 pixels));
    Ret (px1, px2).

(** [n.to_bytes(1, byteorder='big')] *)
Definition to_bytes1 (n : Z) : outcome byte :=
  if n <? 0 then Raise OverflowError
  else of_option OverflowError (Byte.of_N (Z.to_N n)).

Definition Palette : Type := PyDict.t Z Z.

Fixpoint gen_palette_pixels (pxs : list (list byte)) (st : Palette * Z)
  : outcome (Palette * Z) :=
  match pxs with
  | [] => Ret st
  | px :: pxs' =>
      let '(palette, color_i) := st in
      do color <- LITTLE_ENDIAN_UINT32_unpack px;
      match PyDict.get palette color with
      | None => gen_palette_pixels pxs' (PyDict.set palette color color_i, color_i + 1)
      | Some _ => gen_palette_pixels pxs' (palette, color_i)
      end
  end.

Fixpoint gen_palette_layers (pxss : list (list byte)) (st : Palette * Z)
  : outcome (Palette * Z) :=
  match pxss with
  | [] => Ret st
  | pxs :: pxss' =>
      do st <- gen_palette_pixels (chunked pxs 4) st;
      gen_palette_layers pxss' st
  end.

Definition gen_palette (pxss : list (list byte)) : outcome Palette :=
  do '(palette, _) <- gen_palette_layers pxss ([], 0);
  if PyDict.len palette >? PALETTE_SIZE
  then raise_class Enc_InvalidPaletteError
  else Ret palette.

Fixpoint encode_image_loop (palette : Palette) (chunks : list (list byte))
  (img : list byte) : outcome (list byte) :=
  match chunks with
  | [] => Ret img
  | pixels :: chunks' =>
      do '(px1, px2) <- TWO_LITTLE_ENDIAN_UINT32S_unpack_from pixels;
      do hi <- of_option KeyError (PyDict.get palette px2);
      do lo <- of_option KeyError (PyDict.get palette px1);
      do b <- to_bytes1 (Z.lor (Z.shiftl hi 4) lo);
      encode_image_loop palette chunks' (img ++ [b])
  end.

Definition encode_image (palette : Palette) (pxs : list byte)
  : outcome (list byte) :=
  encode_image_loop palette (chunked pxs 8) [].

Definition DUMMY_EXTRA_METADATA : list (string * value) :=
  [("mAuthor", VDict [("mVId", VInt 4255292630); ("mPId", VInt 2422107098);
                      ("mGender", VInt 0)]);
   ("mFlg", VInt 2);
   ("mClSet", VInt 238)].

Fixpoint encode_layers (palette : Palette) (pxss : list (Z * list byte))
  (layers : list (string * value)) : outcome (list (string * value)) :=
  match pxss with
  | [] => Ret layers
  | (i, pxs) :: pxss' =>
      do img <- encode_image palette pxs;
      encode_layers palette pxss' (PyDict.set layers (str_of_int i) (VBytes img))
  end.

(** [d.update(other)] *)
Definition dict_update (d other : list (string * value)) : list (string * value) :=
  fold_left (fun d kv => PyDict.set d (fst kv) (snd kv)) other d.

Definition encode_image_data (pxss : list (list byte)) : outcome value :=
  do palette <- gen_palette pxss;
  do layers <- encode_layers palette (enumerate pxss) [];
  let palette :=
    PyDict.of_list (map (fun ci => (str_of_int (snd ci), VInt (fst ci)))
                        (PyDict.items palette)) in
  let palette := PyDict.set palette (str_of_int PALETTE_SIZE) (VInt 0) in
  let img_data := [("mPalette", VDict palette)] in
  let img_data := PyDict.set img_data "mData" (VDict layers) in
  Ret (VDict (dict_update img_data DUMMY_EXTRA_METADATA)).

Section Encode.
Context {Image : Type} `{Wand Image} `{Service}.

Definition encode_pro (design : Design Image) : outcome (bool * value) :=
  run validate design;
  do images <- internalize design;
  let pxss := map export_pixels images in
  do palette <- gen_palette pxss;
  do img_data <- encode_image_data pxss;
  Ret (false, img_data).

(** What [encode] reads besides the design: the random [mMtNsaId], the two
    placeholder files, and the basic encoder, which drives the raster
    library's resizing and quantisation. *)
Variable nonce : Z.
Variable dummy_net_image dummy_preview_image : list byte.
Variable encode_basic : Design Image -> outcome (bool * value).

Definition opt_str (o : option string) : value :=
  match o with Some s => VStr s | None => VNone end.

Definition encode (design : Design Image) : outcome (bool * value) :=
  let encoded := [] in
  let meta := VDict
    [("mMtVNm", opt_str (island_name design));
     ("mMtDNm", opt_str (design_name design));
     ("mMtUse", VInt (type_code (design_type design)));
     ("mMtPro", VBool (pro design));
     ("mMtNsaId", VInt nonce);
     ("mMtVer", VInt 2306);
     ("mAppReleaseVersion", VInt 7);
     ("mMtVRuby", VInt 2);
     ("mMtTag", VList [VInt 0; VInt 0; VInt 0]);
     ("mMtLang", VStr "en-US");
     ("mPHash", VInt 0);
     ("mShareUrl", VStr "")] in
  let encoded := PyDict.set encoded "meta" (VBytes (msgpack_dumps meta)) in
  do '(was_quantized, img_data) <-
    (if pro design then encode_pro design else encode_basic design);
  let body := [("mMeta", meta)] in
  let body := PyDict.set body "mData" img_data in
  let encoded := PyDict.set encoded "body" (VBytes (msgpack_dumps (VDict body))) in
  let encoded := PyDict.set encoded "net_image" (VBytes dummy_net_image) in
  let encoded := PyDict.set encoded "preview_image" (VBytes dummy_preview_image) in
  Ret (was_quantized, VDict encoded).
End Encode.

(** ** Definitions used to state the properties *)

(** The characters of the design code alphabet. *)
Definition alphabet_chars : list ascii := list_ascii_of_string DESIGN_CODE_ALPHABET.

(** The base-30 digits of a number, least significant first, as the loop
    of [design_code] collects them. *)
Inductive base30 : Z -> list ascii -> Prop :=
| base30_zero : base30 0 []
| base30_step n c ds :
    0 < n ->
    str_getitem DESIGN_CODE_ALPHABET (n mod 30) = Ret c ->
    base30 (n / 30) ds ->
    base30 n (c :: ds).

(** A group of a design code: four characters of the alphabet. *)
Definition is_group (g : list ascii) : Prop :=
  List.length g = 4%nat /\ Forall (fun c => In c alphabet_chars) g.

(** The characters [replace('-', '')] keeps. *)
Definition not_hyphen (c : ascii) : bool := negb (Ascii.eqb c "-").

(** The colours of a pixel buffer, pixel by pixel. *)
Definition unpack_opt (px : list byte) : option Z :=
  match LITTLE_ENDIAN_UINT32_unpack px with
  | Ret c => Some c
  | _ => None
  end.

Definition pixel_colors (pxs : list byte) : list Z :=
  omap unpack_opt (chunked pxs 4).

(** Consecutive pixel pairs (first, second). *)
Fixpoint pixel_pairs (cs : list Z) : list (Z * Z) :=
  match cs with
  | first :: second :: cs' => (first, second) :: pixel_pairs cs'
  | _ => []
  end.

(** A pixel pair (first, second) and the byte that packs it: the index of
    the second pixel in the high nibble, that of the first in the low. *)
Definition packs (palette : PyDict.t Z Z) (pair : Z * Z) (b : byte) : Prop :=
  exists lo hi,
    PyDict.get palette (fst pair) = Some lo
    /\ PyDict.get palette (snd pair) = Some hi
    /\ byte_value b = Z.lor (Z.shiftl hi 4) lo.

(** A buffer of whole four-byte pixels. *)
Definition whole_pixels (pxs : list byte) : Prop :=
  (List.length pxs mod 4 = 0)%nat.

(** The distinct colours of a list of layer buffers. *)
Definition distinct_colors (pxss : list (list byte)) : gset Z :=
  list_to_set (concat (map pixel_colors pxss)).

(** A layer is supplied with its declared size. *)
Definition supplied {Image} `{Wand Image} (self : Design Image) (layer : Layer)
  : Prop :=
  exists image, PyDict.get (layer_images self) (name layer) = Some image
                /\ image_size image = size layer.

(** ** Stand-ins for the collaborators, used in examples *)

(** A service that answers every request with the same status and an empty
    body. *)
Definition fixed_service (status : Z) : Service :=
  {| request := fun _ => mkResponse status [];
     msgpack_loads := fun _ => VNone;
     msgpack_dumps := fun _ => [];
     urlparse := fun url => (url, "") |}.

(** An environment with a tile bound of 16 whose [format] leaves the
    template as it is. *)
Definition plain_environment : Environment :=
  {| MAX_DESIGN_TILES := 16; str_format := fun template _ => Ret template |}.

(** A raster of RGBA pixels in row-major order; compositing overwrites the
    covered pixels. *)
Record Raster := mkRaster {
  r_width : Z;
  r_height : Z;
  r_pixels : list byte
}.

Definition raster_rows (img : Raster) : list (list (list byte)) :=
  map (fun row => chunked row 4)
      (chunked (r_pixels img) (4 * Z.to_nat (r_width img))).

Definition raster_of_rows (rows : list (list (list byte))) : Raster :=
  mkRaster (Z.of_nat (List.length (concat (firstn 1 rows))))
           (Z.of_nat (List.length rows)) (concat (concat rows)).

Definition raster_blank (w h : Z) : Raster :=
  mkRaster w h (repeat "000"%byte (4 * Z.to_nat w * Z.to_nat h)).

Definition raster_crop (img : Raster) (xs ys : Z * Z) : Raster :=
  let cut {A} (r : Z * Z) (l : list A) :=
    firstn (Z.to_nat (snd r - fst r)) (skipn (Z.to_nat (fst r)) l) in
  raster_of_rows (map (cut xs) (cut ys (raster_rows img))).

Definition raster_composite (dst src : Raster) (left top : Z) : Raster :=
  let src_rows := raster_rows src in
  let pick (y x : nat) (old : list byte) : list byte :=
    let sy := Z.of_nat y - top in
    let sx := Z.of_nat x - left in
    if (0 <=? sy) && (0 <=? sx) then
      match src_rows !! Z.to_nat sy with
      | Some row => default old (row !! Z.to_nat sx)
      | None => old
      end
    else old in
  mkRaster (r_width dst) (r_height dst)
    (concat (concat (imap (fun y row => imap (pick y) row) (raster_rows dst)))).

#[export] Instance raster_wand : Wand Raster :=
  {| image_size := fun img => (r_width img, r_height img);
     export_pixels := r_pixels;
     blank := raster_blank;
     crop := raster_crop;
     composite := raster_composite |}.

Definition byte_of_Z (n : Z) : byte :=
  default "000"%byte (Byte.of_N (Z.to_N n)).

(** [struct.pack('>L', color)] *)
Definition pixel_of_color (color : Z) : list byte :=
  map (fun shift => byte_of_Z (Z.land (Z.shiftr color shift) 255)) [24; 16; 8; 0].

(** A raster whose first pixels have the colours given and whose other
    pixels have colour 0. *)
Definition raster_of_colors (w h : Z) (colors : list Z) : Raster :=
  let n := (Z.to_nat w * Z.to_nat h)%nat in
  mkRaster w h (concat (map pixel_of_color (firstn n (colors ++ repeat 0 n)))).

(** Sixteen colours on a standard layer, and a one-colour layer. *)
Definition sixteen_colors : Raster :=
  raster_of_colors 32 32 (map Z.of_nat (seq 0 16)).
Definition plain_layer : Raster := raster_of_colors 32 32 [].

Definition example_design (t : DesignType) (layers : PyDict.t string Raster)
  : Design Raster :=
  mkDesign t None (Some "island") (Some "design") layers.

(** ** Further operations of [acnh/designs/encode.py] *)

Section Externalize.
Context {Image : Type} `{Wand Image}.

(** [{cls.external_layers[i].name: img for i, img in enumerate(...)}] *)
Fixpoint externalize_names (cls : DesignType) (items : list (Z * Image))
  (layers : PyDict.t string Image) : outcome (PyDict.t string Image) :=
  match items with
  | [] => Ret layers
  | (i, img) :: items' =>
      do j <- list_index (external_layers cls) i;
      do layer <- of_option IndexError (external_layers cls !! j);
      externalize_names cls items' (PyDict.set layers (name layer) img)
  end.

Fixpoint externalize_loop (internal_layers : list Image)
  (cs : list LayerCorrespondence) (out : PyDict.t string Image)
  : outcome (PyDict.t string Image) :=
  match cs with
  | [] => Ret out
  | c :: cs' =>
      do dst <- of_option KeyError (PyDict.get out (external_name c));
      let dst_position := external_pos c in
      do i <- list_index internal_layers (internal_idx c);
      do src <- of_option IndexError (internal_layers !! i);
      let src_position := internal_pos c in
      let dst := copy dst src dst_position src_position (dimensions c) in
      externalize_loop internal_layers cs' (PyDict.set out (external_name c) dst)
  end.

(** [Design.externalize]; the keyword arguments are the three names. *)
Definition externalize (cls : DesignType) (internal_layers : list Image)
  (author island design : option string) : outcome (Design Image) :=
  if one_to_one cls then
    do layers <- externalize_names cls (enumerate internal_layers) [];
    Ret (mkDesign cls author island design layers)
  else
    let out := PyDict.of_list
                 (map (fun layer => (name layer, as_wand layer))
                      (external_layers cls)) in
    match correspondence cls with
    | Some cs =>
        do out <- externalize_loop internal_layers cs out;
        Ret (mkDesign cls author island design out)
    | None => Raise TypeError
    end.

(** [range(start, stop, step)] for a positive step. *)
Definition py_range (start stop step : Z) : list Z :=
  map (fun k => start + step * Z.of_nat k)
      (seq 0 (Z.to_nat ((stop - start + step - 1) / step))).

(** The slices [tile] takes, [y] outermost as in [itertools.product]. *)
Definition tile_slices (width height : Z) : list ((Z * Z) * (Z * Z)) :=
  flat_map
    (fun y => map (fun x => ((x, Z.min width (x + STANDARD_WIDTH)),
                             (y, Z.min height (y + STANDARD_HEIGHT))))
                  (py_range 0 width STANDARD_WIDTH))
    (py_range 0 height STANDARD_HEIGHT).

(** [tile], as the list of the images it yields. *)
Definition tile (image : Image) : list Image :=
  let width := fst (image_size image) in
  let height := snd (image_size image) in
  map (fun s => crop image (fst s) (snd s)) (tile_slices width height).
End Externalize.

(** What [encode_basic] asks of the raster library besides [Wand]:
    [image.colors], the state of an image after
    [image.quantize(number_colors=n)], after
    [image.transform(resize='32x32')], and the canvas after the image was
    appended to it and the layers were flattened. *)
Class WandEdit (Image : Type) := {
  colors : Image -> Z;
  quantize : Image -> Z -> Image;
  transform_resize : Image -> Image;
  flatten_onto : Image -> Image -> Image
}.

Section Basic.
Context {Image : Type} `{Wand Image} `{WandEdit Image}.

(** [maybe_quantize]: the image afterwards and [was_quantized]. *)
Definition maybe_quantize (image : Image) : outcome (Image * bool) :=
  let '(image, was_quantized) :=
    if colors image >? PALETTE_SIZE
    then (quantize image PALETTE_SIZE, true)
    else (image, false) in
  if colors image >? PALETTE_SIZE
  then Raise (RuntimeError
                ("generated palette has more than " +:+ str_of_int PALETTE_SIZE
                 +:+ " colors (" +:+ str_of_int (colors image)
                 +:+ ") even after quantization!"))
  else Ret (image, was_quantized).

(** [a > b] on pairs, as Python orders tuples. *)
Definition tuple_gt (a b : XY) : bool :=
  (fst a >? fst b) || ((fst a =? fst b) && (snd a >? snd b)).

Definition encode_basic (design : Design Image) : outcome (bool * value) :=
  do image <- of_option KeyError (PyDict.get (layer_images design) "0");
  let image :=
    if tuple_gt (image_size image) STANDARD then transform_resize image
    else image in
  let image :=
    if decide (image_size image = STANDARD) then image
    else flatten_onto (blank STANDARD_WIDTH STANDARD_HEIGHT) image in
  do '(image, was_quantized) <- maybe_quantize image;
  let pxs := export_pixels image in
  do img_data <- encode_image_data [pxs];
  Ret (was_quantized, img_data).
End Basic.

(** ** Further definitions used to state the properties *)

(** The palette [gen_palette] builds from colours in first-seen order. *)
Definition palette_of (colors : list Z) : PyDict.t Z Z :=
  combine colors (map Z.of_nat (seq 0 (List.length colors))).

(** The colours of a list, each once, in the order of first occurrence. *)
Fixpoint first_seen (seen cs : list Z) : list Z :=
  match cs with
  | [] => []
  | c :: cs' =>
      if decide (c ∈ seen) then first_seen seen cs'
      else c :: first_seen (seen ++ [c]) cs'
  end.

(** A point lies in the rectangle two slices select. *)
Definition in_slices (s : (Z * Z) * (Z * Z)) (x y : Z) : Prop :=
  fst (fst s) <= x < snd (fst s) /\ fst (snd s) <= y < snd (snd s).

(** A stand-in for the editing operations on rasters, used in examples:
    colours are counted on the pixels, quantising repaints the pixels whose
    colour is not among the first [n] seen, resizing cuts to the standard
    size and flattening composites at the origin. *)
Definition raster_colors (img : Raster) : Z :=
  Z.of_nat (List.length (first_seen [] (pixel_colors (r_pixels img)))).

Definition raster_quantize (img : Raster) (n : Z) : Raster :=
  let cs := pixel_colors (r_pixels img) in
  let keep := firstn (Z.to_nat n) (first_seen [] cs) in
  mkRaster (r_width img) (r_height img)
    (concat (map (fun c => pixel_of_color
                             (if decide (c ∈ keep) then c else hd 0 keep)) cs)).

#[export] Instance raster_edit : WandEdit Raster :=
  {| colors := raster_colors;
     quantize := raster_quantize;
     transform_resize := fun img =>
       raster_crop img (0, STANDARD_WIDTH) (0, STANDARD_HEIGHT);
     flatten_onto := fun base img => raster_composite base img 0 0 |}.

(** A service with one stored design: the listing names a single header
    whose body lies at "/blob"; every other request is answered with the
    given status and a record that holds the key "mData". *)
Definition catalogue_header : list (string * value) :=
  [("body", VStr "/blob"); ("design_player_name", VStr "io");
   ("design_player_id", VInt 7); ("created_at", VInt 3);
   ("updated_at", VInt 4)].

Definition catalogue_service (status : Z) : Service :=
  {| request := fun r =>
       if String.eqb (req_path r) "/api/v2/designs"
       then mkResponse 200 ["001"%byte]
       else mkResponse status [];
     msgpack_loads := fun b =>
       match b with
       | [] => VDict [("mData", VNone)]
       | _ => VDict [("total", VInt 1);
                     ("headers", VList [VDict catalogue_header])]
       end;
     msgpack_dumps := fun _ => [];
     urlparse := fun url => (url, "") |}.


(** * Properties *)

(** ** Strings and chunks *)

Lemma length_string_of_list_ascii (l : list ascii) :
  String.length (string_of_list_ascii l) = List.length l.
Proof. induction l as [|c l IH]; simpl; congruence. Qed.

Lemma length_list_ascii_of_string (s : string) :
  List.length (list_ascii_of_string s) = String.length s.
Proof. induction s as [|c s IH]; simpl; congruence. Qed.

Lemma list_ascii_of_string_app (s t : string) :
  list_ascii_of_string (s +:+ t) = list_ascii_of_string s ++ list_ascii_of_string t.
Proof. induction s as [|c s IH]; simpl; [reflexivity|]. now rewrite IH. Qed.

Lemma chunked_fuel_enough {A} (n : nat) (l : list A) :
  forall fuel, (List.length l <= fuel)%nat -> (0 < n)%nat ->
  chunked_fuel fuel n l = chunked l n.
Proof.
  unfold chunked.
  remember (List.length l) as k eqn:Hk.
  revert l Hk. induction k as [k IH] using lt_wf_ind.
  intros l Hk fuel Hfuel Hn.
  destruct l as [|a l].
  - destruct fuel; simpl in *; subst; reflexivity.
  - simpl in Hk. subst k. destruct fuel as [|fuel]; [simpl in Hfuel; lia|].
    cbn [chunked_fuel]. f_equal.
    assert (Hlen : (List.length (skipn n (a :: l)) <= List.length l)%nat).
    { rewrite length_skipn. simpl. lia. }
    rewrite (IH (List.length (skipn n (a :: l)))) with (fuel := fuel);
      [|simpl; lia|reflexivity|simpl in Hfuel; lia|exact Hn].
    symmetry.
    apply (IH (List.length (skipn n (a :: l)))); [simpl; lia|reflexivity|exact Hlen|exact Hn].
Qed.

Lemma chunked_nil {A} (n : nat) : chunked (@nil A) n = [].
Proof. reflexivity. Qed.

Lemma chunked_cons {A} (n : nat) (l : list A) :
  (0 < n)%nat -> l <> [] ->
  chunked l n = firstn n l :: chunked (skipn n l) n.
Proof.
  intros Hn Hl. destruct l as [|a l]; [congruence|].
  unfold chunked at 1. cbn [List.length chunked_fuel]. f_equal.
  apply chunked_fuel_enough; [|exact Hn].
  rewrite length_skipn. simpl. lia.
Qed.

Lemma concat_chunked {A} (n : nat) (l : list A) :
  (0 < n)%nat -> concat (chunked l n) = l.
Proof.
  intros Hn. remember (List.length l) as k eqn:Hk.
  revert l Hk. induction k as [k IH] using lt_wf_ind. intros l Hk.
  destruct l as [|a l]; [reflexivity|].
  rewrite chunked_cons by (auto; discriminate).
  cbn [concat]. rewrite (IH (List.length (skipn n (a :: l)))); 
    [apply firstn_skipn| |reflexivity].
  subst k. rewrite length_skipn. simpl. lia.
Qed.

Lemma chunked_app_block {A} (n : nat) (b l : list A) :
  (0 < n)%nat -> List.length b = n ->
  chunked (b ++ l) n = b :: chunked l n.
Proof.
  intros Hn Hb. subst n. rewrite chunked_cons; [|exact Hn|].
  - now rewrite take_app_length, drop_app_length.
  - destruct b; [simpl in Hn; lia|discriminate].
Qed.

(** ** The design code alphabet *)

Lemma alphabet_digit (d : Z) :
  0 <= d < 30 ->
  exists c, str_getitem DESIGN_CODE_ALPHABET d = Ret c
            /\ DESIGN_CODE_ALPHABET_VALUES !! c = Some d
            /\ In c alphabet_chars
            /\ c <> "-"%char /\ c <> "+"%char.
Proof.
  intros Hd.
  assert (Hn : exists k : nat, (k < 30)%nat /\ d = Z.of_nat k).
  { exists (Z.to_nat d). lia. }
  destruct Hn as (k & Hk & ->).
  do 30 (destruct k as [|k];
         [refine (ex_intro _ _ (conj _ (conj _ (conj _ (conj _ _)))));
          [vm_compute; reflexivity | vm_compute; reflexivity
          | vm_compute; tauto | discriminate | discriminate]|]).
  lia.
Qed.

Lemma zero_char_value : DESIGN_CODE_ALPHABET_VALUES !! "0"%char = Some 0.
Proof. vm_compute. reflexivity. Qed.

(** ** Base-30 digits *)

Lemma base30_exists (n : Z) : 0 <= n -> exists ds, base30 n ds.
Proof.
  intros Hn. generalize Hn. pattern n. apply Z_lt_induction; [|exact Hn].
  clear n Hn. intros n IH Hn.
  destruct (Z.eq_dec n 0) as [->|Hne].
  - exists []. constructor.
  - assert (Hpos : 0 < n) by lia.
    destruct (alphabet_digit (n mod 30)) as (c & Hc & _).
    { apply Z.mod_pos_bound. lia. }
    destruct (IH (n / 30)) as [ds Hds].
    + split; [apply Z.div_pos; lia|apply Z.div_lt; lia].
    + apply Z.div_pos; lia.
    + exists (c :: ds). now constructor.
Qed.

Lemma base30_nonneg (n : Z) (ds : list ascii) : base30 n ds -> 0 <= n.
Proof. destruct 1; lia. Qed.

Lemma design_code_loop_base30 (n : Z) (ds : list ascii) :
  base30 n ds ->
  forall fuel digits, (List.length ds < fuel)%nat ->
  design_code_loop fuel n digits = Ret (digits ++ ds).
Proof.
  induction 1 as [|n c ds Hn Hc Hds IH]; intros fuel digits Hfuel.
  - destruct fuel; [simpl in Hfuel; lia|]. simpl. now rewrite app_nil_r.
  - destruct fuel as [|fuel]; [simpl in Hfuel; lia|].
    cbn [design_code_loop].
    destruct (Z.eqb_spec n 0) as [->|_]; [lia|].
    rewrite Hc. cbn [bind].
    rewrite IH by (simpl in Hfuel; lia).
    now rewrite <- app_assoc.
Qed.

Lemma design_id_loop_app (l1 l2 : list ascii) (n : Z) :
  design_id_loop (l1 ++ l2) n = bind (design_id_loop l1 n) (design_id_loop l2).
Proof.
  revert n. induction l1 as [|c l1 IH]; intros n; [reflexivity|].
  cbn [app design_id_loop].
  destruct (DESIGN_CODE_ALPHABET_VALUES !! c); cbn [of_option bind]; auto.
Qed.

Lemma design_id_loop_zeros (k : nat) (l : list ascii) :
  design_id_loop (repeat "0"%char k ++ l) 0 = design_id_loop l 0.
Proof.
  induction k as [|k IH]; [reflexivity|].
  cbn [repeat app design_id_loop]. rewrite zero_char_value. exact IH.
Qed.

Lemma base30_value (n : Z) (ds : list ascii) :
  base30 n ds -> design_id_loop (rev ds) 0 = Ret n.
Proof.
  induction 1 as [|n c ds Hn Hc Hds IH]; [reflexivity|].
  cbn [rev]. rewrite design_id_loop_app, IH. cbn [bind design_id_loop].
  destruct (alphabet_digit (n mod 30)) as (c' & Hc' & Hv & _).
  { apply Z.mod_pos_bound. lia. }
  rewrite Hc in Hc'. injection Hc' as <-.
  rewrite Hv. cbn [of_option bind]. f_equal.
  rewrite (Z.div_mod n 30) at 3 by lia. lia.
Qed.

Lemma base30_chars (n : Z) (ds : list ascii) :
  base30 n ds ->
  Forall (fun c => In c alphabet_chars /\ c <> "-"%char /\ c <> "+"%char) ds.
Proof.
  induction 1 as [|n c ds Hn Hc Hds IH]; constructor; [|exact IH].
  destruct (alphabet_digit (n mod 30)) as (c' & Hc' & _ & Hin & Hm & Hp).
  { apply Z.mod_pos_bound. lia. }
  rewrite Hc in Hc'. injection Hc' as <-. auto.
Qed.

Lemma base30_upper (n : Z) (ds : list ascii) :
  base30 n ds -> n < 30 ^ Z.of_nat (List.length ds).
Proof.
  induction 1 as [|n c ds Hn Hc Hds IH]; [simpl; lia|].
  cbn [List.length]. rewrite Nat2Z.inj_succ, Z.pow_succ_r by lia.
  pose proof (Z.div_mod n 30 ltac:(lia)) as Hdm.
  pose proof (Z.mod_pos_bound n 30 ltac:(lia)). lia.
Qed.

Lemma base30_lower (n : Z) (c : ascii) (ds : list ascii) :
  base30 n (c :: ds) -> 30 ^ Z.of_nat (List.length ds) <= n.
Proof.
  revert n c. induction ds as [|d ds IH]; intros n c Hb.
  - inversion Hb; subst. simpl. lia.
  - inversion Hb as [|n' c' ds' Hn Hc Hds]; subst.
    apply IH in Hds.
    cbn [List.length]. rewrite Nat2Z.inj_succ, Z.pow_succ_r by lia.
    pose proof (Z.div_mod n 30 ltac:(lia)) as Hdm.
    pose proof (Z.mod_pos_bound n 30 ltac:(lia)). lia.
Qed.

Lemma base30_length_le (n : Z) (ds : list ascii) (k : nat) :
  base30 n ds -> n < 30 ^ Z.of_nat k -> (List.length ds <= k)%nat.
Proof.
  intros Hb Hn. destruct ds as [|c ds]; [simpl; lia|].
  apply base30_lower in Hb. cbn [List.length].
  destruct (Nat.le_gt_cases (S (List.length ds)) k) as [|Hgt]; [assumption|].
  exfalso.
  assert (30 ^ Z.of_nat k <= 30 ^ Z.of_nat (List.length ds)).
  { apply Z.pow_le_mono_r; lia. }
  lia.
Qed.

Lemma base30_length_gt (n : Z) (ds : list ascii) (k : nat) :
  base30 n ds -> 30 ^ Z.of_nat k <= n -> (k < List.length ds)%nat.
Proof.
  intros Hb Hn. apply base30_upper in Hb.
  destruct (Nat.le_gt_cases (List.length ds) k) as [Hle|]; [|assumption].
  exfalso.
  assert (30 ^ Z.of_nat (List.length ds) <= 30 ^ Z.of_nat k).
  { apply Z.pow_le_mono_r; lia. }
  lia.
Qed.

(** ** Padding, hyphenation and their inverse *)


Lemma list_ascii_of_concat_empty (l : list string) :
  list_ascii_of_string (String.concat "" l)
  = concat (map list_ascii_of_string l).
Proof.
  induction l as [|s l IH]; [reflexivity|].
  destruct l as [|t l].
  - simpl. now rewrite app_nil_r.
  - change (String.concat "" (s :: t :: l))
      with (s +:+ "" +:+ String.concat "" (t :: l)).
    rewrite !list_ascii_of_string_app, IH. reflexivity.
Qed.

Lemma str_replace_hyphen (s : string) :
  list_ascii_of_string (str_replace s "-" "")
  = List.filter not_hyphen (list_ascii_of_string s).
Proof.
  unfold str_replace. rewrite list_ascii_of_concat_empty, map_map.
  induction (list_ascii_of_string s) as [|c l IH]; [reflexivity|].
  cbn [map concat List.filter]. rewrite IH. unfold not_hyphen.
  destruct (Ascii.eqb c "-"); reflexivity.
Qed.

Lemma filter_not_hyphen_id (l : list ascii) :
  Forall (fun c => c <> "-"%char) l -> List.filter not_hyphen l = l.
Proof.
  induction 1 as [|c l Hc _ IH]; [reflexivity|].
  cbn [List.filter]. unfold not_hyphen at 1.
  destruct (Ascii.eqb_spec c "-"); [contradiction|]. now rewrite IH.
Qed.

Lemma filter_app' {A} (f : A -> bool) (l1 l2 : list A) :
  List.filter f (l1 ++ l2) = List.filter f l1 ++ List.filter f l2.
Proof. induction l1 as [|a l1 IH]; simpl; [reflexivity|]. destruct (f a); simpl; now rewrite IH. Qed.

Lemma filter_join_hyphen (chunks : list (list ascii)) :
  Forall (Forall (fun c => c <> "-"%char)) chunks ->
  List.filter not_hyphen
    (list_ascii_of_string (String.concat "-" (map string_of_list_ascii chunks)))
  = concat chunks.
Proof.
  induction 1 as [|g chunks Hg Hrest IH]; [reflexivity|].
  destruct chunks as [|g' chunks].
  - cbn [map String.concat concat].
    rewrite list_ascii_of_string_of_list_ascii, app_nil_r.
    now apply filter_not_hyphen_id.
  - change (String.concat "-" (map string_of_list_ascii (g :: g' :: chunks)))
      with (string_of_list_ascii g +:+ "-"
            +:+ String.concat "-" (map string_of_list_ascii (g' :: chunks))).
    rewrite !list_ascii_of_string_app, !filter_app', IH.
    rewrite list_ascii_of_string_of_list_ascii, filter_not_hyphen_id by assumption.
    reflexivity.
Qed.

Lemma length_join_hyphen (chunks : list (list ascii)) :
  chunks <> [] ->
  String.length (String.concat "-" (map string_of_list_ascii chunks))
  = (List.length (concat chunks) + (List.length chunks - 1))%nat.
Proof.
  induction chunks as [|g chunks IH]; [congruence|]. intros _.
  destruct chunks as [|g' chunks].
  - cbn [map String.concat concat List.length].
    rewrite length_string_of_list_ascii, app_nil_r. lia.
  - change (String.concat "-" (map string_of_list_ascii (g :: g' :: chunks)))
      with (string_of_list_ascii g +:+ "-"
            +:+ String.concat "-" (map string_of_list_ascii (g' :: chunks))).
    specialize (IH ltac:(discriminate)).
    rewrite <- length_list_ascii_of_string, !list_ascii_of_string_app.
    rewrite !length_app, !length_list_ascii_of_string, IH.
    rewrite length_string_of_list_ascii.
    cbn [concat List.length]. rewrite !length_app. simpl. lia.
Qed.

Lemma chunked_lengths {A} (n : nat) (l : list A) :
  (0 < n)%nat -> Forall (fun c => (List.length c <= n)%nat) (chunked l n).
Proof.
  intros Hn. remember (List.length l) as k eqn:Hk.
  revert l Hk. induction k as [k IH] using lt_wf_ind. intros l Hk.
  destruct l as [|a l]; [constructor|].
  rewrite chunked_cons by (auto; discriminate). constructor.
  - rewrite length_firstn. lia.
  - apply (IH (List.length (skipn n (a :: l)))); [|reflexivity].
    subst k. rewrite length_skipn. simpl. lia.
Qed.

Lemma length_concat_le {A} (n : nat) (ls : list (list A)) :
  Forall (fun c => (List.length c <= n)%nat) ls ->
  (List.length (concat ls) <= n * List.length ls)%nat.
Proof.
  induction 1 as [|c ls Hc _ IH]; [simpl; lia|].
  cbn [concat List.length]. rewrite length_app. lia.
Qed.

Lemma chunked_count {A} (n : nat) (l : list A) :
  (0 < n)%nat -> (List.length l <= n * List.length (chunked l n))%nat.
Proof.
  intros Hn. rewrite <- (concat_chunked n l Hn) at 1.
  apply length_concat_le, chunked_lengths, Hn.
Qed.

Lemma zfill_long (s : string) (w : nat) :
  (w <= String.length s)%nat -> zfill s w = s.
Proof.
  intros Hw. unfold zfill.
  destruct (Nat.leb_spec w (String.length s)); [reflexivity|lia].
Qed.

Lemma zfill_chars (l : list ascii) (w : nat) :
  match l with
  | c :: _ => c <> "+"%char /\ c <> "-"%char
  | [] => True
  end ->
  list_ascii_of_string (zfill (string_of_list_ascii l) w)
  = repeat "0"%char (w - List.length l) ++ l.
Proof.
  intros Hhd. unfold zfill. rewrite length_string_of_list_ascii.
  destruct (Nat.leb_spec w (List.length l)) as [Hle|Hgt].
  - replace (w - List.length l)%nat with 0%nat by lia.
    now rewrite list_ascii_of_string_of_list_ascii.
  - destruct l as [|c l]; cbn [string_of_list_ascii].
    + now rewrite list_ascii_of_string_of_list_ascii, app_nil_r.
    + destruct Hhd as [Hp Hm].
      destruct (Ascii.eqb_spec c "+"); [contradiction|].
      destruct (Ascii.eqb_spec c "-"); [contradiction|].
      cbn [orb]. rewrite list_ascii_of_string_app.
      cbn [list_ascii_of_string].
      now rewrite !list_ascii_of_string_of_list_ascii.
Qed.

Lemma add_hyphens_chars (cs : list ascii) :
  (12 <= List.length cs)%nat ->
  add_hyphens (string_of_list_ascii cs)
  = String.concat "-" (map string_of_list_ascii (chunked cs 4)).
Proof.
  intros Hlen. unfold add_hyphens, str_chunked.
  rewrite zfill_long by (rewrite length_string_of_list_ascii; exact Hlen).
  now rewrite list_ascii_of_string_of_list_ascii.
Qed.

Lemma design_id_add_hyphens (cs : list ascii) :
  (12 <= List.length cs)%nat ->
  Forall (fun c => c <> "-"%char) cs ->
  design_id (add_hyphens (string_of_list_ascii cs)) = design_id_loop cs 0.
Proof.
  intros Hlen Hcs. unfold design_id.
  rewrite add_hyphens_chars, str_replace_hyphen by exact Hlen.
  rewrite filter_join_hyphen.
  - now rewrite concat_chunked by lia.
  - apply Forall_concat. now rewrite concat_chunked by lia.
Qed.

Lemma length_add_hyphens (cs : list ascii) :
  (12 <= List.length cs)%nat ->
  String.length (add_hyphens (string_of_list_ascii cs))
  = (List.length cs + (List.length (chunked cs 4) - 1))%nat.
Proof.
  intros Hlen. rewrite add_hyphens_chars by exact Hlen.
  rewrite length_join_hyphen.
  - now rewrite concat_chunked by lia.
  - destruct cs; [simpl in Hlen; lia|].
    rewrite chunked_cons by (try lia; discriminate). discriminate.
Qed.

(** The string [design_code] builds from the digits of a number. *)
Lemma design_code_digits (n : Z) (ds : list ascii) (fuel : nat) :
  base30 n ds -> (List.length ds < fuel)%nat ->
  let cs := repeat "0"%char (12 - List.length ds) ++ rev ds in
  design_code fuel n = Ret (add_hyphens (string_of_list_ascii cs))
  /\ design_id (add_hyphens (string_of_list_ascii cs)) = Ret n
  /\ Forall (fun c => In c alphabet_chars) cs
  /\ (12 <= List.length cs)%nat.
Proof.
  intros Hb Hfuel cs.
  pose proof (base30_chars n ds Hb) as Hchars.
  assert (Hrev : Forall (fun c => In c alphabet_chars /\ c <> "-"%char /\ c <> "+"%char)
                        (rev ds)).
  { now apply List.Forall_rev. }
  assert (Hcs : Forall (fun c => In c alphabet_chars /\ c <> "-"%char /\ c <> "+"%char) cs).
  { apply Forall_app. split; [|exact Hrev].
    apply List.Forall_forall. intros c Hc. apply repeat_spec in Hc. subst c.
    repeat split; [vm_compute; tauto|discriminate|discriminate]. }
  assert (Hlen : (12 <= List.length cs)%nat).
  { unfold cs. rewrite length_app, repeat_length, length_rev. lia. }
  split; [|split; [|split]].
  - unfold design_code. rewrite (design_code_loop_base30 n ds Hb) by exact Hfuel.
    cbn [bind app]. f_equal. f_equal.
    rewrite <- (string_of_list_ascii_of_string (zfill _ _)).
    f_equal. rewrite zfill_chars.
    + unfold cs. now rewrite length_rev.
    + destruct (rev ds) as [|c r]; [exact I|].
      inversion Hrev as [|? ? (_ & Hm & Hp) _]; subst. split; assumption.
  - rewrite design_id_add_hyphens; [|exact Hlen|].
    + unfold cs. rewrite design_id_loop_zeros. now apply base30_value.
    + eapply Forall_impl; [exact Hcs|]. intros c (_ & Hm & _). exact Hm.
  - eapply Forall_impl; [exact Hcs|]. intros c (Hin & _). exact Hin.
  - exact Hlen.
Qed.

Lemma base30_length_log2 (n : Z) (ds : list ascii) :
  base30 n ds -> (List.length ds <= Z.to_nat (Z.log2 n) + 1)%nat.
Proof.
  intros Hb. destruct ds as [|c ds]; [simpl; lia|].
  pose proof (base30_nonneg _ _ Hb) as Hn.
  apply base30_lower in Hb.
  assert (Hpow : 2 ^ Z.of_nat (List.length ds) <= 30 ^ Z.of_nat (List.length ds)).
  { apply Z.pow_le_mono_l. lia. }
  assert (Hpos : 0 < n).
  { pose proof (Z.pow_pos_nonneg 2 (Z.of_nat (List.length ds))). lia. }
  assert (Z.of_nat (List.length ds) <= Z.log2 n).
  { apply Z.log2_le_pow2; lia. }
  cbn [List.length]. lia.
Qed.

(** ** The codec round trip *)

(** C1: for every identifier in [0, 30^12), [design_code] returns a string
    that [design_id] maps back to the identifier; the string has 14
    characters, namely three groups of four alphabet characters joined by
    two hyphens; the code of 0 is 0000-0000-0000. *)
Theorem design_code_roundtrip (id : Z) (fuel : nat) :
  0 <= id < 30 ^ 12 -> (13 <= fuel)%nat ->
  exists s,
    design_code fuel id = Ret s
    /\ design_id s = Ret id
    /\ String.length s = 14%nat
    /\ (exists g1 g2 g3,
          is_group g1 /\ is_group g2 /\ is_group g3
          /\ s = string_of_list_ascii (g1 ++ "-"%char :: g2 ++ "-"%char :: g3))
    /\ design_code fuel 0 = Ret "0000-0000-0000"
    /\ design_id "0000-0000-0000" = Ret 0.
Proof.
  intros Hid Hfuel.
  destruct (base30_exists id) as [ds Hds]; [lia|].
  assert (Hlen : (List.length ds <= 12)%nat).
  { apply (base30_length_le id); [exact Hds|]. change (Z.of_nat 12) with 12. lia. }
  destruct (design_code_digits id ds fuel Hds ltac:(lia)) as (Hcode & Hback & Hchars & _).
  set (cs := repeat "0"%char (12 - List.length ds) ++ rev ds) in *.
  assert (Hcs : List.length cs = 12%nat).
  { unfold cs. rewrite length_app, repeat_length, length_rev. lia. }
  exists (add_hyphens (string_of_list_ascii cs)).
  split; [exact Hcode|]. split; [exact Hback|].
  rewrite add_hyphens_chars by lia.
  do 12 (destruct cs as [|? cs]; [discriminate Hcs|]).
  destruct cs; [|discriminate Hcs].
  repeat match goal with
         | H : Forall _ (_ :: _) |- _ => inversion H; subst; clear H
         end.
  split; [reflexivity|]. split.
  - match goal with
    | |- context [chunked [?a; ?b; ?c; ?d; ?e; ?f; ?g; ?h; ?i; ?j; ?k; ?l] 4] =>
        exists [a; b; c; d], [e; f; g; h], [i; j; k; l]
    end.
    unfold is_group.
    repeat apply conj; try reflexivity;
      repeat (constructor; [assumption|]); constructor.
  - split.
    + destruct fuel; [lia|]. reflexivity.
    + vm_compute. reflexivity.
Qed.

Lemma design_code_roundtrip_witness :
  exists s,
    design_code 13 7994596059 = Ret s
    /\ design_id s = Ret 7994596059
    /\ String.length s = 14%nat
    /\ (exists g1 g2 g3,
          is_group g1 /\ is_group g2 /\ is_group g3
          /\ s = string_of_list_ascii (g1 ++ "-"%char :: g2 ++ "-"%char :: g3))
    /\ design_code 13 0 = Ret "0000-0000-0000"
    /\ design_id "0000-0000-0000" = Ret 0.
Proof.
  apply (design_code_roundtrip 7994596059 13); [vm_compute; split; congruence|lia].
Defined.

(** C9: for every non-negative integer, also beyond 30^12, [design_code]
    returns a string (no range check, no exception) that [design_id] maps
    back to the integer; from 30^12 on the string is longer than 14
    characters. *)
Theorem design_code_unbounded (n : Z) :
  0 <= n ->
  exists s,
    (forall fuel, (Z.to_nat (Z.log2 n) + 1 < fuel)%nat -> design_code fuel n = Ret s)
    /\ design_id s = Ret n
    /\ (30 ^ 12 <= n -> (14 < String.length s)%nat).
Proof.
  intros Hn.
  destruct (base30_exists n Hn) as [ds Hds].
  pose proof (base30_length_log2 n ds Hds) as Hle.
  set (cs := repeat "0"%char (12 - List.length ds) ++ rev ds).
  exists (add_hyphens (string_of_list_ascii cs)).
  split; [|split].
  - intros fuel Hfuel.
    now destruct (design_code_digits n ds fuel Hds ltac:(lia)) as (Hcode & _).
  - now destruct (design_code_digits n ds (S (List.length ds)) Hds ltac:(lia))
      as (_ & Hback & _).
  - intros Hbig.
    assert (Hlen : (12 < List.length ds)%nat).
    { apply (base30_length_gt n); [exact Hds|]. change (Z.of_nat 12) with 12. lia. }
    assert (Hcs : List.length cs = List.length ds).
    { unfold cs. rewrite length_app, repeat_length, length_rev. lia. }
    rewrite length_add_hyphens by lia.
    pose proof (chunked_count 4 cs ltac:(lia)). lia.
Qed.

Lemma design_code_unbounded_witness :
  exists s,
    (forall fuel, (Z.to_nat (Z.log2 (30 ^ 12)) + 1 < fuel)%nat -> design_code fuel (30 ^ 12) = Ret s)
    /\ design_id s = Ret (30 ^ 12)
    /\ (30 ^ 12 <= 30 ^ 12 -> (14 < String.length s)%nat).
Proof.
  apply (design_code_unbounded (30 ^ 12)). vm_compute. congruence.
Defined.

(** ** Design code validation in the client *)

Lemma re_fullmatch_length (r : list re_atom) (s : list ascii) :
  re_fullmatch r s = true -> List.length r = List.length s.
Proof.
  revert s. induction r as [|a r IH]; intros [|c s] Hm; try discriminate; [reflexivity|].
  cbn [re_fullmatch] in Hm. apply andb_prop in Hm as [_ Hm].
  cbn [List.length]. f_equal. now apply IH.
Qed.


Lemma alphabet_char_match (c : ascii) :
  In c alphabet_chars -> re_atom_match (ReSet DESIGN_CODE_ALPHABET) c = true.
Proof.
  intros Hin. cbn [re_atom_match]. apply existsb_exists.
  exists c. split; [exact Hin|apply Ascii.eqb_refl].
Qed.

Lemma alphabet_char_value (c : ascii) :
  In c alphabet_chars ->
  c <> "-"%char /\ exists v, DESIGN_CODE_ALPHABET_VALUES !! c = Some v.
Proof.
  intros Hin. vm_compute in Hin.
  repeat (destruct Hin as [<-|Hin];
          [split; [discriminate|eexists; vm_compute; reflexivity]|]).
  contradiction.
Qed.


Lemma validate_hyphenated (cs : list ascii) :
  List.length cs = 12%nat -> Forall (fun c => In c alphabet_chars) cs ->
  InvalidDesignCodeError_validate (add_hyphens (string_of_list_ascii cs))
  = Ret (add_hyphens (string_of_list_ascii cs)).
Proof.
  intros Hlen Hcs. rewrite add_hyphens_chars by lia.
  do 12 (destruct cs as [|? cs]; [discriminate Hlen|]).
  destruct cs; [|discriminate Hlen].
  repeat match goal with
         | H : Forall _ (_ :: _) |- _ => inversion H; subst; clear H
         end.
  unfold InvalidDesignCodeError_validate.
  match goal with
  | |- (if ?b then _ else _) = _ => assert (Hb : b = true); [|now rewrite Hb]
  end.
  match goal with
  | |- re_fullmatch _ (list_ascii_of_string ?s) = _ =>
      let l := eval cbv in (list_ascii_of_string s) in
      change (list_ascii_of_string s) with l
  end.
  let r := eval cbv [design_code_regex re_join _design_code_segment repeat app]
             in design_code_regex in
  change design_code_regex with r.
  cbn [re_fullmatch].
  rewrite !alphabet_char_match by assumption.
  reflexivity.
Qed.




(** ** Deleting a design *)

Lemma delete_design_status (S : Service) (id : Z) :
  delete_design (Id id)
  = if status_code (request (mkRequest "DELETE"
         ("/api/v1/designs/" +:+ str_of_int id) [] None)) =? 404
    then raise_class UnknownDesignCodeError
    else Ret tt.
Proof. reflexivity. Qed.

Lemma UnknownDesignCodeError_code (E : Environment) :
  class_getattr UnknownDesignCodeError "code" = Some (VInt 201).
Proof. reflexivity. Qed.

(** C6: every response to the delete request other than 404, a failure
    status such as 500 included, makes [delete_design] return normally:
    nothing is raised. *)
Theorem delete_design_ignores_failure (S : Service) (id : Z) :
  status_code (request (mkRequest "DELETE"
      ("/api/v1/designs/" +:+ str_of_int id) [] None)) <> 404 ->
  delete_design (Id id) = Ret tt.
Proof.
  intros Hst. rewrite delete_design_status.
  destruct (Z.eqb_spec (status_code (request (mkRequest "DELETE"
      ("/api/v1/designs/" +:+ str_of_int id) [] None))) 404); [contradiction|reflexivity].
Qed.

Lemma delete_design_ignores_failure_witness :
  @delete_design (fixed_service 500) (Id 1) = Ret tt
  /\ @raise_for_status (mkResponse 500 []) = Raise (HTTPError 500).
Proof.
  split; [|reflexivity].
  apply (delete_design_ignores_failure (fixed_service 500) 1). discriminate.
Defined.

(** ** Structured reports of the error taxonomy *)

(** The kinds whose report comes out right when the instance carries the
    fields its constructor sets and the report needs no formatting. *)
Lemma plain_kinds_report_ok (E : Environment) :
  forallb (fun c => report_ok (to_dict (mkInstance c [])))
    [UnknownDodoCodeError; InvalidDodoCodeError; UnknownDesignCodeError;
     InvalidDesignCodeError; UnknownAuthorIdError; InvalidScaleFactorError;
     InvalidAuthorIdError; InvalidProArgument; InvalidDesignError;
     InvalidPaletteError; UnknownImageIdError; DeletionDeniedError;
     SingleLayerRequired; TiledImageTooBigError; InvalidImageIdError;
     InvalidImageDeletionToken; MissingUserAgentStringError;
     IncorrectAuthorizationError] = true.
Proof. reflexivity. Qed.

(** C8: the report of [InvalidLayerIndexError] is not a dictionary: the
    class has no [http_status], so [to_dict] raises [AttributeError], and
    with an [http_status] set on the instance the method still returns
    [None]; [CannotScaleThumbnailError] is outside the hierarchy and has no
    [to_dict] at all. *)
Theorem layer_index_and_thumbnail_reports (E : Environment) (num_layers : Z) :
  In InvalidLayerIndexError taxonomy
  /\ In CannotScaleThumbnailError taxonomy
  /\ class_getattr InvalidLayerIndexError "http_status" = None
  /\ to_dict (mkInstance InvalidLayerIndexError [("num_layers", VInt num_layers)])
     = Raise (AttributeError "http_status")
  /\ to_dict (mkInstance InvalidLayerIndexError
                [("num_layers", VInt num_layers); ("http_status", VInt 400)])
     = Ret VNone
  /\ mro CannotScaleThumbnailError = [CannotScaleThumbnailError]
  /\ to_dict (mkInstance CannotScaleThumbnailError [])
     = Raise (AttributeError "to_dict").
Proof.
  repeat apply conj; try reflexivity; vm_compute; tauto.
Qed.

(** ** Internal layers *)


(** C10: a one-to-one design internalizes to the images of its layer
    mapping in the mapping's insertion order.  For [TankTop], declared as
    back then front, a mapping filled front first yields the front image
    first, and two mappings with the same bindings filled in different
    orders yield differently ordered lists. *)
Theorem internalize_insertion_order {Image : Type} (W : Wand Image)
  (self : Design Image) :
  one_to_one (design_type self) = true ->
  internalize self = Ret (PyDict.values (layer_images self))
  /\ (forall other : Design Image,
        design_type other = design_type self ->
        (forall k, PyDict.get (layer_images other) k
                   = PyDict.get (layer_images self) k) ->
        PyDict.values (layer_images other) <> PyDict.values (layer_images self) ->
        internalize other <> internalize self)
  /\ (forall (back front : Image) author island design,
        map name (external_layers TankTop) = ["back"; "front"]
        /\ internalize (mkDesign TankTop author island design
                          [("back", back); ("front", front)])
           = Ret [back; front]
        /\ internalize (mkDesign TankTop author island design
                          [("front", front); ("back", back)])
           = Ret [front; back]
        /\ (forall k, PyDict.get [("back", back); ("front", front)] k
                      = PyDict.get [("front", front); ("back", back)] k)).
Proof.
  intros H11.
  assert (Hself : forall d : Design Image,
             design_type d = design_type self ->
             internalize d = Ret (PyDict.values (layer_images d))).
  { intros d Hd. unfold internalize. rewrite Hd, H11. reflexivity. }
  split; [now apply Hself|]. split.
  - intros other Hty _ Hne Heq.
    rewrite (Hself other Hty), (Hself self eq_refl) in Heq.
    injection Heq as Heq. contradiction.
  - intros back front author island design.
    repeat apply conj; try reflexivity.
    intros k. cbn [PyDict.get].
    repeat case_decide; subst; try reflexivity; discriminate.
Qed.

Lemma internalize_insertion_order_witness :
  let self := example_design TankTop
                [("front", sixteen_colors); ("back", plain_layer)] in
  internalize self = Ret [sixteen_colors; plain_layer].
Proof.
  intros self.
  destruct (internalize_insertion_order raster_wand self eq_refl) as [H _].
  exact H.
Defined.

(** ** Pixel buffers *)

Lemma chunked_exact {A} (n : nat) (l : list A) :
  (0 < n)%nat -> (List.length l mod n = 0)%nat ->
  Forall (fun c => List.length c = n) (chunked l n).
Proof.
  intros Hn. remember (List.length l) as k eqn:Hk.
  revert l Hk. induction k as [k IH] using lt_wf_ind. intros l Hk Hmod.
  destruct l as [|a l]; [constructor|].
  rewrite chunked_cons by (auto; discriminate).
  assert (Hle : (n <= k)%nat).
  { destruct (Nat.le_gt_cases n k) as [|Hlt]; [assumption|].
    rewrite Nat.mod_small in Hmod by exact Hlt. subst k. simpl in Hmod. lia. }
  constructor.
  - rewrite length_firstn. lia.
  - apply (IH (List.length (skipn n (a :: l)))); [|reflexivity|].
    + rewrite length_skipn. lia.
    + rewrite length_skipn, <- Hk.
      replace k with ((k - n) + 1 * n)%nat in Hmod by lia.
      now rewrite Nat.Div0.mod_add in Hmod.
Qed.

Lemma blocks_of_buffer {A} (n : nat) (l : list A) :
  (0 < n)%nat -> (List.length l mod n = 0)%nat ->
  exists blocks, l = concat blocks
                 /\ Forall (fun b => List.length b = n) blocks.
Proof.
  intros Hn Hmod. exists (chunked l n). split.
  - symmetry. now apply concat_chunked.
  - now apply chunked_exact.
Qed.

Lemma length_concat_blocks {A} (n : nat) (blocks : list (list A)) :
  Forall (fun b => List.length b = n) blocks ->
  List.length (concat blocks) = (List.length blocks * n)%nat.
Proof.
  induction 1 as [|b blocks Hb _ IH]; [reflexivity|].
  cbn [concat List.length]. rewrite length_app, IH, Hb. lia.
Qed.

Lemma pixel_colors_block (b0 b1 b2 b3 : byte) (rest : list byte) :
  exists c, LITTLE_ENDIAN_UINT32_unpack [b0; b1; b2; b3] = Ret c
            /\ pixel_colors ([b0; b1; b2; b3] ++ rest) = c :: pixel_colors rest.
Proof.
  eexists. split; [reflexivity|].
  unfold pixel_colors. rewrite chunked_app_block by (try lia; reflexivity).
  reflexivity.
Qed.

Lemma to_bytes1_nibbles (hi lo : Z) :
  0 <= hi <= 14 -> 0 <= lo <= 14 ->
  exists b, to_bytes1 (Z.lor (Z.shiftl hi 4) lo) = Ret b
            /\ byte_value b = Z.lor (Z.shiftl hi 4) lo.
Proof.
  intros Hhi Hlo.
  assert (Hsh : Z.shiftl hi 4 = hi * 16) by (rewrite Z.shiftl_mul_pow2; lia).
  pose proof (Z.add_lor_land (Z.shiftl hi 4) lo) as Hadd.
  assert (0 <= Z.land (Z.shiftl hi 4) lo) by (apply Z.land_nonneg; lia).
  assert (0 <= Z.lor (Z.shiftl hi 4) lo) by (apply Z.lor_nonneg; lia).
  set (n := Z.lor (Z.shiftl hi 4) lo) in *.
  unfold to_bytes1. destruct (Z.ltb_spec n 0); [lia|].
  destruct (Byte.of_N (Z.to_N n)) as [b|] eqn:Hb.
  - exists b. split; [reflexivity|].
    apply Byte.to_of_N in Hb. unfold byte_value. rewrite Hb. lia.
  - apply Byte.of_N_None_iff in Hb. lia.
Qed.

Lemma encode_image_blocks (palette : Palette) (blocks : list (list byte)) :
  (forall color i, PyDict.get palette color = Some i -> 0 <= i <= 14) ->
  Forall (fun b => List.length b = 8%nat) blocks ->
  Forall (fun c => is_Some (PyDict.get palette c)) (pixel_colors (concat blocks)) ->
  forall img,
  exists out,
    encode_image_loop palette (chunked (concat blocks) 8) img = Ret (img ++ out)
    /\ List.length out = List.length blocks
    /\ List.length (pixel_colors (concat blocks)) = (2 * List.length blocks)%nat
    /\ Forall2 (packs palette) (pixel_pairs (pixel_colors (concat blocks))) out.
Proof.
  intros palette_range.
  induction 1 as [|b blocks Hb Hblocks IH]; intros Hcolors img.
  - exists []. rewrite app_nil_r. repeat split. constructor.
  - do 8 (destruct b as [|? b]; [discriminate Hb|]).
    destruct b; [|discriminate Hb].
    cbn [concat] in *.
    rewrite chunked_app_block by (try lia; reflexivity).
    match goal with
    | |- context [[?b0; ?b1; ?b2; ?b3; ?b4; ?b5; ?b6; ?b7] ++ ?rest] =>
        change ([b0; b1; b2; b3; b4; b5; b6; b7] ++ rest)
          with ([b0; b1; b2; b3] ++ [b4; b5; b6; b7] ++ rest) in *;
        destruct (pixel_colors_block b0 b1 b2 b3 ([b4; b5; b6; b7] ++ rest))
          as (c1 & Hc1 & Hp1);
        destruct (pixel_colors_block b4 b5 b6 b7 rest) as (c2 & Hc2 & Hp2)
    end.
    rewrite Hp1, Hp2 in *.
    inversion Hcolors as [|? ? [lo Hlo] Hrest]; subst.
    inversion Hrest as [|? ? [hi Hhi] Hrest']; subst.
    destruct (to_bytes1_nibbles hi lo) as (byte & Hbyte & Hval);
      [eauto using palette_range..|].
    destruct (IH Hrest' (img ++ [byte])) as (out & Hout & Hlen & Hcount & Hpairs).
    exists (byte :: out).
    cbn [encode_image_loop].
    unfold TWO_LITTLE_ENDIAN_UINT32S_unpack_from.
    cbn [List.length Nat.ltb Nat.leb firstn skipn].
    rewrite Hc1, Hc2. cbn [bind].
    rewrite Hhi, Hlo. cbn [of_option bind]. rewrite Hbyte. cbn [bind].
    rewrite Hout, <- app_assoc.
    repeat split.
    + cbn [List.length]. lia.
    + cbn [List.length]. lia.
    + cbn [pixel_pairs]. constructor; [|exact Hpairs].
      exists lo, hi. auto.
Qed.

(** C4, the counterexample: on a buffer of one pixel, whose colour is in the
    palette, [encode_image] raises [struct.error] and returns no bytes. *)
Lemma encode_image_odd_buffer :
  let palette : Palette := [(0, 0)] in
  let pxs := pixel_of_color 0 in
  whole_pixels pxs
  /\ pixel_colors pxs = [0]
  /\ encode_image palette pxs = Raise StructError.
Proof. repeat split. Qed.

(** C4, amended: for a palette whose indices lie in 0..14 and a buffer that
    holds an even number of four-byte pixels, all of colours in the palette,
    [encode_image] returns one byte for each consecutive pixel pair
    (first, second), equal to [(palette[second] << 4) | palette[first]]; the
    output has half as many bytes as the buffer has pixels. *)
Theorem encode_image_packs_pairs (palette : Palette) (pxs : list byte) :
  (forall color i, PyDict.get palette color = Some i -> 0 <= i <= 14) ->
  (List.length pxs mod 8 = 0)%nat ->
  Forall (fun c => is_Some (PyDict.get palette c)) (pixel_colors pxs) ->
  exists out,
    encode_image palette pxs = Ret out
    /\ List.length (pixel_colors pxs) = (List.length pxs / 4)%nat
    /\ List.length out = (List.length (pixel_colors pxs) / 2)%nat
    /\ Forall2 (packs palette) (pixel_pairs (pixel_colors pxs)) out.
Proof.
  intros Hrange Hmod Hcolors.
  destruct (blocks_of_buffer 8 pxs ltac:(lia) Hmod) as (blocks & -> & Hblocks).
  destruct (encode_image_blocks palette blocks Hrange Hblocks Hcolors [])
    as (out & Hout & Hlen & Hcount & Hpairs).
  exists out. unfold encode_image. rewrite Hout. cbn [app].
  repeat split; [| |exact Hpairs].
  - rewrite Hcount, (length_concat_blocks 8) by exact Hblocks.
    replace (List.length blocks * 8)%nat with ((List.length blocks * 2) * 4)%nat by lia.
    rewrite Nat.div_mul by lia. lia.
  - rewrite Hcount, Hlen.
    replace (2 * List.length blocks)%nat with (List.length blocks * 2)%nat by lia.
    now rewrite Nat.div_mul by lia.
Qed.

Lemma encode_image_packs_pairs_witness :
  let palette : Palette := [(5, 0); (6, 1); (7, 2)] in
  let pxs := r_pixels (raster_of_colors 2 2 [5; 6; 5; 7]) in
  exists out,
    encode_image palette pxs = Ret out
    /\ List.length (pixel_colors pxs) = (List.length pxs / 4)%nat
    /\ List.length out = (List.length (pixel_colors pxs) / 2)%nat
    /\ Forall2 (packs palette) (pixel_pairs (pixel_colors pxs)) out.
Proof.
  intros palette pxs.
  apply (encode_image_packs_pairs palette pxs).
  - intros color i. unfold palette. cbn [PyDict.get].
    repeat case_decide; intros [= <-]; lia.
  - reflexivity.
  - vm_compute. repeat (constructor; [eexists; reflexivity|]). constructor.
Defined.

(** ** Dictionaries *)

Lemma dict_get_None {K V} `{EqDecision K} (d : PyDict.t K V) (k : K) :
  PyDict.get d k = None <-> ~ In k (PyDict.keys d).
Proof.
  induction d as [|[k' v] d IH]; cbn [PyDict.get PyDict.keys map fst In].
  - tauto.
  - case_decide; [split; [discriminate|tauto]|]. rewrite IH. tauto.
Qed.

Lemma dict_get_Some_key {K V} `{EqDecision K} (d : PyDict.t K V) (k : K) (v : V) :
  PyDict.get d k = Some v -> In k (PyDict.keys d).
Proof.
  intros Hget. destruct (in_dec (decide_rel eq) k (PyDict.keys d)) as [|Hn];
    [assumption|].
  apply dict_get_None in Hn. congruence.
Qed.

Lemma dict_keys_set_new {K V} `{EqDecision K} (d : PyDict.t K V) (k : K) (v : V) :
  PyDict.get d k = None -> PyDict.keys (PyDict.set d k v) = PyDict.keys d ++ [k].
Proof.
  induction d as [|[k' v'] d IH]; cbn [PyDict.get PyDict.set]; [reflexivity|].
  case_decide; [discriminate|]. intros Hget.
  cbn [PyDict.keys map fst app] in *. f_equal. now apply IH.
Qed.

(** ** The palette *)

Lemma unpack_pixel (px : list byte) (pxs : list (list byte)) :
  List.length px = 4%nat ->
  exists color,
    LITTLE_ENDIAN_UINT32_unpack px = Ret color
    /\ omap unpack_opt (px :: pxs) = color :: omap unpack_opt pxs.
Proof.
  intros Hpx.
  do 4 (destruct px as [|? px]; [discriminate Hpx|]).
  destruct px; [|discriminate Hpx].
  eexists. split; reflexivity.
Qed.

Lemma gen_palette_pixels_spec (pxs : list (list byte)) :
  Forall (fun px => List.length px = 4%nat) pxs ->
  forall palette color_i, NoDup (PyDict.keys palette) ->
  exists palette' color_i',
    gen_palette_pixels pxs (palette, color_i) = Ret (palette', color_i')
    /\ NoDup (PyDict.keys palette')
    /\ forall c, In c (PyDict.keys palette')
                 <-> In c (PyDict.keys palette) \/ In c (omap unpack_opt pxs).
Proof.
  induction 1 as [|px pxs Hpx _ IH]; intros palette color_i Hnd.
  - exists palette, color_i. cbn. repeat split; tauto.
  - destruct (unpack_pixel px pxs Hpx) as (color & Hcolor & Hcolors).
    cbn [gen_palette_pixels]. rewrite Hcolor, Hcolors. cbn [bind].
    destruct (PyDict.get palette color) as [i|] eqn:Hget.
    + destruct (IH palette color_i Hnd) as (p' & i' & Hrun & Hnd' & Hin).
      exists p', i'. repeat split; [exact Hrun|exact Hnd'| |].
      * intros Hc. apply Hin in Hc. cbn [In]. tauto.
      * intros [Hc|[<-|Hc]]; apply Hin; auto.
        left. eapply dict_get_Some_key, Hget.
    + assert (Hnd2 : NoDup (PyDict.keys (PyDict.set palette color color_i))).
      { rewrite dict_keys_set_new by exact Hget.
        apply NoDup_app. repeat split; [exact Hnd| |apply NoDup_singleton].
        intros x Hx Hx'. apply list_elem_of_In in Hx, Hx'.
        destruct Hx' as [<-|[]]. now apply dict_get_None in Hget. }
      destruct (IH _ (color_i + 1) Hnd2) as (p' & i' & Hrun & Hnd' & Hin).
      exists p', i'. repeat split; [exact Hrun|exact Hnd'| |].
      * intros Hc. apply Hin in Hc.
        rewrite dict_keys_set_new in Hc by exact Hget.
        rewrite in_app_iff in Hc. cbn [In] in *. tauto.
      * intros Hc. apply Hin.
        rewrite dict_keys_set_new by exact Hget.
        rewrite in_app_iff. cbn [In] in *. tauto.
Qed.

Lemma gen_palette_layers_spec (pxss : list (list byte)) :
  Forall whole_pixels pxss ->
  forall palette color_i, NoDup (PyDict.keys palette) ->
  exists palette' color_i',
    gen_palette_layers pxss (palette, color_i) = Ret (palette', color_i')
    /\ NoDup (PyDict.keys palette')
    /\ forall c, In c (PyDict.keys palette')
                 <-> In c (PyDict.keys palette)
                     \/ In c (concat (map pixel_colors pxss)).
Proof.
  induction 1 as [|pxs pxss Hpxs _ IH]; intros palette color_i Hnd.
  - exists palette, color_i. cbn. repeat split; tauto.
  - destruct (gen_palette_pixels_spec (chunked pxs 4)
                (chunked_exact 4 pxs ltac:(lia) Hpxs) palette color_i Hnd)
      as (p1 & i1 & Hrun1 & Hnd1 & Hin1).
    destruct (IH p1 i1 Hnd1) as (p2 & i2 & Hrun2 & Hnd2 & Hin2).
    exists p2, i2. cbn [gen_palette_layers]. rewrite Hrun1. cbn [bind].
    repeat split; [exact Hrun2|exact Hnd2| |].
    + intros Hc. apply Hin2 in Hc. cbn [map concat]. rewrite in_app_iff.
      rewrite Hin1 in Hc. unfold pixel_colors at 1. tauto.
    + intros Hc. apply Hin2. rewrite Hin1.
      cbn [map concat] in Hc. rewrite in_app_iff in Hc.
      unfold pixel_colors at 1 in Hc. tauto.
Qed.

(** The palette has one entry for each distinct colour; sixteen or more
    make [gen_palette] raise the palette error of [encode.py]. *)
Lemma gen_palette_overflow (pxss : list (list byte)) :
  Forall whole_pixels pxss ->
  (16 <= base.size (distinct_colors pxss))%nat ->
  gen_palette pxss = raise_class Enc_InvalidPaletteError.
Proof.
  intros Hwhole Hmany.
  destruct (gen_palette_layers_spec pxss Hwhole [] 0 (NoDup_nil_2 (A := Z)))
    as (p & i & Hrun & Hnd & Hin).
  unfold gen_palette.
  match goal with
  | |- bind ?m _ = _ => replace m with (@Ret (Palette * Z) (p, i))
                          by (symmetry; exact Hrun)
  end.
  cbn [bind].
  assert (Hsize : base.size (distinct_colors pxss) = List.length (PyDict.keys p)).
  { rewrite <- (size_list_to_set (C := gset Z) (PyDict.keys p)) by exact Hnd.
    f_equal. unfold distinct_colors. apply set_eq. intros c.
    rewrite !elem_of_list_to_set, !list_elem_of_In, Hin. cbn [PyDict.keys map In].
    tauto. }
  unfold PyDict.len, PyDict.keys in *. rewrite length_map in Hsize.
  destruct (Z.gtb_spec (Z.of_nat (List.length p)) PALETTE_SIZE) as [|Hle];
    [reflexivity|].
  unfold PALETTE_SIZE in Hle. lia.
Qed.

(** ** The pro encoder *)

(** C2, the counterexample: a [TankTop] whose only supplied layer holds
    sixteen colours is refused for its missing layer, not for its palette;
    and a complete one is refused with the palette error that [encode.py]
    declares, whose code is 27. *)
Lemma palette_overflow_counterexample :
  let partial := example_design TankTop [("back", sixteen_colors)] in
  let complete := example_design TankTop
                    [("back", sixteen_colors); ("front", plain_layer)] in
  pro partial = true
  /\ base.size (distinct_colors
                  (map export_pixels (PyDict.values (layer_images partial))))
     = 16%nat
  /\ encode_pro partial
     = Raise (Error (MissingLayerError_new (mkLayer "front" STANDARD)))
  /\ encode_pro complete = raise_class Enc_InvalidPaletteError
  /\ @class_getattr plain_environment Enc_InvalidPaletteError "code"
     = Some (VInt 27).
Proof.
  repeat split; vm_compute; reflexivity.
Qed.

(** C2, amended: when a design passes [validate] and the layers that
    [internalize] returns (for a one-to-one type, the supplied ones) hold
    sixteen or more distinct colours, [encode_pro], and [encode] for a pro
    design, raise the palette error of [encode.py] and return no payload. *)
Theorem encode_pro_palette_overflow {Image : Type} (W : Wand Image)
  (design : Design Image) (images : list Image) :
  validate design = Ret tt ->
  internalize design = Ret images ->
  Forall whole_pixels (map export_pixels images) ->
  (16 <= base.size (distinct_colors (map export_pixels images)))%nat ->
  encode_pro design = raise_class Enc_InvalidPaletteError
  /\ (forall (S : Service) nonce net_image preview_image encode_basic,
        pro design = true ->
        encode nonce net_image preview_image encode_basic design
        = raise_class Enc_InvalidPaletteError)
  /\ (one_to_one (design_type design) = true ->
      images = PyDict.values (layer_images design)).
Proof.
  intros Hvalid Hint Hwhole Hmany.
  assert (Hpro : encode_pro design = raise_class Enc_InvalidPaletteError).
  { unfold encode_pro. rewrite Hvalid, Hint. cbn [bind].
    now rewrite gen_palette_overflow. }
  split; [exact Hpro|]. split.
  - intros S nonce net_image preview_image encode_basic Hp.
    unfold encode. rewrite Hp, Hpro. reflexivity.
  - intros H11. unfold internalize in Hint. rewrite H11 in Hint.
    now injection Hint as <-.
Qed.

Lemma encode_pro_palette_overflow_witness :
  let design := example_design TankTop
                  [("back", sixteen_colors); ("front", plain_layer)] in
  encode_pro design = raise_class Enc_InvalidPaletteError
  /\ (forall (S : Service) nonce net_image preview_image encode_basic,
        pro design = true ->
        encode nonce net_image preview_image encode_basic design
        = raise_class Enc_InvalidPaletteError)
  /\ (one_to_one (design_type design) = true ->
      [sixteen_colors; plain_layer] = PyDict.values (layer_images design)).
Proof.
  intros design.
  apply (encode_pro_palette_overflow raster_wand design [sixteen_colors; plain_layer]).
  - vm_compute. reflexivity.
  - reflexivity.
  - repeat (constructor; [vm_compute; reflexivity|]). constructor.
  - vm_compute. lia.
Defined.

(** ** Validation of the supplied layers *)

Lemma registered_layer_names (t : DesignType) :
  In t design_types ->
  PyDict.items (external_layer_names t)
  = map (fun layer => (name layer, layer)) (external_layers t)
  /\ NoDup (map name (external_layers t)).
Proof.
  intros Hin. unfold design_types in Hin. cbn [In] in Hin.
  repeat (destruct Hin as [<-|Hin];
          [split; [reflexivity|apply (bool_decide_unpack _); vm_compute; exact I]|]).
  contradiction.
Qed.


Lemma validate_loop_complete {Image : Type} (W : Wand Image)
  (self : Design Image) (layers : list Layer) :
  Forall (supplied self) layers ->
  validate_loop self (map (fun l => (name l, l)) layers) = Ret tt.
Proof.
  induction 1 as [|l layers (image & Hget & Hsize) _ IH]; [reflexivity|].
  cbn [map validate_loop]. rewrite Hget.
  unfold Layer_validate. rewrite decide_True by exact Hsize.
  cbn [bind]. exact IH.
Qed.




(** * Further properties *)

(** ** The identifier codec outside its canonical inputs *)

Lemma design_code_loop_negative (fuel : nat) :
  forall n digits, n < 0 -> design_code_loop fuel n digits = OutOfFuel.
Proof.
  induction fuel as [|fuel IH]; intros n digits Hn; [reflexivity|].
  cbn [design_code_loop].
  destruct (Z.eqb_spec n 0) as [->|_]; [lia|].
  destruct (alphabet_digit (n mod 30)) as (c & Hc & _).
  { apply Z.mod_pos_bound. lia. }
  rewrite Hc. cbn [bind]. apply IH.
  apply Z.div_lt_upper_bound; lia.
Qed.

(** X1: on a negative identifier the loop of [design_code] never reaches
    zero (floor division keeps the quotient negative), so no amount of
    iterations produces a code. *)
Theorem design_code_negative_diverges (n : Z) (fuel : nat) :
  n < 0 -> design_code fuel n = OutOfFuel.
Proof.
  intros Hn. unfold design_code.
  now rewrite design_code_loop_negative.
Qed.

Lemma design_code_negative_diverges_witness :
  design_code 1000 (-1) = OutOfFuel.
Proof. apply (design_code_negative_diverges (-1) 1000). lia. Defined.

Lemma foreign_char_value (c : ascii) :
  ~ In c alphabet_chars -> DESIGN_CODE_ALPHABET_VALUES !! c = None.
Proof.
  intros Hc.
  destruct c as [[] [] [] [] [] [] [] []];
    first [ vm_compute; reflexivity
          | exfalso; apply Hc; vm_compute; tauto ].
Qed.

Lemma design_id_loop_foreign (cs : list ascii) (c : ascii) :
  In c cs -> ~ In c alphabet_chars ->
  forall n, design_id_loop cs n = Raise KeyError.
Proof.
  intros Hin Hc. induction cs as [|a cs IH]; [destruct Hin|].
  intros n. cbn [design_id_loop].
  destruct (DESIGN_CODE_ALPHABET_VALUES !! a) as [v|] eqn:Hv; [|reflexivity].
  cbn [of_option bind]. apply IH.
  destruct Hin as [->|Hin]; [|exact Hin].
  rewrite foreign_char_value in Hv by exact Hc. discriminate.
Qed.

(** X2: [design_id] raises [KeyError] on every string that holds a
    character other than a hyphen outside the 30-symbol alphabet (a lower
    case letter, a vowel, a space), wherever it stands. *)
Theorem design_id_foreign_character (s : string) (c : ascii) :
  In c (list_ascii_of_string s) -> c <> "-"%char -> ~ In c alphabet_chars ->
  design_id s = Raise KeyError.
Proof.
  intros Hin Hhy Hc. unfold design_id. rewrite str_replace_hyphen.
  apply (design_id_loop_foreign _ c); [|exact Hc].
  apply filter_In. split; [exact Hin|].
  unfold not_hyphen. now destruct (Ascii.eqb_spec c "-").
Qed.

Lemma design_id_foreign_character_witness :
  design_id "0000-00A0-0000" = Raise KeyError.
Proof.
  apply (design_id_foreign_character "0000-00A0-0000" "A").
  - vm_compute. tauto.
  - discriminate.
  - vm_compute. intros H. repeat (destruct H as [H|H]; [discriminate H|]). exact H.
Defined.

(** X3: [design_id] disregards hyphens wherever they stand: a hyphen put
    between any two parts of a string does not change the result. *)
Theorem design_id_hyphen_anywhere (s t : string) :
  design_id (s +:+ "-" +:+ t) = design_id (s +:+ t).
Proof.
  unfold design_id. rewrite !str_replace_hyphen, !list_ascii_of_string_app.
  rewrite !filter_app'. reflexivity.
Qed.

(** ** Canonical codes *)

Lemma re_atom_match_alphabet (c : ascii) :
  re_atom_match (ReSet DESIGN_CODE_ALPHABET) c = true -> In c alphabet_chars.
Proof.
  cbn [re_atom_match]. intros Hm. apply existsb_exists in Hm as (x & Hx & Heq).
  apply Ascii.eqb_eq in Heq. now subst x.
Qed.

Lemma design_code_regex_shape (cs : list ascii) :
  re_fullmatch design_code_regex cs = true <->
  exists g1 g2 g3,
    is_group g1 /\ is_group g2 /\ is_group g3
    /\ cs = g1 ++ "-"%char :: g2 ++ "-"%char :: g3.
Proof.
  split.
  - intros Hm. pose proof (re_fullmatch_length _ _ Hm) as Hlen.
    change (List.length design_code_regex) with 14%nat in Hlen.
    do 14 (destruct cs as [|? cs]; [discriminate Hlen|]).
    destruct cs; [|discriminate Hlen].
    revert Hm.
    let r := eval cbv [design_code_regex re_join _design_code_segment repeat app]
               in design_code_regex in
    change design_code_regex with r.
    cbn [re_fullmatch]. intros Hm.
    repeat match type of Hm with
           | (_ && _)%bool = true => apply andb_prop in Hm as [?Hc Hm]
           end.
    repeat match goal with
           | H : re_atom_match (ReSet _) _ = true |- _ =>
               apply re_atom_match_alphabet in H
           | H : re_atom_match (ReChar _) _ = true |- _ =>
               cbn [re_atom_match] in H; apply Ascii.eqb_eq in H; subst
           end.
    match goal with
    | |- context [[?a; ?b; ?c; ?d; _; ?e; ?f; ?g; ?h; _; ?i; ?j; ?k; ?l]] =>
        exists [a; b; c; d], [e; f; g; h], [i; j; k; l]
    end.
    unfold is_group.
    repeat apply conj; try reflexivity;
      repeat (constructor; [assumption|]); constructor.
  - intros (g1 & g2 & g3 & [Hl1 H1] & [Hl2 H2] & [Hl3 H3] & ->).
    do 4 (destruct g1 as [|? g1]; [discriminate Hl1|]).
    destruct g1; [|discriminate Hl1].
    do 4 (destruct g2 as [|? g2]; [discriminate Hl2|]).
    destruct g2; [|discriminate Hl2].
    do 4 (destruct g3 as [|? g3]; [discriminate Hl3|]).
    destruct g3; [|discriminate Hl3].
    repeat match goal with
           | H : Forall _ (_ :: _) |- _ => inversion H; subst; clear H
           end.
    let r := eval cbv [design_code_regex re_join _design_code_segment repeat app]
               in design_code_regex in
    change design_code_regex with r.
    cbn [app re_fullmatch].
    rewrite !alphabet_char_match by assumption.
    reflexivity.
Qed.

(** X4: [InvalidDesignCodeError.validate] returns its argument unchanged
    exactly on the strings made of three groups of four alphabet characters
    joined by two hyphens, and raises [InvalidDesignCodeError] on every
    other string. *)
Theorem design_code_validate_exact (s : string) :
  (InvalidDesignCodeError_validate s = Ret s <->
   exists g1 g2 g3,
     is_group g1 /\ is_group g2 /\ is_group g3
     /\ s = string_of_list_ascii (g1 ++ "-"%char :: g2 ++ "-"%char :: g3))
  /\ (InvalidDesignCodeError_validate s = Ret s
      \/ InvalidDesignCodeError_validate s = raise_class InvalidDesignCodeError).
Proof.
  unfold InvalidDesignCodeError_validate.
  destruct (re_fullmatch design_code_regex (list_ascii_of_string s)) eqn:Hm.
  - split; [|now left]. split; [intros _|reflexivity].
    apply design_code_regex_shape in Hm as (g1 & g2 & g3 & H1 & H2 & H3 & Hs).
    exists g1, g2, g3. split; [exact H1|]. split; [exact H2|]. split; [exact H3|].
    now rewrite <- Hs, string_of_list_ascii_of_string.
  - split; [|now right]. split; [discriminate|].
    intros (g1 & g2 & g3 & H1 & H2 & H3 & ->).
    rewrite list_ascii_of_string_of_list_ascii in Hm.
    assert (re_fullmatch design_code_regex (g1 ++ "-"%char :: g2 ++ "-"%char :: g3) = true)
      by (apply design_code_regex_shape; eauto 8).
    congruence.
Qed.

(** ** Decoding, then encoding *)

Lemma alphabet_value_char (c : ascii) (d : Z) :
  In c alphabet_chars -> DESIGN_CODE_ALPHABET_VALUES !! c = Some d ->
  0 <= d < 30 /\ str_getitem DESIGN_CODE_ALPHABET d = Ret c.
Proof.
  intros Hin. vm_compute in Hin.
  repeat (destruct Hin as [<-|Hin];
          [vm_compute; intros [= <-]; repeat split; discriminate|]).
  contradiction.
Qed.

(** The value of a digit string: the accumulator is shifted by the length
    and a number below [30 ^ length] is added. *)
Lemma design_id_loop_value (cs : list ascii) :
  Forall (fun c => In c alphabet_chars) cs ->
  exists v, 0 <= v < 30 ^ Z.of_nat (List.length cs)
            /\ forall a, design_id_loop cs a
                         = Ret (a * 30 ^ Z.of_nat (List.length cs) + v).
Proof.
  induction 1 as [|c cs Hc _ (v & Hv & IH)].
  - exists 0. split; [simpl; lia|]. intros a. cbn. f_equal. lia.
  - destruct (alphabet_char_value c Hc) as (_ & d & Hd).
    destruct (alphabet_value_char c d Hc Hd) as [Hrange _].
    cbn [List.length]. rewrite Nat2Z.inj_succ, Z.pow_succ_r by lia.
    exists (d * 30 ^ Z.of_nat (List.length cs) + v). split; [nia|].
    intros a. cbn [design_id_loop]. rewrite Hd. cbn [of_option bind].
    rewrite IH. f_equal. ring.
Qed.

Lemma design_id_loop_injective (cs cs' : list ascii) :
  Forall (fun c => In c alphabet_chars) cs ->
  Forall (fun c => In c alphabet_chars) cs' ->
  List.length cs = List.length cs' ->
  design_id_loop cs 0 = design_id_loop cs' 0 ->
  cs = cs'.
Proof.
  intros Hcs. revert cs'.
  induction Hcs as [|c cs Hc Hcs IH]; intros cs' Hcs' Hlen Heq.
  - destruct cs'; [reflexivity|discriminate Hlen].
  - destruct cs' as [|c' cs']; [discriminate Hlen|].
    inversion Hcs' as [|? ? Hc' Hcs'']; subst.
    injection Hlen as Hlen.
    destruct (alphabet_char_value c Hc) as (_ & d & Hd).
    destruct (alphabet_char_value c' Hc') as (_ & d' & Hd').
    destruct (alphabet_value_char c d Hc Hd) as [Hrange Hget].
    destruct (alphabet_value_char c' d' Hc' Hd') as [Hrange' Hget'].
    destruct (design_id_loop_value cs Hcs) as (v & Hv & Hval).
    destruct (design_id_loop_value cs' Hcs'') as (v' & Hv' & Hval').
    cbn [design_id_loop] in Heq. rewrite Hd, Hd' in Heq.
    cbn [of_option bind] in Heq. rewrite Hval, Hval', <- Hlen in Heq.
    injection Heq as Heq.
    set (P := 30 ^ Z.of_nat (List.length cs)) in *.
    rewrite <- Hlen in Hv'. fold P in Hv'.
    assert (d = d') by nia. subst d'.
    assert (c = c') by congruence. subst c'.
    f_equal. apply IH; [exact Hcs''|exact Hlen|].
    rewrite (Hval 0), (Hval' 0), <- Hlen. fold P. f_equal. lia.
Qed.

(** A number below [30 ^ 12] and the twelve characters of its code. *)
Lemma design_code_canonical (id : Z) (fuel : nat) :
  0 <= id < 30 ^ 12 -> (13 <= fuel)%nat ->
  exists cs,
    List.length cs = 12%nat
    /\ Forall (fun c => In c alphabet_chars) cs
    /\ design_code fuel id = Ret (add_hyphens (string_of_list_ascii cs))
    /\ design_id_loop cs 0 = Ret id.
Proof.
  intros Hid Hfuel.
  destruct (base30_exists id) as [ds Hds]; [lia|].
  assert (Hlen : (List.length ds <= 12)%nat).
  { apply (base30_length_le id); [exact Hds|]. change (Z.of_nat 12) with 12. lia. }
  destruct (design_code_digits id ds fuel Hds ltac:(lia)) as (Hcode & Hback & Hchars & _).
  set (cs := repeat "0"%char (12 - List.length ds) ++ rev ds) in *.
  exists cs. repeat split; [|exact Hchars|exact Hcode|].
  - unfold cs. rewrite length_app, repeat_length, length_rev. lia.
  - unfold cs. rewrite design_id_loop_zeros. now apply base30_value.
Qed.

(** X5: decoding a canonical code and encoding the result gives the code
    back: for twelve alphabet characters, [design_id] of their hyphenated
    form is a number below 30^12 whose [design_code] is that same string. *)
Theorem design_id_then_design_code (cs : list ascii) (fuel : nat) :
  List.length cs = 12%nat ->
  Forall (fun c => In c alphabet_chars) cs ->
  (13 <= fuel)%nat ->
  let code := add_hyphens (string_of_list_ascii cs) in
  exists n, design_id code = Ret n
            /\ 0 <= n < 30 ^ 12
            /\ design_code fuel n = Ret code.
Proof.
  intros Hlen Hcs Hfuel code.
  destruct (design_id_loop_value cs Hcs) as (v & Hv & Hval).
  rewrite Hlen in Hv. change (Z.of_nat 12) with 12 in Hv.
  assert (Hloop : design_id_loop cs 0 = Ret v).
  { rewrite Hval. f_equal; lia. }
  exists v. split; [|split; [exact Hv|]].
  - unfold code. rewrite design_id_add_hyphens; [exact Hloop|lia|].
    eapply Forall_impl; [exact Hcs|]. intros c Hc.
    now destruct (alphabet_char_value c Hc).
  - destruct (design_code_canonical v fuel Hv Hfuel)
      as (cs' & Hlen' & Hcs' & Hcode & Hloop').
    rewrite Hcode. unfold code. do 3 f_equal. symmetry.
    apply design_id_loop_injective; try assumption; congruence.
Qed.

Lemma design_id_then_design_code_witness :
  exists n, design_id "0000-0BXY-V4H9" = Ret n
            /\ 0 <= n < 30 ^ 12
            /\ design_code 13 n = Ret "0000-0BXY-V4H9".
Proof.
  apply (design_id_then_design_code (list_ascii_of_string "00000BXYV4H9") 13).
  - reflexivity.
  - repeat (constructor; [vm_compute; tauto|]). constructor.
  - lia.
Defined.

(** X6: handing an operation the code of an identifier is the same as
    handing it the identifier: for [id] in [0, 30^12), [delete_design] and
    [download_design] behave on [design_code(id)] as on [id]. *)
Theorem design_code_operand_is_identifier (S : Service) (id : Z) (fuel : nat)
  (partial : bool) :
  0 <= id < 30 ^ 12 -> (13 <= fuel)%nat ->
  exists code,
    design_code fuel id = Ret code
    /\ delete_design (Code code) = delete_design (Id id)
    /\ download_design (Code code) partial = download_design (Id id) partial.
Proof.
  intros Hid Hfuel.
  destruct (design_code_canonical id fuel Hid Hfuel)
    as (cs & Hlen & Hcs & Hcode & Hloop).
  exists (add_hyphens (string_of_list_ascii cs)). split; [exact Hcode|].
  assert (Hback : design_id (add_hyphens (string_of_list_ascii cs)) = Ret id).
  { rewrite design_id_add_hyphens; [exact Hloop|lia|].
    eapply Forall_impl; [exact Hcs|]. intros c Hc.
    now destruct (alphabet_char_value c Hc). }
  unfold delete_design, download_design, accepts_design_id.
  rewrite validate_hyphenated by assumption. cbn [bind].
  rewrite Hback. split; reflexivity.
Qed.

Lemma design_code_operand_is_identifier_witness :
  exists code,
    design_code 13 7994596059 = Ret code
    /\ @delete_design (fixed_service 404) (Code code)
       = @delete_design (fixed_service 404) (Id 7994596059)
    /\ @download_design (fixed_service 404) (Code code) false
       = @download_design (fixed_service 404) (Id 7994596059) false.
Proof.
  apply (design_code_operand_is_identifier (fixed_service 404) 7994596059 13 false).
  - vm_compute. split; congruence.
  - lia.
Defined.

(** ** The palette, exactly *)

Lemma dict_set_new {K V} `{EqDecision K} (d : PyDict.t K V) (k : K) (v : V) :
  PyDict.get d k = None -> PyDict.set d k v = d ++ [(k, v)].
Proof.
  induction d as [|[k' v'] d IH]; cbn [PyDict.get PyDict.set app]; [reflexivity|].
  case_decide; [discriminate|]. intros Hget. f_equal. now apply IH.
Qed.

Lemma keys_combine {A B} (l : list A) (l' : list B) :
  List.length l = List.length l' -> PyDict.keys (combine l l') = l.
Proof.
  revert l'. induction l as [|a l IH]; intros [|b l'] Hlen;
    try discriminate; [reflexivity|].
  cbn. f_equal. apply IH. now injection Hlen.
Qed.

Lemma combine_snoc {A B} (l : list A) (l' : list B) (a : A) (b : B) :
  List.length l = List.length l' ->
  combine (l ++ [a]) (l' ++ [b]) = combine l l' ++ [(a, b)].
Proof.
  revert l'. induction l as [|x l IH]; intros [|y l'] Hlen;
    try discriminate; [reflexivity|].
  cbn. f_equal. apply IH. now injection Hlen.
Qed.

Lemma gen_palette_pixels_total (pxs : list (list byte)) :
  Forall (fun px => List.length px = 4%nat) pxs ->
  forall st, exists st', gen_palette_pixels pxs st = Ret st'.
Proof.
  induction 1 as [|px pxs Hpx _ IH]; intros [palette color_i].
  - now eexists.
  - destruct (unpack_pixel px pxs Hpx) as (color & Hcolor & _).
    cbn [gen_palette_pixels]. rewrite Hcolor. cbn [bind].
    destruct (PyDict.get palette color); apply IH.
Qed.

Lemma palette_of_keys (seen : list Z) : PyDict.keys (palette_of seen) = seen.
Proof.
  unfold palette_of. apply keys_combine. now rewrite length_map, length_seq.
Qed.

Lemma palette_of_snoc (seen : list Z) (c : Z) :
  palette_of (seen ++ [c])
  = palette_of seen ++ [(c, Z.of_nat (List.length seen))].
Proof.
  unfold palette_of. rewrite length_app. cbn [List.length].
  rewrite Nat.add_1_r, seq_S, map_app. cbn [map Nat.add].
  rewrite combine_snoc by now rewrite length_map, length_seq.
  reflexivity.
Qed.

Lemma palette_of_get_None (seen : list Z) (c : Z) :
  PyDict.get (palette_of seen) c = None <-> c ∉ seen.
Proof. now rewrite dict_get_None, palette_of_keys, list_elem_of_In. Qed.

Lemma gen_palette_pixels_first_seen (pxs : list (list byte)) :
  Forall (fun px => List.length px = 4%nat) pxs ->
  forall seen,
  gen_palette_pixels pxs (palette_of seen, Z.of_nat (List.length seen))
  = Ret (palette_of (seen ++ first_seen seen (omap unpack_opt pxs)),
         Z.of_nat (List.length (seen ++ first_seen seen (omap unpack_opt pxs)))).
Proof.
  induction 1 as [|px pxs Hpx _ IH]; intros seen.
  - cbn. now rewrite app_nil_r.
  - destruct (unpack_pixel px pxs Hpx) as (color & Hcolor & Hcolors).
    cbn [gen_palette_pixels]. rewrite Hcolor, Hcolors. cbn [bind first_seen].
    destruct (decide (color ∈ seen)) as [Hin|Hnew].
    + destruct (PyDict.get (palette_of seen) color) eqn:Hget.
      * apply IH.
      * apply palette_of_get_None in Hget. contradiction.
    + apply palette_of_get_None in Hnew as Hget. rewrite Hget.
      rewrite dict_set_new by exact Hget.
      rewrite <- palette_of_snoc.
      replace (Z.of_nat (List.length seen) + 1)
        with (Z.of_nat (List.length (seen ++ [color])))
        by (rewrite length_app; cbn [List.length]; lia).
      rewrite IH, <- !app_assoc. reflexivity.
Qed.

Lemma first_seen_app (seen a b : list Z) :
  first_seen seen (a ++ b)
  = first_seen seen a ++ first_seen (seen ++ first_seen seen a) b.
Proof.
  revert seen. induction a as [|c a IH]; intros seen.
  - cbn. now rewrite app_nil_r.
  - cbn [app first_seen]. destruct (decide (c ∈ seen)); [apply IH|].
    cbn [app]. f_equal. rewrite IH, <- app_assoc. reflexivity.
Qed.

Lemma gen_palette_layers_first_seen (pxss : list (list byte)) :
  Forall whole_pixels pxss ->
  forall seen,
  gen_palette_layers pxss (palette_of seen, Z.of_nat (List.length seen))
  = Ret (palette_of (seen ++ first_seen seen (concat (map pixel_colors pxss))),
         Z.of_nat (List.length
                     (seen ++ first_seen seen (concat (map pixel_colors pxss))))).
Proof.
  induction 1 as [|pxs pxss Hpxs _ IH]; intros seen.
  - cbn. now rewrite app_nil_r.
  - cbn [gen_palette_layers map concat].
    rewrite gen_palette_pixels_first_seen by (apply chunked_exact; [lia|exact Hpxs]).
    cbn [bind]. rewrite IH, first_seen_app, <- !app_assoc. reflexivity.
Qed.

(** X7: on buffers of whole pixels [gen_palette] numbers the distinct
    colours from 0 in the order of their first occurrence, layer by layer;
    it returns that palette when there are at most 15 colours and raises the
    palette error otherwise. *)
Theorem gen_palette_first_seen (pxss : list (list byte)) :
  Forall whole_pixels pxss ->
  let order := first_seen [] (concat (map pixel_colors pxss)) in
  gen_palette pxss
  = if (15 <? List.length order)%nat
    then raise_class Enc_InvalidPaletteError
    else Ret (palette_of order).
Proof.
  intros Hwhole order.
  pose proof (gen_palette_layers_first_seen pxss Hwhole []) as Hrun.
  cbn [app List.length] in Hrun. fold order in Hrun.
  unfold gen_palette.
  match goal with
  | |- bind ?m _ = _ =>
      replace m with (@Ret (Palette * Z)
                        (palette_of order, Z.of_nat (List.length order)))
        by (symmetry; exact Hrun)
  end.
  cbn [bind]. unfold PyDict.len, PALETTE_SIZE.
  assert (Hlen : List.length (palette_of order) = List.length order).
  { rewrite <- (palette_of_keys order) at 2. unfold PyDict.keys.
    now rewrite length_map. }
  rewrite Hlen.
  destruct (Z.gtb_spec (Z.of_nat (List.length order)) 15),
           (Nat.ltb_spec 15 (List.length order)); try reflexivity; lia.
Qed.

Lemma gen_palette_first_seen_witness :
  gen_palette [r_pixels (raster_of_colors 2 2 [5; 6; 5; 7]);
               r_pixels (raster_of_colors 2 1 [7; 9])]
  = Ret [(5, 0); (6, 1); (7, 2); (9, 3)].
Proof.
  apply (gen_palette_first_seen
           [r_pixels (raster_of_colors 2 2 [5; 6; 5; 7]);
            r_pixels (raster_of_colors 2 1 [7; 9])]).
  repeat (constructor; [reflexivity|]). constructor.
Defined.

Lemma gen_palette_pixels_ragged (pxs : list byte) :
  ~ whole_pixels pxs ->
  forall st, gen_palette_pixels (chunked pxs 4) st = Raise StructError.
Proof.
  unfold whole_pixels.
  remember (List.length pxs) as k eqn:Hk.
  revert pxs Hk. induction k as [k IH] using lt_wf_ind.
  intros pxs Hk Hmod [palette color_i].
  destruct pxs as [|b0 pxs]; [subst k; contradiction Hmod; reflexivity|].
  rewrite chunked_cons by (try lia; discriminate).
  destruct (Nat.lt_ge_cases k 4) as [Hshort|Hlong].
  - cbn [gen_palette_pixels].
    assert (Hlen : (List.length (firstn 4 (b0 :: pxs)) < 4)%nat)
      by (rewrite length_firstn; lia).
    destruct (firstn 4 (b0 :: pxs)) as [|? [|? [|? [|? [|? ?]]]]];
      try reflexivity; cbn [List.length] in Hlen; lia.
  - assert (Hfirst : List.length (firstn 4 (b0 :: pxs)) = 4%nat)
      by (rewrite length_firstn; lia).
    destruct (unpack_pixel _ (chunked (skipn 4 (b0 :: pxs)) 4) Hfirst)
      as (color & Hcolor & _).
    cbn [gen_palette_pixels]. rewrite Hcolor. cbn [bind].
    assert (Hrest : forall st,
               gen_palette_pixels (chunked (skipn 4 (b0 :: pxs)) 4) st
               = Raise StructError).
    { apply (IH (List.length (skipn 4 (b0 :: pxs)))); [|reflexivity|].
      - rewrite length_skipn. lia.
      - rewrite length_skipn, <- Hk. intros Hm. apply Hmod.
        replace k with ((k - 4) + 1 * 4)%nat by lia.
        now rewrite Nat.Div0.mod_add. }
    destruct (PyDict.get palette color); apply Hrest.
Qed.

(** X8: a layer buffer whose length is not a multiple of four makes
    [gen_palette] raise [struct.error], whatever the other layers hold: the
    last chunk of that buffer is short and cannot be unpacked. *)
Theorem gen_palette_ragged_buffer (before after : list (list byte))
  (pxs : list byte) :
  Forall whole_pixels before -> ~ whole_pixels pxs ->
  gen_palette (before ++ pxs :: after) = Raise StructError.
Proof.
  intros Hbefore Hragged. unfold gen_palette.
  assert (Hrun : forall st,
             gen_palette_layers (before ++ pxs :: after) st = Raise StructError).
  { induction Hbefore as [|b before Hb _ IH]; intros st.
    - cbn [app gen_palette_layers].
      now rewrite gen_palette_pixels_ragged.
    - cbn [app gen_palette_layers].
      destruct (gen_palette_pixels_total (chunked b 4)
                  (chunked_exact 4 b ltac:(lia) Hb) st) as (st' & Hst).
      rewrite Hst. cbn [bind]. apply IH. }
  now rewrite Hrun.
Qed.

Lemma gen_palette_ragged_buffer_witness :
  gen_palette [r_pixels plain_layer; firstn 6 (r_pixels plain_layer);
               r_pixels sixteen_colors]
  = Raise StructError.
Proof.
  apply (gen_palette_ragged_buffer [r_pixels plain_layer]
           [r_pixels sixteen_colors] (firstn 6 (r_pixels plain_layer))).
  - constructor; [reflexivity|constructor].
  - vm_compute. discriminate.
Defined.

(** ** Packing with the generated palette *)

Lemma str_of_int_inj (a b : Z) : str_of_int a = str_of_int b -> a = b.
Proof.
  unfold str_of_int. intros Heq.
  assert (Hnorm : forall n, NilZero.int_of_string (NilZero.string_of_int (Z.to_int n))
                            = Some (Z.to_int n)).
  { intros n. apply NilZero.isi; intros Hnil;
      pose proof (DecimalZ.to_of (Z.to_int n)) as Hto;
      rewrite DecimalZ.of_to, Hnil in Hto; discriminate Hto. }
  pose proof (Hnorm a) as Ha. rewrite Heq, Hnorm in Ha.
  injection Ha as Ha. now apply DecimalZ.to_int_inj.
Qed.

Lemma fold_set_fresh {V} (l acc : list (string * V)) :
  NoDup (PyDict.keys (acc ++ l)) ->
  fold_left (fun d kv => PyDict.set d (fst kv) (snd kv)) l acc = acc ++ l.
Proof.
  revert acc. induction l as [|[k v] l IH]; intros acc Hnd.
  - now rewrite app_nil_r.
  - cbn [fold_left fst snd].
    assert (Hget : PyDict.get acc k = None).
    { apply dict_get_None. unfold PyDict.keys in *. rewrite map_app in Hnd.
      apply NoDup_app in Hnd as (_ & Hdis & _). intros Hin.
      apply (Hdis k); [now apply list_elem_of_In|]. cbn. left. }
    rewrite dict_set_new by exact Hget.
    rewrite IH; rewrite <- app_assoc; [reflexivity|exact Hnd].
Qed.

Lemma NoDup_str_of_nat (a n : nat) :
  NoDup (map (fun i => str_of_int (Z.of_nat i)) (seq a n)).
Proof.
  apply NoDup_fmap_2_strong; [|apply NoDup_ListNoDup, List.seq_NoDup].
  intros i j _ _ Heq. apply str_of_int_inj in Heq. lia.
Qed.

Lemma palette_of_get_range (order : list Z) (c i : Z) :
  PyDict.get (palette_of order) c = Some i ->
  0 <= i < Z.of_nat (List.length order).
Proof.
  induction order as [|x order IH] using rev_ind; [discriminate|].
  rewrite palette_of_snoc, length_app. cbn [List.length].
  generalize (palette_of order) IH. clear IH.
  intros d IH. induction d as [|[k v] d IHd].
  - cbn. case_decide; [|discriminate]. intros [= <-]. lia.
  - cbn [app PyDict.get] in *. case_decide.
    + intros Hi. specialize (IH Hi). lia.
    + intros Hi. apply IHd; [|exact Hi]. intros Hd. apply IH. exact Hd.
Qed.

Lemma first_seen_complete (cs seen : list Z) (c : Z) :
  c ∈ cs -> c ∈ seen ++ first_seen seen cs.
Proof.
  revert seen. induction cs as [|x cs IH]; intros seen Hc.
  - now apply elem_of_nil in Hc.
  - cbn [first_seen]. apply elem_of_cons in Hc as [->|Hc].
    + destruct (decide (x ∈ seen)).
      * apply elem_of_app. now left.
      * apply elem_of_app. right. left.
    + destruct (decide (x ∈ seen)); [now apply IH|].
      specialize (IH (seen ++ [x]) Hc). rewrite <- app_assoc in IH. exact IH.
Qed.

Lemma mod8_whole (pxs : list byte) :
  (List.length pxs mod 8 = 0)%nat -> whole_pixels pxs.
Proof.
  intros H8. unfold whole_pixels.
  apply Nat.Div0.div_exact in H8. rewrite H8.
  replace (8 * (List.length pxs / 8))%nat with ((2 * (List.length pxs / 8)) * 4)%nat by lia.
  apply Nat.Div0.mod_mul.
Qed.

Lemma values_combine {A B} (l : list A) (l' : list B) :
  List.length l = List.length l' -> map snd (combine l l') = l'.
Proof.
  revert l'. induction l as [|a l IH]; intros [|b l'] Hlen;
    try discriminate; [reflexivity|].
  cbn. f_equal. apply IH. now injection Hlen.
Qed.

Lemma encode_layers_fresh (palette : Palette) (pxss : list (list byte))
  (outs : list (list byte)) :
  Forall2 (fun pxs out => encode_image palette pxs = Ret out) pxss outs ->
  forall (idxs : list Z) (acc : list (string * value)),
  List.length idxs = List.length pxss ->
  NoDup (PyDict.keys acc ++ map str_of_int idxs) ->
  encode_layers palette (combine idxs pxss) acc
  = Ret (acc ++ combine (map str_of_int idxs) (map VBytes outs)).
Proof.
  induction 1 as [|pxs out pxss outs Hout _ IH]; intros idxs acc Hlen Hnd.
  - destruct idxs; [|discriminate Hlen]. cbn. now rewrite app_nil_r.
  - destruct idxs as [|i idxs]; [discriminate Hlen|]. injection Hlen as Hlen.
    cbn [combine encode_layers map]. rewrite Hout. cbn [bind].
    assert (Hget : PyDict.get acc (str_of_int i) = None).
    { apply dict_get_None. apply NoDup_app in Hnd as (_ & Hdis & _).
      intros Hin. apply (Hdis (str_of_int i)); [now apply list_elem_of_In|].
      cbn. left. }
    rewrite dict_set_new by exact Hget.
    rewrite IH; [now rewrite <- app_assoc|exact Hlen|].
    unfold PyDict.keys in *. rewrite map_app. cbn [map fst].
    rewrite <- app_assoc. exact Hnd.
Qed.

(** What [encode_image_data] returns once every layer is packed. *)
Lemma encode_image_data_assembled (pxss : list (list byte)) (order : list Z)
  (outs : list (list byte)) :
  gen_palette pxss = Ret (palette_of order) ->
  (List.length order <= 15)%nat ->
  Forall2 (fun pxs out => encode_image (palette_of order) pxs = Ret out) pxss outs ->
  encode_image_data pxss
  = Ret (VDict
           ([("mPalette",
              VDict (map (fun ci => (str_of_int (snd ci), VInt (fst ci)))
                         (palette_of order) ++ [("15", VInt 0)]));
             ("mData",
              VDict (combine (map (fun i => str_of_int (Z.of_nat i))
                                  (seq 0 (List.length pxss)))
                             (map VBytes outs)))]
            ++ DUMMY_EXTRA_METADATA)).
Proof.
  intros Hpalette Hsmall Houts. unfold encode_image_data.
  rewrite Hpalette. cbn [bind].
  unfold enumerate.
  rewrite (encode_layers_fresh _ _ _ Houts);
    [|now rewrite length_map, length_seq
     |cbn [PyDict.keys map app]; rewrite map_map; apply NoDup_str_of_nat].
  cbn [bind app]. rewrite map_map.
  assert (Hkeys : PyDict.keys (map (fun ci : Z * Z => (str_of_int (snd ci), VInt (fst ci)))
                                   (palette_of order))
                  = map (fun i => str_of_int (Z.of_nat i)) (seq 0 (List.length order))).
  { unfold PyDict.keys, palette_of. rewrite map_map. cbn [fst].
    rewrite <- (map_map snd str_of_int).
    rewrite values_combine by now rewrite length_map, length_seq.
    now rewrite map_map. }
  unfold PyDict.of_list, PyDict.items. rewrite fold_set_fresh
    by (cbn [app]; rewrite Hkeys; apply NoDup_str_of_nat).
  cbn [app].
  rewrite (dict_set_new (map _ (palette_of order)) (str_of_int PALETTE_SIZE)).
  - reflexivity.
  - apply dict_get_None. rewrite Hkeys. intros Hin.
    apply in_map_iff in Hin as (i & Heq & Hi). apply in_seq in Hi.
    apply str_of_int_inj in Heq. unfold PALETTE_SIZE in Heq. lia.
Qed.

Lemma encode_image_palette_of (order : list Z) (pxs : list byte) :
  (List.length order <= 15)%nat ->
  (List.length pxs mod 8 = 0)%nat ->
  Forall (fun c => c ∈ order) (pixel_colors pxs) ->
  exists out,
    encode_image (palette_of order) pxs = Ret out
    /\ List.length out = (List.length pxs / 8)%nat.
Proof.
  intros Hsmall Hmod Hcolors.
  destruct (blocks_of_buffer 8 pxs ltac:(lia) Hmod) as (blocks & -> & Hblocks).
  destruct (encode_image_blocks (palette_of order) blocks) with (img := @nil byte)
    as (out & Hout & Hlen & _).
  - intros c i Hget. apply palette_of_get_range in Hget. lia.
  - exact Hblocks.
  - eapply Forall_impl; [exact Hcolors|]. intros c Hc. cbn beta in Hc.
    destruct (PyDict.get (palette_of order) c) eqn:Hget; [eauto|].
    apply palette_of_get_None in Hget. contradiction.
  - exists out. split; [exact Hout|].
    rewrite Hlen, (length_concat_blocks 8) by exact Hblocks.
    now rewrite Nat.div_mul by lia.
Qed.

Lemma Forall_exists_Forall2 {A B} (R : A -> B -> Prop) (l : list A) :
  Forall (fun x => exists y, R x y) l -> exists l', Forall2 R l l'.
Proof.
  induction 1 as [|x l (y & Hy) _ (l' & IH)].
  - exists []. constructor.
  - exists (y :: l'). now constructor.
Qed.

(** X9: when every layer buffer holds an even number of pixels and the
    layers have at most 15 distinct colours, [encode_image_data] succeeds:
    the palette built by [gen_palette] covers every pixel, each layer is
    packed into half as many bytes as it has pixels, "mPalette" maps each
    index to its colour and "15" to 0, "mData" maps the position of each
    layer to its bytes, and the fixed metadata follows. *)
Theorem encode_image_data_layers (pxss : list (list byte)) :
  Forall (fun pxs => (List.length pxs mod 8 = 0)%nat) pxss ->
  let order := first_seen [] (concat (map pixel_colors pxss)) in
  (List.length order <= 15)%nat ->
  exists outs,
    Forall2 (fun pxs out =>
               encode_image (palette_of order) pxs = Ret out
               /\ List.length out = (List.length pxs / 8)%nat) pxss outs
    /\ encode_image_data pxss
       = Ret (VDict
                ([("mPalette",
                   VDict (map (fun ci => (str_of_int (snd ci), VInt (fst ci)))
                              (palette_of order) ++ [("15", VInt 0)]));
                  ("mData",
                   VDict (combine (map (fun i => str_of_int (Z.of_nat i))
                                       (seq 0 (List.length pxss)))
                                  (map VBytes outs)))]
                 ++ DUMMY_EXTRA_METADATA)).
Proof.
  intros Heven order Hsmall.
  assert (Hwhole : Forall whole_pixels pxss).
  { eapply Forall_impl; [exact Heven|]. intros pxs. apply mod8_whole. }
  assert (Hpalette : gen_palette pxss = Ret (palette_of order)).
  { pose proof (gen_palette_layers_first_seen pxss Hwhole []) as Hrun.
    cbn [app List.length] in Hrun. fold order in Hrun.
    unfold gen_palette.
    match goal with
    | |- bind ?m _ = _ =>
        replace m with (@Ret (Palette * Z)
                          (palette_of order, Z.of_nat (List.length order)))
          by (symmetry; exact Hrun)
    end.
    cbn [bind]. unfold PyDict.len, PALETTE_SIZE.
    assert (Hlen : List.length (palette_of order) = List.length order).
    { rewrite <- (palette_of_keys order) at 2. unfold PyDict.keys.
      now rewrite length_map. }
    rewrite Hlen.
    destruct (Z.gtb_spec (Z.of_nat (List.length order)) 15); [lia|reflexivity]. }
  assert (Hall : Forall (fun pxs => exists out,
                           encode_image (palette_of order) pxs = Ret out
                           /\ List.length out = (List.length pxs / 8)%nat) pxss).
  { apply List.Forall_forall. intros pxs Hin.
    rewrite List.Forall_forall in Heven.
    apply encode_image_palette_of; [exact Hsmall|now apply Heven|].
    apply List.Forall_forall. intros c Hc.
    apply (first_seen_complete _ [] c). apply list_elem_of_In.
    apply in_concat. exists (pixel_colors pxs). split; [|exact Hc].
    now apply in_map. }
  assert (Houts : exists outs,
             Forall2 (fun pxs out =>
                        encode_image (palette_of order) pxs = Ret out
                        /\ List.length out = (List.length pxs / 8)%nat) pxss outs).
  { now apply Forall_exists_Forall2. }
  destruct Houts as (outs & Houts). exists outs. split; [exact Houts|].
  apply encode_image_data_assembled; [exact Hpalette|exact Hsmall|].
  eapply Forall2_impl; [exact Houts|]. now intros pxs out [Hout _].
Qed.

Lemma encode_image_data_layers_witness :
  let pxss := [r_pixels (raster_of_colors 2 2 [5; 6; 5; 7]);
               r_pixels (raster_of_colors 2 1 [7; 9])] in
  let order := first_seen [] (concat (map pixel_colors pxss)) in
  exists outs,
    Forall2 (fun pxs out =>
               encode_image (palette_of order) pxs = Ret out
               /\ List.length out = (List.length pxs / 8)%nat) pxss outs
    /\ encode_image_data pxss
       = Ret (VDict
                ([("mPalette",
                   VDict (map (fun ci => (str_of_int (snd ci), VInt (fst ci)))
                              (palette_of order) ++ [("15", VInt 0)]));
                  ("mData",
                   VDict (combine (map (fun i => str_of_int (Z.of_nat i))
                                       (seq 0 (List.length pxss)))
                                  (map VBytes outs)))]
                 ++ DUMMY_EXTRA_METADATA)).
Proof.
  intros pxss order.
  apply (encode_image_data_layers pxss).
  - repeat (constructor; [reflexivity|]). constructor.
  - vm_compute. lia.
Defined.

Lemma encode_image_blocks_missing (palette : Palette) (blocks : list (list byte)) :
  (forall color i, PyDict.get palette color = Some i -> 0 <= i <= 14) ->
  Forall (fun b => List.length b = 8%nat) blocks ->
  Exists (fun c => PyDict.get palette c = None) (pixel_colors (concat blocks)) ->
  forall img,
  encode_image_loop palette (chunked (concat blocks) 8) img = Raise KeyError.
Proof.
  intros Hrange.
  induction 1 as [|b blocks Hb Hblocks IH]; intros Hmiss img.
  - cbn in Hmiss. inversion Hmiss.
  - do 8 (destruct b as [|? b]; [discriminate Hb|]).
    destruct b; [|discriminate Hb].
    cbn [concat] in *.
    rewrite chunked_app_block by (try lia; reflexivity).
    match type of Hmiss with
    | context [[?b0; ?b1; ?b2; ?b3; ?b4; ?b5; ?b6; ?b7] ++ ?rest] =>
        change ([b0; b1; b2; b3; b4; b5; b6; b7] ++ rest)
          with ([b0; b1; b2; b3] ++ [b4; b5; b6; b7] ++ rest) in *;
        destruct (pixel_colors_block b0 b1 b2 b3 ([b4; b5; b6; b7] ++ rest))
          as (c1 & Hc1 & Hp1);
        destruct (pixel_colors_block b4 b5 b6 b7 rest) as (c2 & Hc2 & Hp2)
    end.
    rewrite Hp1, Hp2 in Hmiss.
    cbn [encode_image_loop].
    unfold TWO_LITTLE_ENDIAN_UINT32S_unpack_from.
    cbn [List.length Nat.ltb Nat.leb firstn skipn].
    rewrite Hc1, Hc2. cbn [bind].
    destruct (PyDict.get palette c2) as [hi|] eqn:Hhi; [|reflexivity].
    cbn [of_option bind].
    destruct (PyDict.get palette c1) as [lo|] eqn:Hlo; [|reflexivity].
    cbn [of_option bind].
    destruct (to_bytes1_nibbles hi lo) as (byte & Hbyte & _);
      [eauto using Hrange..|].
    rewrite Hbyte. cbn [bind]. apply IH.
    inversion Hmiss as [? ? H1|? ? H1]; subst; [congruence|].
    inversion H1 as [? ? H2|? ? H2]; subst; [congruence|exact H2].
Qed.

(** X10: [encode_image] raises [KeyError] when some pixel of a buffer of
    whole pixel pairs has a colour that the palette (indices in 0..14) does
    not hold, wherever that pixel stands; no bytes are returned. *)
Theorem encode_image_missing_color (palette : Palette) (pxs : list byte) :
  (forall color i, PyDict.get palette color = Some i -> 0 <= i <= 14) ->
  (List.length pxs mod 8 = 0)%nat ->
  Exists (fun c => PyDict.get palette c = None) (pixel_colors pxs) ->
  encode_image palette pxs = Raise KeyError.
Proof.
  intros Hrange Hmod Hmiss.
  destruct (blocks_of_buffer 8 pxs ltac:(lia) Hmod) as (blocks & -> & Hblocks).
  unfold encode_image. now apply encode_image_blocks_missing.
Qed.

Lemma encode_image_missing_color_witness :
  encode_image [(5, 0); (6, 1)] (r_pixels (raster_of_colors 2 2 [5; 6; 5; 7]))
  = Raise KeyError.
Proof.
  apply (encode_image_missing_color [(5, 0); (6, 1)]
           (r_pixels (raster_of_colors 2 2 [5; 6; 5; 7]))).
  - intros color i. cbn [PyDict.get].
    repeat case_decide; intros [= <-]; lia.
  - reflexivity.
  - vm_compute. do 3 apply Exists_cons_tl. apply Exists_cons_hd. reflexivity.
Defined.

(** ** A layer of one colour *)

Lemma pixel_colors_repeat (b0 b1 b2 b3 : byte) (m : nat) :
  exists color,
    LITTLE_ENDIAN_UINT32_unpack [b0; b1; b2; b3] = Ret color
    /\ pixel_colors (concat (repeat [b0; b1; b2; b3] m)) = repeat color m.
Proof.
  eexists. split; [reflexivity|].
  induction m as [|m IH]; [reflexivity|].
  cbn [repeat concat].
  destruct (pixel_colors_block b0 b1 b2 b3 (concat (repeat [b0; b1; b2; b3] m)))
    as (c & Hc & Hp).
  rewrite Hp, IH. injection Hc as <-. reflexivity.
Qed.

Lemma first_seen_repeat_seen (c : Z) (seen : list Z) (m : nat) :
  c ∈ seen -> first_seen seen (repeat c m) = [].
Proof.
  intros Hc. induction m as [|m IH]; [reflexivity|].
  cbn [repeat first_seen]. now rewrite decide_True.
Qed.

Lemma encode_image_loop_single (b0 b1 b2 b3 : byte) (color : Z) (n : nat) :
  LITTLE_ENDIAN_UINT32_unpack [b0; b1; b2; b3] = Ret color ->
  forall img,
  encode_image_loop [(color, 0)]
    (chunked (concat (repeat [b0; b1; b2; b3] (2 * n))) 8) img
  = Ret (img ++ repeat "000"%byte n).
Proof.
  intros Hcolor. induction n as [|n IH]; intros img.
  - cbn. now rewrite app_nil_r.
  - replace (2 * S n)%nat with (S (S (2 * n))) by lia.
    cbn [repeat concat].
    change ([b0; b1; b2; b3] ++ [b0; b1; b2; b3] ++ ?r)
      with ([b0; b1; b2; b3; b0; b1; b2; b3] ++ r).
    rewrite chunked_app_block by (try lia; reflexivity).
    cbn [encode_image_loop].
    unfold TWO_LITTLE_ENDIAN_UINT32S_unpack_from.
    cbn [List.length Nat.ltb Nat.leb firstn skipn].
    rewrite Hcolor. cbn [bind PyDict.get].
    rewrite decide_True by reflexivity. cbn [of_option bind].
    change (to_bytes1 (Z.lor (Z.shiftl 0 4) 0)) with (@Ret byte "000"%byte).
    cbn [bind]. rewrite IH, <- app_assoc. reflexivity.
Qed.

(** X11: a layer in which an even, positive number of pixels all have the
    same colour is encoded with a palette of that one colour at index 0
    (and 0 at index 15) and a packed stream of half as many bytes as pixels,
    every byte being zero. *)
Theorem encode_image_data_single_color (b0 b1 b2 b3 : byte) (n : nat) :
  (0 < n)%nat ->
  exists color,
    LITTLE_ENDIAN_UINT32_unpack [b0; b1; b2; b3] = Ret color
    /\ encode_image_data [concat (repeat [b0; b1; b2; b3] (2 * n))]
       = Ret (VDict
                ([("mPalette", VDict [("0", VInt color); ("15", VInt 0)]);
                  ("mData", VDict [("0", VBytes (repeat "000"%byte n))])]
                 ++ DUMMY_EXTRA_METADATA)).
Proof.
  intros Hn.
  destruct (pixel_colors_repeat b0 b1 b2 b3 (2 * n)) as (color & Hcolor & Hcolors).
  exists color. split; [exact Hcolor|].
  set (pxs := concat (repeat [b0; b1; b2; b3] (2 * n))) in *.
  assert (Hwhole : whole_pixels pxs).
  { unfold whole_pixels, pxs.
    rewrite (length_concat_blocks 4); [apply Nat.Div0.mod_mul|].
    apply List.Forall_forall. intros x Hx. apply repeat_spec in Hx. now subst x. }
  assert (Horder : first_seen [] (concat (map pixel_colors [pxs])) = [color]).
  { cbn [map concat]. rewrite app_nil_r, Hcolors.
    destruct n as [|n]; [lia|].
    replace (2 * S n)%nat with (S (S (2 * n))) by lia.
    cbn [repeat first_seen]. rewrite decide_False by apply not_elem_of_nil.
    cbn [app]. f_equal.
    apply (first_seen_repeat_seen color [color] (S (2 * n))). left. }
  assert (Hpalette : gen_palette [pxs] = Ret (palette_of [color])).
  { pose proof (gen_palette_layers_first_seen [pxs]
                  ltac:(constructor; [exact Hwhole|constructor]) []) as Hrun.
    cbn [app] in Hrun. rewrite Horder in Hrun.
    unfold gen_palette.
    match goal with
    | |- bind ?m _ = _ =>
        replace m with (@Ret (Palette * Z) (palette_of [color], 1))
          by (symmetry; exact Hrun)
    end.
    reflexivity. }
  rewrite (encode_image_data_assembled [pxs] [color] [repeat "000"%byte n]).
  - reflexivity.
  - exact Hpalette.
  - cbn [List.length]. lia.
  - constructor; [|constructor].
    unfold encode_image, pxs. change (palette_of [color]) with [(color, 0)].
    now rewrite (encode_image_loop_single b0 b1 b2 b3 color n Hcolor []).
Qed.

Lemma encode_image_data_single_color_witness :
  exists color,
    LITTLE_ENDIAN_UINT32_unpack ["255"; "000"; "000"; "255"]%byte = Ret color
    /\ encode_image_data [concat (repeat ["255"; "000"; "000"; "255"]%byte (2 * 512))]
       = Ret (VDict
                ([("mPalette", VDict [("0", VInt color); ("15", VInt 0)]);
                  ("mData", VDict [("0", VBytes (repeat "000"%byte 512))])]
                 ++ DUMMY_EXTRA_METADATA)).
Proof.
  apply (encode_image_data_single_color "255" "000" "000" "255" 512). lia.
Defined.

(** ** Validation and the internal layers *)

Lemma validate_loop_ok {Image : Type} (W : Wand Image)
  (self : Design Image) (layers : list Layer) :
  validate_loop self (map (fun l => (name l, l)) layers) = Ret tt
  <-> Forall (supplied self) layers.
Proof.
  split; [|apply validate_loop_complete].
  induction layers as [|l layers IH]; [constructor|].
  cbn [map validate_loop].
  destruct (PyDict.get (layer_images self) (name l)) as [image|] eqn:Hget;
    [|discriminate].
  unfold Layer_validate.
  destruct (decide (image_size image = size l)) as [Hsize|]; [|discriminate].
  cbn [bind]. intros Hrest. constructor; [|now apply IH].
  exists image. now split.
Qed.


(** X12: for a design of a registered type [validate] returns normally
    exactly when every declared external layer is supplied with its
    declared size and the mapping holds no more entries than layers are
    declared. *)
Theorem validate_accepts_exactly {Image : Type} (W : Wand Image)
  (self : Design Image) :
  In (design_type self) design_types ->
  (validate self = Ret tt
   <-> Forall (supplied self) (external_layers (design_type self))
       /\ PyDict.len (layer_images self)
          <= Z.of_nat (List.length (external_layers (design_type self)))).
Proof.
  intros Hreg. destruct (registered_layer_names _ Hreg) as [Hitems _].
  unfold validate. rewrite Hitems. split.
  - intros Hv.
    destruct (validate_loop self _) as [[]| |] eqn:Hloop; try discriminate.
    cbn [bind] in Hv. apply validate_loop_ok in Hloop. split; [exact Hloop|].
    destruct (Z.gtb_spec (PyDict.len (layer_images self))
                (Z.of_nat (List.length (external_layers (design_type self)))));
      [discriminate|lia].
  - intros [Hall Hlen]. rewrite validate_loop_complete by exact Hall.
    cbn [bind].
    destruct (Z.gtb_spec (PyDict.len (layer_images self))
                (Z.of_nat (List.length (external_layers (design_type self)))));
      [lia|reflexivity].
Qed.

Lemma validate_accepts_exactly_witness :
  let self := example_design TankTop
                [("front", plain_layer); ("back", sixteen_colors)] in
  validate self = Ret tt
  <-> Forall (supplied self) (external_layers (design_type self))
      /\ PyDict.len (layer_images self)
         <= Z.of_nat (List.length (external_layers (design_type self))).
Proof.
  intros self. apply (validate_accepts_exactly raster_wand self).
  vm_compute. tauto.
Defined.


Lemma list_index_in_range {A} (l : list A) (i : Z) :
  0 <= i < Z.of_nat (List.length l) -> list_index l i = Ret (Z.to_nat i).
Proof.
  intros Hi. unfold list_index.
  destruct (Z.ltb_spec i 0); [lia|].
  destruct (Z.leb_spec 0 i); [|lia].
  destruct (Z.ltb_spec i (Z.of_nat (List.length l))); [reflexivity|lia].
Qed.




(** ** External layers from internal ones *)

Lemma combine_keys_values {K V} (d : list (K * V)) :
  combine (PyDict.keys d) (PyDict.values d) = d.
Proof. induction d as [|[k v] d IH]; cbn; [reflexivity|]. now f_equal. Qed.

Lemma externalize_names_fresh {Image : Type} (cls : DesignType)
  (images : list Image) :
  NoDup (map name (external_layers cls)) ->
  forall (k : nat) (acc : PyDict.t string Image),
  PyDict.keys acc = firstn k (map name (external_layers cls)) ->
  (k + List.length images <= List.length (external_layers cls))%nat ->
  externalize_names cls (combine (map Z.of_nat (seq k (List.length images))) images) acc
  = Ret (acc ++ combine (skipn k (map name (external_layers cls))) images).
Proof.
  intros Hnd. induction images as [|img images IH]; intros k acc Hacc Hlen.
  - cbn. destruct (skipn k _); now rewrite app_nil_r.
  - cbn [List.length] in Hlen. cbn [List.length seq map combine externalize_names].
    rewrite list_index_in_range by lia. cbn [bind]. rewrite Nat2Z.id.
    destruct (external_layers cls !! k) as [layer|] eqn:Hlayer;
      [|apply lookup_ge_None in Hlayer; lia].
    cbn [of_option bind].
    assert (Hname : map name (external_layers cls) !! k = Some (name layer)).
    { rewrite list_lookup_fmap, Hlayer. reflexivity. }
    assert (Hfresh : PyDict.get acc (name layer) = None).
    { apply dict_get_None. rewrite Hacc. intros Hin.
      rewrite <- (take_drop_middle _ _ _ Hname) in Hnd.
      apply NoDup_app in Hnd as (_ & Hdis & _).
      apply (Hdis (name layer)); [now apply list_elem_of_In|left]. }
    rewrite dict_set_new by exact Hfresh.
    rewrite IH.
    + rewrite <- app_assoc. cbn [app]. now rewrite (drop_S _ _ _ Hname).
    + unfold PyDict.keys in *. rewrite map_app, Hacc. cbn [map fst].
      now rewrite (take_S_r _ _ _ Hname).
    + lia.
Qed.

Lemma externalize_names_overflow {Image : Type} (cls : DesignType)
  (images : list Image) :
  forall (k : nat) (acc : PyDict.t string Image),
  (k <= List.length (external_layers cls))%nat ->
  (List.length (external_layers cls) < k + List.length images)%nat ->
  externalize_names cls (combine (map Z.of_nat (seq k (List.length images))) images) acc
  = Raise IndexError.
Proof.
  induction images as [|img images IH]; intros k acc Hk Hlen.
  - cbn [List.length] in Hlen. lia.
  - cbn [List.length] in Hlen. cbn [List.length seq map combine externalize_names].
    destruct (Nat.eq_dec k (List.length (external_layers cls))) as [->|Hne].
    + unfold list_index.
      destruct (Z.ltb_spec (Z.of_nat (List.length (external_layers cls))) 0); [lia|].
      destruct (Z.ltb_spec (Z.of_nat (List.length (external_layers cls)))
                  (Z.of_nat (List.length (external_layers cls)))); [lia|].
      now rewrite andb_false_r.
    + rewrite list_index_in_range by lia. cbn [bind]. rewrite Nat2Z.id.
      destruct (external_layers cls !! k) as [layer|] eqn:Hlayer;
        [|apply lookup_ge_None in Hlayer; lia].
      cbn [of_option bind]. apply IH; lia.
Qed.

(** X14: for a one-to-one type with distinct layer names, [externalize]
    names the internal images by position: the i-th image becomes the layer
    with the i-th declared name, whatever it shows; with more images than
    declared layers it raises [IndexError]. *)
Theorem externalize_names_by_position {Image : Type} (W : Wand Image)
  (cls : DesignType) (images : list Image)
  (author island design : option string) :
  one_to_one cls = true ->
  NoDup (map name (external_layers cls)) ->
  externalize cls images author island design
  = if (List.length images <=? List.length (external_layers cls))%nat
    then Ret (mkDesign cls author island design
                (combine (map name (external_layers cls)) images))
    else Raise IndexError.
Proof.
  intros H11 Hnd. unfold externalize, enumerate. rewrite H11.
  destruct (Nat.leb_spec (List.length images) (List.length (external_layers cls))).
  - rewrite (externalize_names_fresh cls images Hnd 0 []);
      [reflexivity|reflexivity|lia].
  - rewrite (externalize_names_overflow cls images 0 []); [reflexivity|lia|lia].
Qed.

Lemma externalize_names_by_position_witness :
  externalize TankTop [sixteen_colors; plain_layer] None None None
  = Ret (mkDesign TankTop None None None
           [("back", sixteen_colors); ("front", plain_layer)]).
Proof.
  apply (externalize_names_by_position raster_wand TankTop
           [sixteen_colors; plain_layer] None None None).
  - reflexivity.
  - apply (bool_decide_unpack _). vm_compute. exact I.
Defined.

(** X15: for a one-to-one design whose mapping lists exactly the declared
    layers in declared order, [externalize] undoes [internalize]: it
    rebuilds the design. *)
Theorem externalize_internalize_one_to_one {Image : Type} (W : Wand Image)
  (self : Design Image) :
  one_to_one (design_type self) = true ->
  NoDup (map name (external_layers (design_type self))) ->
  PyDict.keys (layer_images self) = map name (external_layers (design_type self)) ->
  exists images,
    internalize self = Ret images
    /\ externalize (design_type self) images
         (author_name self) (island_name self) (design_name self)
       = Ret self.
Proof.
  intros H11 Hnd Hkeys.
  exists (PyDict.values (layer_images self)). split.
  - unfold internalize. now rewrite H11.
  - unfold externalize, enumerate. rewrite H11.
    rewrite (externalize_names_fresh _ _ Hnd 0 []); [|reflexivity|].
    + cbn [bind app]. rewrite drop_0, <- Hkeys, combine_keys_values.
      now destruct self.
    + unfold PyDict.values. rewrite length_map.
      rewrite <- (length_map name), <- Hkeys. unfold PyDict.keys.
      rewrite length_map. lia.
Qed.

Lemma externalize_internalize_one_to_one_witness :
  let self := example_design TankTop
                [("back", sixteen_colors); ("front", plain_layer)] in
  exists images,
    internalize self = Ret images
    /\ externalize TankTop images None (Some "island") (Some "design") = Ret self.
Proof.
  intros self. apply (externalize_internalize_one_to_one raster_wand self).
  - reflexivity.
  - apply (bool_decide_unpack _). vm_compute. exact I.
  - reflexivity.
Defined.





(** ** Tiling *)

Lemma py_range_standard (n x : Z) :
  In x (py_range 0 n 32) <-> 0 <= x < n /\ x mod 32 = 0.
Proof.
  unfold py_range. rewrite in_map_iff. split.
  - intros (k & <- & Hk). apply in_seq in Hk.
    assert (Z.of_nat k < (n - 0 + 32 - 1) / 32) by lia.
    split; [|rewrite Z.add_0_l, Z.mul_comm; apply Z.mod_mul; lia].
    Z.div_mod_to_equations. lia.
  - intros [Hx Hmod]. exists (Z.to_nat (x / 32)). split.
    + Z.div_mod_to_equations. lia.
    + apply in_seq. Z.div_mod_to_equations. lia.
Qed.

Lemma length_py_range_standard (n : Z) :
  List.length (py_range 0 n 32) = Z.to_nat ((n + 31) / 32).
Proof.
  unfold py_range. rewrite length_map, length_seq. do 2 f_equal. lia.
Qed.

Lemma tile_slices_in (w h : Z) (s : (Z * Z) * (Z * Z)) :
  In s (tile_slices w h) <->
  exists x y, In x (py_range 0 w 32) /\ In y (py_range 0 h 32)
              /\ s = ((x, Z.min w (x + 32)), (y, Z.min h (y + 32))).
Proof.
  unfold tile_slices, STANDARD_WIDTH, STANDARD_HEIGHT.
  rewrite in_flat_map. split.
  - intros (y & Hy & Hs). apply in_map_iff in Hs as (x & <- & Hx). eauto.
  - intros (x & y & Hx & Hy & ->). exists y. split; [exact Hy|].
    apply in_map_iff. eauto.
Qed.

(** X17: [tile] yields ceil(width/32) times ceil(height/32) sub-images; every
    slice it takes lies inside the image and is at most 32 by 32; and every
    pixel of the image lies in exactly one of the slices. *)
Theorem tile_partitions_image {Image : Type} (W : Wand Image) (image : Image) :
  let width := fst (image_size image) in
  let height := snd (image_size image) in
  tile image = map (fun s => crop image (fst s) (snd s)) (tile_slices width height)
  /\ List.length (tile image)
     = (Z.to_nat ((height + 31) / 32) * Z.to_nat ((width + 31) / 32))%nat
  /\ (forall s, In s (tile_slices width height) ->
        0 <= fst (fst s) < snd (fst s) /\ snd (fst s) <= width
        /\ snd (fst s) - fst (fst s) <= 32
        /\ 0 <= fst (snd s) < snd (snd s) /\ snd (snd s) <= height
        /\ snd (snd s) - fst (snd s) <= 32)
  /\ (forall x y, 0 <= x < width -> 0 <= y < height ->
        exists s, In s (tile_slices width height)
                  /\ in_slices s x y
                  /\ forall s', In s' (tile_slices width height) ->
                                in_slices s' x y -> s' = s).
Proof.
  intros width height. split; [reflexivity|]. split; [|split].
  - unfold tile. fold width height. rewrite length_map.
    unfold tile_slices, STANDARD_WIDTH, STANDARD_HEIGHT.
    rewrite (flat_map_constant_length (c := List.length (py_range 0 width 32))).
    + now rewrite !length_py_range_standard.
    + intros y _. now rewrite length_map.
  - intros s Hs. apply tile_slices_in in Hs as (x & y & Hx & Hy & ->).
    apply py_range_standard in Hx as [Hx _], Hy as [Hy _]. cbn [fst snd]. lia.
  - intros x y Hx Hy.
    exists ((32 * (x / 32), Z.min width (32 * (x / 32) + 32)),
            (32 * (y / 32), Z.min height (32 * (y / 32) + 32))).
    split; [|split].
    + apply tile_slices_in. exists (32 * (x / 32)), (32 * (y / 32)).
      repeat split; apply py_range_standard;
        (split; [Z.div_mod_to_equations; lia
                |rewrite Z.mul_comm; apply Z.mod_mul; lia]).
    + unfold in_slices. cbn [fst snd]. Z.div_mod_to_equations. lia.
    + intros s' Hs' Hin. apply tile_slices_in in Hs' as (x' & y' & Hx' & Hy' & ->).
      apply py_range_standard in Hx' as [Hx' Hmx], Hy' as [Hy' Hmy].
      unfold in_slices in Hin. cbn [fst snd] in Hin.
      assert (x' = 32 * (x / 32)) by (Z.div_mod_to_equations; lia).
      assert (y' = 32 * (y / 32)) by (Z.div_mod_to_equations; lia).
      now subst.
Qed.

(** ** Quantisation and the basic encoder *)

(** X18: when [maybe_quantize] returns, the image it leaves has at most 15
    colours; [was_quantized] tells whether the image had more before, in
    which case the image was quantised to 15 colours, and otherwise the image
    is untouched. *)
Theorem maybe_quantize_postcondition {Image : Type} (E : WandEdit Image)
  (image image' : Image) (was_quantized : bool) :
  maybe_quantize image = Ret (image', was_quantized) ->
  colors image' <= PALETTE_SIZE
  /\ was_quantized = (colors image >? PALETTE_SIZE)
  /\ image' = (if was_quantized then quantize image PALETTE_SIZE else image).
Proof.
  unfold maybe_quantize.
  destruct (colors image >? PALETTE_SIZE) eqn:Hbefore.
  - destruct (Z.gtb_spec (colors (quantize image PALETTE_SIZE)) PALETTE_SIZE);
      [discriminate|].
    intros [= <- <-]. repeat split. assumption.
  - rewrite Hbefore. intros [= <- <-]. repeat split.
    destruct (Z.gtb_spec (colors image) PALETTE_SIZE); [discriminate|assumption].
Qed.

Lemma maybe_quantize_postcondition_witness :
  colors (raster_quantize sixteen_colors PALETTE_SIZE) <= PALETTE_SIZE
  /\ true = (colors sixteen_colors >? PALETTE_SIZE)
  /\ raster_quantize sixteen_colors PALETTE_SIZE
     = (if true then quantize sixteen_colors PALETTE_SIZE else sixteen_colors).
Proof.
  apply (maybe_quantize_postcondition raster_edit sixteen_colors
           (raster_quantize sixteen_colors PALETTE_SIZE) true).
  vm_compute. reflexivity.
Defined.

(** X19: [encode_basic] leaves a layer "0" of the standard size with at
    most 15 colours as it is: no resizing, no flattening, no quantising; it
    returns [was_quantized] false with the encoding of the layer's own
    pixels, or raises what that encoding raises. *)
Theorem encode_basic_standard_layer {Image : Type} (W : Wand Image)
  (E : WandEdit Image) (design : Design Image) (image : Image) :
  PyDict.get (layer_images design) "0" = Some image ->
  image_size image = STANDARD ->
  colors image <= PALETTE_SIZE ->
  encode_basic design
  = bind (encode_image_data [export_pixels image])
         (fun img_data => Ret (false, img_data)).
Proof.
  intros Hget Hsize Hcolors. unfold encode_basic.
  rewrite Hget. cbn [of_option bind]. rewrite Hsize.
  change (tuple_gt STANDARD STANDARD) with false. cbn iota.
  rewrite Hsize, decide_True by reflexivity.
  unfold maybe_quantize.
  destruct (Z.gtb_spec (colors image) PALETTE_SIZE); [lia|].
  destruct (Z.gtb_spec (colors image) PALETTE_SIZE); [lia|].
  reflexivity.
Qed.

Lemma encode_basic_standard_layer_witness :
  encode_basic (example_design BasicDesign [("0", plain_layer)])
  = bind (encode_image_data [export_pixels plain_layer])
         (fun img_data => Ret (false, img_data)).
Proof.
  apply (encode_basic_standard_layer raster_wand raster_edit
           (example_design BasicDesign [("0", plain_layer)]) plain_layer).
  - reflexivity.
  - reflexivity.
  - vm_compute. discriminate.
Defined.

(** X20: sizes are compared as tuples, width first: [encode_basic] never
    resizes a layer narrower than 32 pixels, however tall it is; the layer
    is flattened as it is onto a blank standard canvas. *)
Theorem encode_basic_narrow_layer {Image : Type} (W : Wand Image)
  (E : WandEdit Image) (design : Design Image) (image : Image) :
  PyDict.get (layer_images design) "0" = Some image ->
  fst (image_size image) < STANDARD_WIDTH ->
  encode_basic design
  = bind (maybe_quantize (flatten_onto (blank STANDARD_WIDTH STANDARD_HEIGHT) image))
         (fun r => bind (encode_image_data [export_pixels (fst r)])
                        (fun img_data => Ret (snd r, img_data))).
Proof.
  intros Hget Hnarrow. unfold encode_basic.
  rewrite Hget. cbn [of_option bind].
  assert (Hgt : tuple_gt (image_size image) STANDARD = false).
  { unfold tuple_gt, STANDARD. cbn [fst snd].
    destruct (Z.gtb_spec (fst (image_size image)) STANDARD_WIDTH); [lia|].
    destruct (Z.eqb_spec (fst (image_size image)) STANDARD_WIDTH); [lia|].
    reflexivity. }
  rewrite Hgt. cbn iota.
  rewrite decide_False.
  - destruct (maybe_quantize _) as [[image' q]| |]; reflexivity.
  - intros Heq. rewrite Heq in Hnarrow. cbn in Hnarrow. lia.
Qed.

Lemma encode_basic_narrow_layer_witness :
  let image := raster_of_colors 20 40 [1; 2] in
  encode_basic (example_design BasicDesign [("0", image)])
  = bind (maybe_quantize (flatten_onto (blank STANDARD_WIDTH STANDARD_HEIGHT) image))
         (fun r => bind (encode_image_data [export_pixels (fst r)])
                        (fun img_data => Ret (snd r, img_data))).
Proof.
  intros image.
  apply (encode_basic_narrow_layer raster_wand raster_edit
           (example_design BasicDesign [("0", image)]) image).
  - reflexivity.
  - vm_compute. reflexivity.
Defined.

(** ** The error taxonomy as a table *)

(** X21: the numeric codes identify the kinds: two coded kinds of
    [errors.py], or of the error classes of [encode.py], that expose the
    same code are the same kind. *)
Theorem error_codes_identify_kinds (E : Environment) (c1 c2 : ErrClass)
  (code : Z) :
  In c1 (taxonomy ++ [Enc_InvalidLayerNameError; Enc_InvalidPaletteError;
                      Enc_InvalidLayerSizeError; Enc_MissingLayerError]) ->
  In c2 (taxonomy ++ [Enc_InvalidLayerNameError; Enc_InvalidPaletteError;
                      Enc_InvalidLayerSizeError; Enc_MissingLayerError]) ->
  class_getattr c1 "code" = Some (VInt code) ->
  class_getattr c2 "code" = Some (VInt code) ->
  c1 = c2.
Proof.
  intros H1 H2 Hc1 Hc2.
  assert (Hk : forall c,
             In c (taxonomy ++ [Enc_InvalidLayerNameError; Enc_InvalidPaletteError;
                                Enc_InvalidLayerSizeError; Enc_MissingLayerError]) ->
             class_getattr c "code" = Some (VInt code) ->
             nth_error
               [(101, UnknownDodoCodeError); (102, InvalidDodoCodeError);
                (201, UnknownDesignCodeError); (202, InvalidDesignCodeError);
                (203, UnknownAuthorIdError); (204, InvalidScaleFactorError);
                (205, InvalidAuthorIdError); (206, InvalidProArgument);
                (207, InvalidDesignError); (208, InvalidPaletteError);
                (209, InvalidLayerSizeError_1); (230, CannotScaleThumbnailError);
                (301, UnknownImageIdError); (302, InvalidLayerIndexError);
                (303, DeletionDeniedError); (304, SingleLayerRequired);
                (305, InvalidLayerSizeError); (306, TiledImageTooBigError);
                (307, InvalidImageArgument); (308, InvalidLayerNameError);
                (309, MissingLayerError); (310, InvalidImageError);
                (311, InvalidImageIdError); (312, InvalidImageDeletionToken);
                (901, MissingUserAgentStringError);
                (902, IncorrectAuthorizationError);
                (37, Enc_InvalidLayerNameError); (27, Enc_InvalidPaletteError);
                (28, Enc_InvalidLayerSizeError); (38, Enc_MissingLayerError)]
               (Z.to_nat (if code <? 100 then
                            (if code =? 37 then 26 else if code =? 27 then 27
                             else if code =? 28 then 28 else 29)
                          else if code <? 200 then code - 101
                          else if code <? 210 then code - 199
                          else if code <? 300 then 11
                          else if code <? 900 then code - 289
                          else code - 877))
             = Some (code, c)).
  { intros c Hc. unfold taxonomy in Hc. cbn [app In] in Hc.
    repeat (destruct Hc as [<-|Hc]; [vm_compute; intros [= <-]; reflexivity|]).
    contradiction. }
  pose proof (Hk c1 H1 Hc1) as Hn1. pose proof (Hk c2 H2 Hc2) as Hn2.
  congruence.
Qed.

Lemma error_codes_identify_kinds_witness :
  MissingLayerError = MissingLayerError.
Proof.
  apply (error_codes_identify_kinds plain_environment
           MissingLayerError MissingLayerError 309);
    first [reflexivity | vm_compute; tauto].
Defined.



(** X23: the report of the image [InvalidLayerSizeError] (code 305) built
    for a width and a height carries both, their product times four as the
    expected byte length, the formatted message under "message", and the
    status 400 inherited from the first [InvalidImageError]. *)
Theorem layer_size_report (E : Environment) (width height : Z) (text : string) :
  let self := mkInstance InvalidLayerSizeError
                [("width", VInt width); ("height", VInt height)] in
  str_format "One or more layers was not {0.width}×{0.height}." self = Ret text ->
  to_dict self
  = Ret (VDict [("error", VStr "One or more layers was not {0.width}×{0.height}.");
                ("error_code", VInt 305);
                ("http_status", VInt 400);
                ("expected_width", VInt width);
                ("expected_height", VInt height);
                ("expected_byte_length", VInt (width * height * BYTES_PER_PIXEL));
                ("message", VStr text)]).
Proof.
  intros self Hformat. unfold self in *. clear self.
  vm_compute in Hformat. vm_compute. rewrite Hformat. reflexivity.
Qed.

Lemma layer_size_report_witness :
  let self := mkInstance InvalidLayerSizeError
                [("width", VInt 32); ("height", VInt 32)] in
  @to_dict plain_environment self
  = Ret (VDict [("error", VStr "One or more layers was not {0.width}×{0.height}.");
                ("error_code", VInt 305);
                ("http_status", VInt 400);
                ("expected_width", VInt 32);
                ("expected_height", VInt 32);
                ("expected_byte_length", VInt (32 * 32 * BYTES_PER_PIXEL));
                ("message", VStr "One or more layers was not {0.width}×{0.height}.")]).
Proof.
  intros self.
  apply (layer_size_report plain_environment 32 32
           "One or more layers was not {0.width}×{0.height}.").
  reflexivity.
Defined.

(** ** Headers and the pro flag *)

Lemma dict_get_set_eq {K V} `{EqDecision K} (d : PyDict.t K V) (k : K) (v : V) :
  PyDict.get (PyDict.set d k v) k = Some v.
Proof.
  induction d as [|[k' v'] d IH]; cbn [PyDict.set PyDict.get].
  - now rewrite decide_True.
  - case_decide; cbn [PyDict.get].
    + now rewrite decide_True.
    + now rewrite decide_False.
Qed.

Lemma dict_get_set_ne {K V} `{EqDecision K} (d : PyDict.t K V) (k k' : K) (v : V) :
  k <> k' -> PyDict.get (PyDict.set d k v) k' = PyDict.get d k'.
Proof.
  intros Hne. induction d as [|[k0 v0] d IH]; cbn [PyDict.set PyDict.get].
  - now rewrite decide_False.
  - case_decide; cbn [PyDict.get].
    + subst k0. now rewrite !decide_False.
    + case_decide; [reflexivity|exact IH].
Qed.

Lemma merge_headers_result (data headers : list (string * value))
  (author id created updated : value) :
  PyDict.get headers "design_player_name" = Some author ->
  PyDict.get headers "design_player_id" = Some id ->
  PyDict.get headers "created_at" = Some created ->
  PyDict.get headers "updated_at" = Some updated ->
  exists data',
    merge_headers (VDict data) (VDict headers) = Ret (VDict data')
    /\ PyDict.get data' "author_name" = Some author
    /\ PyDict.get data' "author_id" = Some id
    /\ PyDict.get data' "created_at" = Some created
    /\ PyDict.get data' "updated_at" = Some updated
    /\ forall k, ~ In k ["author_name"; "author_id"; "created_at"; "updated_at"] ->
                 PyDict.get data' k = PyDict.get data k.
Proof.
  intros Ha Hi Hc Hu. eexists. unfold merge_headers.
  cbn [getitem setitem]. rewrite Ha, Hi, Hc, Hu. cbn [of_option bind].
  split; [reflexivity|].
  repeat split.
  - rewrite !dict_get_set_ne by discriminate. apply dict_get_set_eq.
  - rewrite !dict_get_set_ne by discriminate. apply dict_get_set_eq.
  - rewrite !dict_get_set_ne by discriminate. apply dict_get_set_eq.
  - apply dict_get_set_eq.
  - intros k Hk. cbn [In] in Hk.
    rewrite !dict_get_set_ne; [reflexivity|intros <-; tauto..].
Qed.

(** X24: [merge_headers] copies the four header fields into the body
    record under the names author_name, author_id, created_at and updated_at
    and leaves every other entry of the record as it was. *)
Theorem merge_headers_fields (data headers : list (string * value))
  (author id created updated : value) :
  PyDict.get headers "design_player_name" = Some author ->
  PyDict.get headers "design_player_id" = Some id ->
  PyDict.get headers "created_at" = Some created ->
  PyDict.get headers "updated_at" = Some updated ->
  exists data',
    merge_headers (VDict data) (VDict headers) = Ret (VDict data')
    /\ PyDict.get data' "author_name" = Some author
    /\ PyDict.get data' "author_id" = Some id
    /\ PyDict.get data' "created_at" = Some created
    /\ PyDict.get data' "updated_at" = Some updated
    /\ forall k, ~ In k ["author_name"; "author_id"; "created_at"; "updated_at"] ->
                 PyDict.get data' k = PyDict.get data k.
Proof.
  apply merge_headers_result.
Qed.

Lemma merge_headers_fields_witness :
  exists data',
    merge_headers (VDict [("mData", VNone); ("author_id", VInt 0)])
      (VDict [("created_at", VInt 3); ("updated_at", VInt 4);
              ("design_player_name", VStr "io"); ("design_player_id", VInt 7)])
    = Ret (VDict data')
    /\ PyDict.get data' "author_name" = Some (VStr "io")
    /\ PyDict.get data' "author_id" = Some (VInt 7)
    /\ PyDict.get data' "created_at" = Some (VInt 3)
    /\ PyDict.get data' "updated_at" = Some (VInt 4)
    /\ forall k, ~ In k ["author_name"; "author_id"; "created_at"; "updated_at"] ->
                 PyDict.get data' k
                 = PyDict.get [("mData", VNone); ("author_id", VInt 0)] k.
Proof.
  apply (merge_headers_fields [("mData", VNone); ("author_id", VInt 0)]
           [("created_at", VInt 3); ("updated_at", VInt 4);
            ("design_player_name", VStr "io"); ("design_player_id", VInt 7)]);
    reflexivity.
Defined.

(** X25: a design is pro exactly when its type has more than one internal
    layer; among the registered types this leaves [BasicDesign] as the only
    one that [encode] hands to the basic encoder. *)
Theorem only_basic_design_is_basic {Image : Type} (self : Design Image) :
  In (design_type self) design_types ->
  (pro self = false <-> design_type self = BasicDesign).
Proof.
  intros Hreg. unfold pro.
  destruct self as [t a i d l]. cbn [design_type] in *.
  unfold design_types in Hreg. cbn [In] in Hreg.
  destruct Hreg as [<-|Hreg]; [split; reflexivity|].
  repeat (destruct Hreg as [<-|Hreg];
          [split; [intros H; vm_compute in H; discriminate H
                  |intros H; apply (f_equal type_code) in H;
                   vm_compute in H; discriminate H]|]).
  contradiction.
Qed.

Lemma only_basic_design_is_basic_witness :
  pro (example_design TankTop [("back", plain_layer)]) = false
  <-> TankTop = BasicDesign.
Proof.
  apply (only_basic_design_is_basic (example_design TankTop [("back", plain_layer)])).
  vm_compute. tauto.
Defined.

(** ** Downloading a design *)

(** X26: [download_design] checks the status of the listing response only.
    When the listing names one design, the decoded content of the second
    response is returned with the four header fields merged in, whatever the
    status of that second response. *)
Theorem download_design_body_unchecked (S : Service) (id : Z)
  (listing header : list (string * value)) (rest : list value)
  (url : string) (data : list (string * value)) :
  let first := request (mkRequest "GET" "/api/v2/designs"
                 [("offset", VInt 0); ("limit", VInt 1);
                  ("q[design_id]", VInt id)] None) in
  let second := request (mkRequest "GET"
                  (fst (urlparse url) +:+ "?" +:+ snd (urlparse url)) [] None) in
  raise_for_status first = Ret tt ->
  msgpack_loads (content first) = VDict listing ->
  PyDict.get listing "total" = Some (VInt 1) ->
  PyDict.get listing "headers" = Some (VList (VDict header :: rest)) ->
  PyDict.get header "body" = Some (VStr url) ->
  Forall (fun k => is_Some (PyDict.get header k))
    ["design_player_name"; "design_player_id"; "created_at"; "updated_at"] ->
  msgpack_loads (content second) = VDict data ->
  exists data',
    download_design (Id id) false = Ret (VDict data')
    /\ PyDict.get data' "author_name" = PyDict.get header "design_player_name"
    /\ PyDict.get data' "author_id" = PyDict.get header "design_player_id"
    /\ PyDict.get data' "created_at" = PyDict.get header "created_at"
    /\ PyDict.get data' "updated_at" = PyDict.get header "updated_at"
    /\ forall k, ~ In k ["author_name"; "author_id"; "created_at"; "updated_at"] ->
                 PyDict.get data' k = PyDict.get data k.
Proof.
  intros first second Hstatus Hlisting Htotal Hheaders Hbody Hfields Hdata.
  apply Forall_cons in Hfields as [[author Ha] Hfields].
  apply Forall_cons in Hfields as [[aid Hi] Hfields].
  apply Forall_cons in Hfields as [[created Hc] Hfields].
  apply Forall_cons in Hfields as [[updated Hu] _].
  destruct (merge_headers_result data header author aid created updated
              Ha Hi Hc Hu) as (data' & Hmerge & Hrest).
  exists data'. rewrite Ha, Hi, Hc, Hu. split; [|exact Hrest].
  unfold download_design, accepts_design_id, download_design_body.
  fold first. rewrite Hstatus. cbn [bind]. rewrite Hlisting.
  cbn [getitem]. rewrite Htotal. cbn [of_option bind truthy as_int negb Z.eqb].
  change (1 <? 1) with false. cbn iota.
  rewrite Hheaders. cbn [of_option bind list_getitem nth_error getitem].
  rewrite Hbody. cbn [of_option bind as_str]. fold second.
  rewrite Hdata. exact Hmerge.
Qed.

Lemma download_design_body_unchecked_witness :
  status_code (@request (catalogue_service 500)
                 (mkRequest "GET" "/blob?" [] None)) = 500
  /\ exists data',
    @download_design (catalogue_service 500) (Id 5) false = Ret (VDict data')
    /\ PyDict.get data' "author_name"
       = PyDict.get catalogue_header "design_player_name"
    /\ PyDict.get data' "author_id"
       = PyDict.get catalogue_header "design_player_id"
    /\ PyDict.get data' "created_at" = PyDict.get catalogue_header "created_at"
    /\ PyDict.get data' "updated_at" = PyDict.get catalogue_header "updated_at"
    /\ forall k, ~ In k ["author_name"; "author_id"; "created_at"; "updated_at"] ->
                 PyDict.get data' k = PyDict.get [("mData", VNone)] k.
Proof.
  split; [reflexivity|].
  apply (download_design_body_unchecked (catalogue_service 500) 5
           [("total", VInt 1); ("headers", VList [VDict catalogue_header])]
           catalogue_header [] "/blob" [("mData", VNone)]);
    try reflexivity.
  repeat (constructor; [eexists; reflexivity|]). constructor.
Defined.
